(** * Daily airline digest: a shallow embedding of
    [daily_airline-digest_email_sender.py] and the properties of its
    selection / delivery / ledger workflow.

    Modelling conventions.

    - Python values that travel through the script (decoded JSON bodies,
      dictionary fields, set elements) are terms of [value].  JSON numbers
      are modelled as integers; a Python [str] is a [string] whose
      characters are the 8-bit characters of Rocq (so [len] counts those).
    - A [dict] is an association list in insertion order, looked up at the
      first binding of a key; decoded JSON objects have distinct keys.
    - A Python [set] is the list of its elements, kept free of duplicates
      for Python's [==] on hashable values (under which [True == 1] and
      [False == 0]).  The order in which a set is iterated is that of its
      hash table, which the script does not control: where the script
      lists a set, the order is picked by the environment ([arrange]).
    - Exceptions are values of [exn]; code that may raise returns a
      [result], and code that also mutates state lives in the monad [M],
      where the state reached when an exception is raised is kept, as in
      Python.
    - The outside world is explicit: the answers of the three HTTP
      services, the process environment, the clock and the random
      generator are fields of [env]; the ledger file and the record of
      outward calls are the [world] threaded through [main].
    - [print] is modelled in the two catalog fetchers only (it is the one
      thing in which they differ); elsewhere the printed lines are left
      out, no property below speaks about them. *)

From Stdlib Require Import ZArith List String Ascii Bool Arith Lia DecimalString
  Permutation.
Import ListNotations.
Open Scope string_scope.

(* ===================================================================== *)
(** ** Python values                                                   *)
(* ===================================================================== *)

#[warnings="-register-all"]
Inductive value : Type :=
| VNone
| VBool (b : bool)
| VInt (z : Z)
| VStr (s : string)
| VList (l : list value)
| VDict (d : list (string * value)).

Definition dict : Type := list (string * value).

Inductive exn : Type :=
| AttributeError (msg : string)
| TypeError (msg : string)
| ResponseError (msg : string)
| OtherError (msg : string).

(** [str(e)] of an exception, as an f-string prints it. *)
Definition exn_str (e : exn) : string :=
  match e with
  | AttributeError m | TypeError m | ResponseError m | OtherError m => m
  end.

Inductive result (A : Type) : Type :=
| Ok (a : A)
| Raise (e : exn).
Arguments Ok {A} a.
Arguments Raise {A} e.

Definition dq : string := String (ascii_of_nat 34) EmptyString.
Definition nl : string := String (ascii_of_nat 10) EmptyString.

Definition type_name (v : value) : string :=
  match v with
  | VNone => "NoneType"
  | VBool _ => "bool"
  | VInt _ => "int"
  | VStr _ => "str"
  | VList _ => "list"
  | VDict _ => "dict"
  end.

(** Truth value of an object ([if x:], [not x], [x and y]). *)
Definition truthy (v : value) : bool :=
  match v with
  | VNone => false
  | VBool b => b
  | VInt z => negb (z =? 0)%Z
  | VStr s => negb (s =? "")
  | VList l => match l with [] => false | _ => true end
  | VDict d => match d with [] => false | _ => true end
  end.

Fixpoint dict_get (d : dict) (k : string) : option value :=
  match d with
  | [] => None
  | (k', v) :: rest => if k' =? k then Some v else dict_get rest k
  end.

(** [d.get(k, default)] on a dict. *)
Definition dict_get_default (d : dict) (k : string) (dflt : value) : value :=
  match dict_get d k with
  | Some v => v
  | None => dflt
  end.

Definition no_attribute (v : value) (attr : string) : exn :=
  AttributeError ("'" ++ type_name v ++ "' object has no attribute '" ++ attr ++ "'").

(** [x.get(k, default)] on any object: only a dict has the method. *)
Definition py_get_default (x : value) (k : string) (dflt : value) : result value :=
  match x with
  | VDict d => Ok (dict_get_default d k dflt)
  | _ => Raise (no_attribute x "get")
  end.

(** [x.get(k)]: the default is [None]. *)
Definition py_get (x : value) (k : string) : result value :=
  py_get_default x k VNone.

(** [x.items()]. *)
Definition py_items (x : value) : result dict :=
  match x with
  | VDict d => Ok d
  | _ => Raise (no_attribute x "items")
  end.

Fixpoint chars (s : string) : list value :=
  match s with
  | EmptyString => []
  | String c rest => VStr (String c EmptyString) :: chars rest
  end.

(** The elements a [for] loop (or [set(...)]) draws from an object. *)
Definition py_iter (x : value) : result (list value) :=
  match x with
  | VList l => Ok l
  | VDict d => Ok (map (fun kv => VStr (fst kv)) d)
  | VStr s => Ok (chars s)
  | _ => Raise (TypeError ("'" ++ type_name x ++ "' object is not iterable"))
  end.

(** [len(x)]. *)
Definition py_len (x : value) : result nat :=
  match x with
  | VList l => Ok (List.length l)
  | VDict d => Ok (List.length d)
  | VStr s => Ok (String.length s)
  | _ => Raise (TypeError ("object of type '" ++ type_name x ++ "' has no len()"))
  end.

Definition str_of_nat (n : nat) : string := NilEmpty.string_of_uint (Nat.to_uint n).
Definition str_of_Z (z : Z) : string := NilEmpty.string_of_int (Z.to_int z).

(* --------------------------------------------------------------------- *)
(** *** Hashable values and sets                                           *)
(* --------------------------------------------------------------------- *)

Definition hashable (v : value) : bool :=
  match v with
  | VList _ | VDict _ => false
  | _ => true
  end.

(** Python's [==] between hashable values: numbers compare by value, and a
    bool is the number 0 or 1. *)
Definition py_eqb (a b : value) : bool :=
  match a, b with
  | VNone, VNone => true
  | VStr s, VStr t => s =? t
  | VInt x, VInt y => (x =? y)%Z
  | VBool x, VBool y => Bool.eqb x y
  | VBool x, VInt y | VInt y, VBool x => ((if x then 1 else 0) =? y)%Z
  | _, _ => false
  end.

Definition pyset : Type := list value.

Definition unhashable (v : value) : exn :=
  TypeError ("unhashable type: '" ++ type_name v ++ "'").

(** Membership of a hashable value. *)
Definition set_mem (s : pyset) (v : value) : bool := existsb (py_eqb v) s.

(** [v in s]: hashing [v] comes first. *)
Definition set_contains (s : pyset) (v : value) : result bool :=
  if hashable v then Ok (set_mem s v) else Raise (unhashable v).

(** [s.add(v)]: an element equal to [v] that is already there stays. *)
Definition set_add (s : pyset) (v : value) : result pyset :=
  if hashable v then Ok (if set_mem s v then s else (s ++ [v])%list)
  else Raise (unhashable v).

(** [set(items)]. *)
Fixpoint set_of_list (items : list value) (acc : pyset) : result pyset :=
  match items with
  | [] => Ok acc
  | v :: rest =>
      match set_add acc v with
      | Ok acc' => set_of_list rest acc'
      | Raise e => Raise e
      end
  end.

(** [v] put at position [n] of [l], or at its end when [l] is shorter. *)
Fixpoint insert_at (n : nat) (v : value) (l : list value) : list value :=
  match n, l with
  | 0, _ => v :: l
  | S n', x :: rest => x :: insert_at n' v rest
  | S _, [] => [v]
  end.

(** [list(s)] of a set: its elements in the order of the hash table.
    That order depends on the hashes, which for strings change from one
    process to the next, so it is an input: [order] gives, for each
    element in turn, the position it takes among the elements that come
    after it in [s].  The result is always a rearrangement of [s], and
    every rearrangement is the result for some [order]
    ([arrange_permutation], [arrange_any_order]). *)
Fixpoint arrange (order : list nat) (s : pyset) : list value :=
  match s with
  | [] => []
  | v :: rest =>
      match order with
      | [] => v :: arrange [] rest
      | n :: order' => insert_at n v (arrange order' rest)
      end
  end.

(* ===================================================================== *)
(** ** Exceptions and state                                            *)
(* ===================================================================== *)

Class Monad (m : Type -> Type) : Type := {
  ret : forall {A : Type}, A -> m A;
  bind : forall {A B : Type}, m A -> (A -> m B) -> m B
}.

Declare Scope monad_scope.
Notation "x <- c1 ;; c2" := (bind c1 (fun x => c2))
  (at level 61, c1 at next level, right associativity) : monad_scope.
Notation "c1 ;; c2" := (bind c1 (fun _ => c2))
  (at level 61, right associativity) : monad_scope.
Open Scope monad_scope.

#[export] Instance result_monad : Monad result := {
  ret := fun A a => Ok a;
  bind := fun A B c f => match c with Ok a => f a | Raise e => Raise e end
}.

(** Computations over a mutable state [S] that may raise. *)
Definition M (S A : Type) : Type := S -> result A * S.

#[export] Instance M_monad (S : Type) : Monad (M S) := {
  ret := fun A a s => (Ok a, s);
  bind := fun A B c f s =>
    match c s with
    | (Ok a, s') => f a s'
    | (Raise e, s') => (Raise e, s')
    end
}.

Definition lift {S A : Type} (r : result A) : M S A := fun s => (r, s).
Definition get_state {S : Type} : M S S := fun s => (Ok s, s).
Definition modify {S : Type} (f : S -> S) : M S unit := fun s => (Ok tt, f s).

(** [try: body  except Exception as e: handler e]. *)
Definition try_except {S A : Type} (body : M S A) (handler : exn -> M S A) : M S A :=
  fun s =>
    match body s with
    | (Ok a, s') => (Ok a, s')
    | (Raise e, s') => handler e s'
    end.

(** [for x in xs: body x]; an exception leaves the loop. *)
Fixpoint for_each {S A : Type} (xs : list A) (body : A -> M S unit) : M S unit :=
  match xs with
  | [] => ret tt
  | x :: rest => body x ;; for_each rest body
  end.

(* ===================================================================== *)
(** ** The content renderer                                            *)
(* ===================================================================== *)

Section Script.

(** [repr] of a list or of a dict, which [str] falls back to on containers;
    its text is of no concern here and is left open. *)
Variable py_repr : value -> string.

(** [str(v)], which is what an f-string field [{v}] prints. *)
Definition py_str (v : value) : string :=
  match v with
  | VNone => "None"
  | VBool true => "True"
  | VBool false => "False"
  | VInt z => str_of_Z z
  | VStr s => s
  | VList _ | VDict _ => py_repr v
  end.

(** [f"{k}: {v}" for k, v in fleet.items() if k != 'total'] *)
Definition fleet_lines (fleet : dict) : list string :=
  map (fun kv => fst kv ++ ": " ++ py_str (snd kv))
      (filter (fun kv => negb (fst kv =? "total")) fleet).

(** The text of one destination,
    [f"{airport_code} – {city_name}, {country_code}"]. *)
Definition display (airport_code city_name country_code : value) : string :=
  py_str airport_code ++ " – " ++ py_str city_name ++ ", " ++ py_str country_code.

(** The body of [for d in destinations:], with the list [valid_dests]
    built so far. *)
Fixpoint dest_loop (ds : list value) (valid_dests : list string)
  : result (list string) :=
  match ds with
  | [] => Ok valid_dests
  | d :: rest =>
      airport_code <- py_get d "iataCode" ;;
      if negb (truthy airport_code) then dest_loop rest valid_dests
      else
        city_name <- py_get_default d "name" (VStr "Unknown") ;;
        address <- py_get_default d "address" (VDict []) ;;
        country_code <- py_get_default address "countryCode" (VStr "??") ;;
        dest_loop rest
          (valid_dests ++ [display airport_code city_name country_code])%list
  end.

(** [mid = (len(valid_dests) + 1) // 2] *)
Definition mid (valid_dests : list string) : nat := (List.length valid_dests + 1) / 2.

Definition column1 (valid_dests : list string) : list string :=
  firstn (mid valid_dests) valid_dests.

Definition column2 (valid_dests : list string) : list string :=
  skipn (mid valid_dests) valid_dests.

(** The destination block of the page. *)
Definition dest_block (col1 col2 : string) (shown : nat) (airline_name : value)
  : string :=
  nl ++
  "        <div style=" ++ dq ++ "background:#e8f4fc; padding:15px; border-radius:8px; margin:15px 0;" ++ dq ++ ">" ++ nl ++
  "            <h3 style=" ++ dq ++ "color:#2980b9;" ++ dq ++ ">🌍 Destination Airports</h3>" ++ nl ++
  "            <div style=" ++ dq ++ "display:flex;" ++ dq ++ ">" ++ nl ++
  "                <div style=" ++ dq ++ "flex:1; padding-right:10px;" ++ dq ++ ">" ++ col1 ++ "</div>" ++ nl ++
  "                <div style=" ++ dq ++ "flex:1;" ++ dq ++ ">" ++ col2 ++ "</div>" ++ nl ++
  "            </div>" ++ nl ++
  "            <p style=" ++ dq ++ "font-size:0.85em; color:#666; margin-top:10px;" ++ dq ++ ">" ++ nl ++
  "                Showing all " ++ py_str (VInt (Z.of_nat shown)) ++ " airports served by " ++ py_str airline_name ++ "." ++ nl ++
  "            </p>" ++ nl ++
  "        </div>" ++ nl ++
  "        ".

Definition dest_section (valid_dests : list string) (airline_name : value) : string :=
  match valid_dests with
  | [] => ""
  | _ =>
      let col1 := String.concat "<br>" (column1 valid_dests) in
      let col2 := match column2 valid_dests with
                  | [] => ""
                  | _ => String.concat "<br>" (column2 valid_dests)
                  end in
      dest_block col1 col2 (List.length valid_dests) airline_name
  end.

(** The whole page; [today] is [datetime.now().strftime('%B %d, %Y')]. *)
Definition page (today : string) (airline_data : dict) (airline_name : value)
    (logo_html fleet_html : string) (total_aircraft : value) (dest_html : string)
  : string :=
  nl ++
  "    <html>" ++ nl ++
  "    <body style=" ++ dq ++ "font-family:Arial, sans-serif; max-width:650px; margin:auto; color:#333;" ++ dq ++ ">" ++ nl ++
  "        <div style=" ++ dq ++ "background:linear-gradient(135deg,#1e3c72,#2a5298); padding:20px; color:white; border-radius:10px 10px 0 0;" ++ dq ++ ">" ++ nl ++
  "            <h1>✈️ Daily Airline Discovery</h1>" ++ nl ++
  "            <p>" ++ today ++ "</p>" ++ nl ++
  "        </div>" ++ nl ++
  "        <div style=" ++ dq ++ "padding:25px; border:1px solid #ddd; border-top:none; border-radius:0 0 10px 10px;" ++ dq ++ ">" ++ nl ++
  "            <div style=" ++ dq ++ "text-align:center; margin-bottom:20px;" ++ dq ++ ">" ++ nl ++
  "                " ++ logo_html ++ nl ++
  "                <h2>" ++ py_str airline_name ++ "</h2>" ++ nl ++
  "                <p>IATA: " ++ py_str (dict_get_default airline_data "iata" (VStr "N/A")) ++ " | Founded: " ++ py_str (dict_get_default airline_data "year_created" (VStr "N/A")) ++ " | Country: " ++ py_str (dict_get_default airline_data "country" (VStr "N/A")) ++ "</p>" ++ nl ++
  "            </div>" ++ nl ++
  "            <div style=" ++ dq ++ "display:flex; flex-wrap:wrap; gap:15px; margin-bottom:20px;" ++ dq ++ ">" ++ nl ++
  "                <div style=" ++ dq ++ "flex:1; min-width:250px; background:#f8f9fa; padding:15px; border-radius:8px;" ++ dq ++ ">" ++ nl ++
  "                    <h3 style=" ++ dq ++ "color:#16a085;" ++ dq ++ ">📊 Core Facts</h3>" ++ nl ++
  "                    <p><strong>Base:</strong> " ++ py_str (dict_get_default airline_data "base" (VStr "N/A")) ++ "</p>" ++ nl ++
  "                    <p><strong>ICAO:</strong> " ++ py_str (dict_get_default airline_data "icao" (VStr "N/A")) ++ "</p>" ++ nl ++
  "                </div>" ++ nl ++
  "                <div style=" ++ dq ++ "flex:1; min-width:250px; background:#f8f9fa; padding:15px; border-radius:8px;" ++ dq ++ ">" ++ nl ++
  "                    <h3 style=" ++ dq ++ "color:#e74c3c;" ++ dq ++ ">✈️ Fleet Overview</h3>" ++ nl ++
  "                    <p>" ++ fleet_html ++ "</p>" ++ nl ++
  "                    <p><strong>Total Aircraft:</strong> " ++ py_str total_aircraft ++ "</p>" ++ nl ++
  "                </div>" ++ nl ++
  "            </div>" ++ nl ++
  "            " ++ dest_html ++ nl ++
  "            <div style=" ++ dq ++ "font-size:0.8em; color:#95a5a6; text-align:center; margin-top:25px; padding-top:15px; border-top:1px solid #eee;" ++ dq ++ ">" ++ nl ++
  "                <p>Data sources: API-Ninjas (airlines) • Amadeus (destinations)</p>" ++ nl ++
  "                <p>Automated daily service</p>" ++ nl ++
  "            </div>" ++ nl ++
  "        </div>" ++ nl ++
  "    </body>" ++ nl ++
  "    </html>" ++ nl ++
  "    ".

(** [create_email_content(airline_data, destinations)], run at a moment
    when the clock formats as [today]. *)
Definition create_email_content (today : string) (airline_data destinations : value)
  : result (string * value * nat) :=
  match airline_data with
  | VDict data =>
      let airline_name := dict_get_default data "name" (VStr "Unknown") in
      let logo_url := dict_get_default data "logo_url" (VStr "") in
      let logo_html :=
        if truthy logo_url
        then "<img src=" ++ dq ++ py_str logo_url ++ dq ++ " style=" ++ dq
             ++ "max-height:80px; max-width:200px;" ++ dq ++ ">"
        else "" in
      let fleet := dict_get_default data "fleet" (VDict []) in
      items <- py_items fleet ;;
      let joined := String.concat "<br>" (fleet_lines items) in
      let fleet_html := if joined =? "" then "No detailed fleet data" else joined in
      total_aircraft <- py_get_default fleet "total" (VStr "N/A") ;;
      valid_dests <-
        (if truthy destinations
         then ds <- py_iter destinations ;; dest_loop ds []
         else Ok []) ;;
      let dest_html := dest_section valid_dests airline_name in
      let html := page today data airline_name logo_html fleet_html
                       total_aircraft dest_html in
      Ok (html, airline_name, List.length valid_dests)
  | _ => Raise (no_attribute airline_data "get")
  end.

(* ===================================================================== *)
(** ** The outside world                                               *)
(* ===================================================================== *)

(** One catalog query, [requests.get(...)], [raise_for_status()] and
    [response.json()] taken together. *)
Inductive response : Type :=
| QueryFails (e : exn)
| QueryJson (body : value).

(** [amadeus_client.airline.destinations.get(airlineCode=...)]; a response
    object carries [Some data] when it has an attribute [data]. *)
Inductive amadeus_outcome : Type :=
| AmadeusRaises (e : exn)
| AmadeusResponse (data : option value).

Record mail_request : Type := {
  post_url : string;
  post_auth : string * string;
  post_from : string;
  post_to : list string;
  post_bcc : list string;
  post_subject : string;
  post_html : string
}.

Inductive post_outcome : Type :=
| PostRaises (e : exn)
| PostResponse (status_code : Z) (text : string).

(** What a run finds outside the process: the environment variables, the
    answers of the catalog service (by API key and letter), of the
    enrichment service (by client id, client secret and airline code) and
    of the delivery service, the index [random.choice] draws (taken
    modulo the length of the sequence), the clock, read as
    [strftime('%B %d, %Y')] and as [isoformat()], and the order in which
    the process iterates a set (see [arrange]). *)
Record env : Type := {
  environ : string -> option string;
  catalog_api : string -> string -> response;
  amadeus_api : string -> string -> value -> amadeus_outcome;
  mailgun_api : mail_request -> post_outcome;
  random_draw : nat;
  today : string;
  now_iso : string;
  hash_order : list nat
}.

(** The ledger file [SENT_FILE]: absent, present but failing to open or
    to decode, or holding a JSON document. *)
Inductive file_state : Type :=
| NoFile
| Unreadable (e : exn)
| Contents (data : value).

(** What a run leaves behind for an observer: the calls of the three
    client functions with what two of them returned, and the requests
    that went out to the enrichment and delivery services. *)
Inductive event : Type :=
| Call_get_destinations (airline_iata : value)
| Call_send_email_bcc (recipients : list string)
| Return_send_email_bcc (sent : bool)
| Call_add_sent_airline (iata_code airline_name : value)
| Return_add_sent_airline (updated : bool)
| AmadeusRequest (airline_code : value)
| MailgunRequest (req : mail_request).

(** How the storage takes [open(SENT_FILE, 'w')] and the [json.dump] that
    follows it.  Both go through; or the open is refused, and the file
    stays as it was; or the open goes through, which empties the file,
    and the write fails before the document is complete. *)
Inductive storage : Type :=
| Accepts
| Refuses
| Breaks.

(** The state a run changes: the ledger file, the storage it is on, and
    the trace so far. *)
Record world : Type := {
  sent_file : file_state;
  writable : storage;
  trace : list event
}.

Definition emit (ev : event) : M world unit :=
  modify (fun w => {| sent_file := sent_file w; writable := writable w;
                      trace := (trace w ++ [ev])%list |}).

(** What is left of the ledger file when a write stops short: nothing, or
    the beginning of a document, neither of which [json.load] decodes. *)
Definition cut_short : file_state :=
  Unreadable (OtherError "Expecting value: line 1 column 1 (char 0)").

(** [open(SENT_FILE, 'w')] followed by [json.dump(doc, f, indent=2)].  The
    open truncates the file before anything is written. *)
Definition write_sent_file (doc : value) : M world unit :=
  fun w =>
    match writable w with
    | Accepts =>
        (Ok tt, {| sent_file := Contents doc; writable := Accepts; trace := trace w |})
    | Refuses => (Raise (OtherError "Permission denied"), w)
    | Breaks =>
        (Raise (OtherError "No space left on device"),
         {| sent_file := cut_short; writable := Breaks; trace := trace w |})
    end.

(* ===================================================================== *)
(** ** Configuration                                                   *)
(* ===================================================================== *)

Record config : Type := {
  NINJAS_API_KEY : string;
  AMADEUS_CLIENT_ID : string;
  AMADEUS_CLIENT_SECRET : string;
  SENDER_EMAIL : string;
  SENDER_APP_PASSWORD : string;
  RECIPIENT_EMAILS : list string
}.

(** The characters [str.strip()] removes. *)
Definition is_space (c : ascii) : bool :=
  let n := nat_of_ascii c in
  (((9 <=? n) && (n <=? 13)) || ((28 <=? n) && (n <=? 32))
   || (n =? 133) || (n =? 160))%nat.

Fixpoint lstrip (s : string) : string :=
  match s with
  | String c rest => if is_space c then lstrip rest else s
  | EmptyString => EmptyString
  end.

Fixpoint rstrip (s : string) : string :=
  match s with
  | String c rest =>
      match rstrip rest with
      | EmptyString => if is_space c then EmptyString else String c EmptyString
      | r => String c r
      end
  | EmptyString => EmptyString
  end.

Definition strip (s : string) : string := rstrip (lstrip s).

(** [s.split(',')] *)
Fixpoint split_comma (s : string) : list string :=
  match s with
  | EmptyString => [EmptyString]
  | String c rest =>
      if Ascii.eqb c ","%char then EmptyString :: split_comma rest
      else match split_comma rest with
           | piece :: pieces => String c piece :: pieces
           | [] => [String c EmptyString]
           end
  end.

Definition getenv (environ : string -> option string) (k dflt : string) : string :=
  match environ k with
  | Some v => v
  | None => dflt
  end.

Definition required : list string :=
  ["NINJAS_API_KEY"; "AMADEUS_CLIENT_ID"; "AMADEUS_CLIENT_SECRET";
   "SENDER_EMAIL"; "SENDER_APP_PASSWORD"].

(** [load_config()]; [None] when a required variable is unset or empty. *)
Definition load_config (environ : string -> option string) : option config :=
  let recipients := getenv environ "RECIPIENT_EMAILS" "" in
  let emails :=
    if negb (recipients =? "")
    then map strip (filter (fun e => negb (strip e =? ""))
                           (split_comma recipients))
    else [] in
  let missing :=
    filter (fun var => match environ var with
                       | Some v => v =? ""
                       | None => true
                       end) required in
  match missing with
  | [] => Some {| NINJAS_API_KEY := getenv environ "NINJAS_API_KEY" "";
                  AMADEUS_CLIENT_ID := getenv environ "AMADEUS_CLIENT_ID" "";
                  AMADEUS_CLIENT_SECRET := getenv environ "AMADEUS_CLIENT_SECRET" "";
                  SENDER_EMAIL := getenv environ "SENDER_EMAIL" "";
                  SENDER_APP_PASSWORD := getenv environ "SENDER_APP_PASSWORD" "";
                  RECIPIENT_EMAILS := emails |}
  | _ => None
  end.

(* ===================================================================== *)
(** ** The selection ledger                                            *)
(* ===================================================================== *)

(** The [try] block of [get_sent_airlines]: [Some sent_set] when it
    returns from inside the [with], [None] when the file does not exist. *)
Definition read_sent_file : M world (option pyset) :=
  w <- get_state ;;
  match sent_file w with
  | NoFile => ret None
  | Unreadable e => lift (Raise e)
  | Contents data =>
      sent <- lift (py_get_default data "sent" (VList [])) ;;
      items <- lift (py_iter sent) ;;
      sent_set <- lift (set_of_list items []) ;;
      ret (Some sent_set)
  end.

Definition get_sent_airlines : M world pyset :=
  loaded <- try_except read_sent_file (fun _ => ret None) ;;
  match loaded with
  | Some sent_set => ret sent_set
  | None => ret []
  end.

(** [add_sent_airline(iata_code, airline_name)], at a moment when the
    clock reads [now_iso], in a process that iterates sets in the order
    [hash_order]. *)
Definition add_sent_airline (now_iso : string) (hash_order : list nat)
    (iata_code airline_name : value) : M world bool :=
  emit (Call_add_sent_airline iata_code airline_name) ;;
  updated <-
    try_except
      (sent_set <- get_sent_airlines ;;
       sent_set' <- lift (set_add sent_set iata_code) ;;
       write_sent_file (VDict [("sent", VList (arrange hash_order sent_set'));
                               ("last_updated", VStr now_iso)]) ;;
       ret true)
      (fun _ => ret false) ;;
  emit (Return_add_sent_airline updated) ;;
  ret updated.

(* ===================================================================== *)
(** ** The enrichment client                                           *)
(* ===================================================================== *)

Definition get_destinations (amadeus_client : value -> amadeus_outcome)
    (airline_iata : value) : M world value :=
  emit (Call_get_destinations airline_iata) ;;
  malformed <-
    (if negb (truthy airline_iata) then ret true
     else n <- lift (py_len airline_iata) ;; ret (negb (n =? 2)%nat)) ;;
  if (malformed : bool) then ret (VList [])
  else
    try_except
      (emit (AmadeusRequest airline_iata) ;;
       match amadeus_client airline_iata with
       | AmadeusRaises e => lift (Raise e)
       | AmadeusResponse data =>
           let destinations := match data with
                               | Some v => v
                               | None => VList []
                               end in
           (* the message printed on a non-empty answer holds
              [len(destinations)] *)
           (if truthy destinations
            then n <- lift (py_len destinations) ;; ret tt
            else ret tt) ;;
           ret destinations
       end)
      (fun e =>
         match e with
         | ResponseError _ => ret (VList [])
         | _ => ret (VList [])
         end).

(* ===================================================================== *)
(** ** The delivery client                                             *)
(* ===================================================================== *)

Definition send_email_bcc (e : env) (html_content subject sender_email
    sender_password : string) (recipients : list string) : M world bool :=
  emit (Call_send_email_bcc recipients) ;;
  sent <-
    match recipients with
    | [] => ret false
    | _ =>
        try_except
          (let mailgun_domain := "mail.osys.sr" in
           let url := "https://api.eu.mailgun.net/v3/" ++ mailgun_domain
                      ++ "/messages" in
           let sender_display := getenv (environ e) "SENDER_NAME" "Daily Airline" in
           let from_header := dq ++ sender_display ++ dq ++ " <" ++ sender_email
                              ++ ">" in
           let data := {| post_url := url;
                          post_auth := ("api", sender_password);
                          post_from := from_header;
                          post_to := [sender_email];
                          post_bcc := recipients;
                          post_subject := subject;
                          post_html := html_content |} in
           emit (MailgunRequest data) ;;
           match mailgun_api e data with
           | PostRaises ex => lift (Raise ex)
           | PostResponse status_code _ =>
               if (status_code =? 200)%Z then ret true else ret false
           end)
          (fun _ => ret false)
    end ;;
  emit (Return_send_email_bcc sent) ;;
  ret sent.

(* ===================================================================== *)
(** ** The catalog fetcher, defined twice in the script                *)
(* ===================================================================== *)

Definition letters : list string :=
  ["A"; "B"; "C"; "D"; "E"; "F"; "G"; "H"; "I"; "J"; "K"; "L"; "M";
   "N"; "O"; "P"; "Q"; "R"; "S"; "T"; "U"; "V"; "W"; "X"; "Y"; "Z"].

(** The local variables of a fetch, and the lines it has printed. *)
Record fetch_state : Type := {
  all_airlines : list value;
  seen_iata : pyset;
  stdout : list string
}.

Definition fetch_init : fetch_state :=
  {| all_airlines := []; seen_iata := []; stdout := [] |}.

Definition print (line : string) : M fetch_state unit :=
  modify (fun st => {| all_airlines := all_airlines st; seen_iata := seen_iata st;
                       stdout := (stdout st ++ [line])%list |}).

(** [iata and iata not in seen_iata] *)
Definition is_new (iata : value) : M fetch_state bool :=
  if truthy iata
  then st <- get_state ;;
       known <- lift (set_contains (seen_iata st) iata) ;;
       ret (negb known)
  else ret false.

(** [seen_iata.add(iata); all_airlines.append(airline)] *)
Definition remember (iata airline : value) : M fetch_state unit :=
  st <- get_state ;;
  seen <- lift (set_add (seen_iata st) iata) ;;
  modify (fun st => {| all_airlines := (all_airlines st ++ [airline])%list;
                       seen_iata := seen;
                       stdout := stdout st |}).

(** The inner loop, the same text in both definitions. *)
Definition collect (airlines : list value) : M fetch_state unit :=
  for_each airlines (fun airline =>
    iata <- lift (py_get airline "iata") ;;
    fresh <- is_new iata ;;
    if (fresh : bool) then remember iata airline else ret tt).

Definition query (requests_get : string -> response) (letter : string)
  : M fetch_state value :=
  match requests_get letter with
  | QueryFails e => lift (Raise e)
  | QueryJson body => ret body
  end.

(** The first definition (the one the second shadows). *)
Definition fetch_all_airlines_shadowed
    (requests_get : string -> string -> response) (api_key : string)
  : result (list value) * list string :=
  let run : M fetch_state (list value) :=
    for_each letters (fun letter =>
      try_except
        (airlines <- query (requests_get api_key) letter ;;
         items <- lift (py_iter airlines) ;;
         collect items ;;
         found <- lift (py_len airlines) ;;
         st <- get_state ;;
         print ("[MAIN] Letter " ++ letter ++ ": found " ++ str_of_nat found
                ++ " airlines, " ++ str_of_nat (List.length (all_airlines st))
                ++ " unique so far"))
        (fun e =>
           print ("[MAIN] Warning: failed to fetch for letter " ++ letter
                  ++ ": " ++ exn_str e))) ;;
    st <- get_state ;;
    print ("[MAIN] Total unique airlines with IATA codes: "
           ++ str_of_nat (List.length (all_airlines st))) ;;
    ret (all_airlines st) in
  let (r, st) := run fetch_init in (r, stdout st).

(** The second definition, the one [main] calls. *)
Definition fetch_all_airlines
    (requests_get : string -> string -> response) (api_key : string)
  : result (list value) * list string :=
  let run : M fetch_state (list value) :=
    print "[FETCH] Starting full airline fetch (A-Z)..." ;;
    for_each letters (fun letter =>
      try_except
        (airlines <- query (requests_get api_key) letter ;;
         items <- lift (py_iter airlines) ;;
         collect items ;;
         found <- lift (py_len airlines) ;;
         st <- get_state ;;
         print ("[FETCH] Letter " ++ letter ++ ": found " ++ str_of_nat found
                ++ " airlines, total unique: "
                ++ str_of_nat (List.length (all_airlines st))))
        (fun e =>
           print ("[FETCH] Warning: failed to fetch for letter " ++ letter
                  ++ ": " ++ exn_str e))) ;;
    st <- get_state ;;
    print ("[FETCH] Completed. Total unique airlines with IATA codes: "
           ++ str_of_nat (List.length (all_airlines st))) ;;
    ret (all_airlines st) in
  let (r, st) := run fetch_init in (r, stdout st).

(* ===================================================================== *)
(** ** The orchestrator                                                *)
(* ===================================================================== *)

(** [[a for a in all_airlines if a.get('iata') not in sent_airlines]] *)
Fixpoint available (all_airlines : list value) (sent_airlines : pyset)
  : result (list value) :=
  match all_airlines with
  | [] => Ok []
  | a :: rest =>
      iata <- py_get a "iata" ;;
      known <- set_contains sent_airlines iata ;;
      tail <- available rest sent_airlines ;;
      Ok (if (known : bool) then tail else a :: tail)
  end.

(** [random.choice(seq)] on a non-empty sequence with head [first]: the
    element at the drawn index, an index below [len(seq)]. *)
Definition random_choice (draw : nat) (first : value) (seq : list value) : value :=
  nth (draw mod List.length seq) seq first.

(** The selection step: [None] stands for the branch that gives up with
    "No new airlines available". *)
Definition select (draw : nat) (all_airlines : list value) (sent_airlines : pyset)
  : result (option value) :=
  available_airlines <- available all_airlines sent_airlines ;;
  match available_airlines with
  | [] => Ok None
  | first :: _ => Ok (Some (random_choice draw first available_airlines))
  end.

Definition main (e : env) : M world Z :=
  match load_config (environ e) with
  | None => ret 1%Z
  | Some config =>
      sent_airlines <- get_sent_airlines ;;
      all_airlines <- lift (fst (fetch_all_airlines (catalog_api e)
                                   (NINJAS_API_KEY config))) ;;
      match all_airlines with
      | [] => ret 1%Z
      | _ =>
          selected <- lift (select (random_draw e) all_airlines sent_airlines) ;;
          match selected with
          | None => ret 1%Z
          | Some airline =>
              iata <- lift (py_get airline "iata") ;;
              airline_name <- lift (py_get_default airline "name" (VStr "Unknown")) ;;
              let amadeus := amadeus_api e (AMADEUS_CLIENT_ID config)
                                         (AMADEUS_CLIENT_SECRET config) in
              destinations <- get_destinations amadeus iata ;;
              rendered <- lift (create_email_content (today e) airline destinations) ;;
              let '(html, airline_name, dest_count) := rendered in
              let subject := "✈️ Daily Airline: " ++ py_str airline_name in
              email_sent <- send_email_bcc e html subject (SENDER_EMAIL config)
                              (SENDER_APP_PASSWORD config) (RECIPIENT_EMAILS config) ;;
              if negb email_sent then ret 1%Z
              else
                update_ok <- add_sent_airline (now_iso e) (hash_order e) iata airline_name ;;
                if (update_ok : bool) then ret 0%Z else ret 0%Z
          end
      end
  end.

(** A run of the script from a ledger file [file] on storage that takes
    a write as [can_write] says: what [main] returns or raises, and the
    world it leaves. *)
Definition run_main (e : env) (file : file_state) (can_write : storage)
  : result Z * world :=
  main e {| sent_file := file; writable := can_write; trace := [] |}.

(** The exit status of the process ([sys.exit(main())], and 1 on an
    exception that reaches the top level). *)
Definition exit_status (e : env) (file : file_state) (can_write : storage) : Z :=
  match fst (run_main e file can_write) with
  | Ok code => code
  | Raise _ => 1%Z
  end.

(** [random.choice(seq)] on any object: [len(seq)] first, then
    [seq[i]] at the drawn index.  A dict has no integer key (its keys
    are strings), so indexing it raises [KeyError]. *)
Definition py_choice (draw : nat) (seq : value) : result value :=
  match seq with
  | VList (first :: rest) => Ok (random_choice draw first (first :: rest))
  | VStr s =>
      match chars s with
      | first :: rest => Ok (random_choice draw first (first :: rest))
      | [] => Raise (OtherError "Cannot choose from an empty sequence")
      end
  | VDict (_ :: _ as d) => Raise (OtherError (str_of_nat (draw mod List.length d)))
  | VList [] | VDict [] => Raise (OtherError "Cannot choose from an empty sequence")
  | _ => Raise (TypeError ("object of type '" ++ type_name seq ++ "' has no len()"))
  end.

(** [get_random_airline(api_key)], which [main] does not call: one query
    for the name 'a', and a random element of the answer.  The message
    it prints evaluates [airline.get('name')] and [airline.get('iata')];
    [VNone] is Python's [None]. *)
Definition get_random_airline (requests_get : string -> string -> response)
    (draw : nat) (api_key : string) : value :=
  let attempt : result value :=
    match requests_get api_key "a" with
    | QueryFails e => Raise e
    | QueryJson data =>
        if truthy data
        then airline <- py_choice draw data ;;
             _ <- py_get airline "name" ;;
             _ <- py_get airline "iata" ;;
             Ok airline
        else Ok VNone
    end in
  match attempt with
  | Ok airline => airline
  | Raise _ => VNone
  end.

End Script.

(* ===================================================================== *)
(** ** Vocabulary of the statements                                    *)
(* ===================================================================== *)

(** The identifier of a catalog item, [a.get('iata')]. *)
Definition identifier (a : value) : value :=
  match a with
  | VDict d => dict_get_default d "iata" VNone
  | _ => VNone
  end.

(** A catalog item: a dict whose identifier, when it has one, can be
    hashed (a string in the data the script is written for). *)
Definition catalog_item (a : value) : bool :=
  match a with
  | VDict d => hashable (dict_get_default d "iata" VNone)
  | _ => false
  end.

(** The identifiers an enrichment or ledger call is given: a string, or
    [None] for an absent one. *)
Definition id_value (code : option string) : value :=
  match code with
  | Some s => VStr s
  | None => VNone
  end.

(** The request [send_email_bcc] builds. *)
Definition mailgun_request (e : env) (html_content subject sender_email
    sender_password : string) (recipients : list string) : mail_request :=
  {| post_url := "https://api.eu.mailgun.net/v3/mail.osys.sr/messages";
     post_auth := ("api", sender_password);
     post_from := dq ++ getenv (environ e) "SENDER_NAME" "Daily Airline" ++ dq
                  ++ " <" ++ sender_email ++ ">";
     post_to := [sender_email];
     post_bcc := recipients;
     post_subject := subject;
     post_html := html_content |}.

(** What the delivery answers for a request: true exactly on a response
    whose status is 200. *)
Definition delivered (outcome : post_outcome) : bool :=
  match outcome with
  | PostResponse status_code _ => (status_code =? 200)%Z
  | PostRaises _ => false
  end.

Definition with_trace (w : world) (evs : list event) : world :=
  {| sent_file := sent_file w; writable := writable w;
     trace := (trace w ++ evs)%list |}.

(** What [get_destinations] makes of the answer of the service. *)
Definition enriched (outcome : amadeus_outcome) : value :=
  match outcome with
  | AmadeusRaises _ => VList []
  | AmadeusResponse None => VList []
  | AmadeusResponse (Some v) =>
      if truthy v
      then match py_len v with
           | Ok _ => v
           | Raise _ => VList []
           end
      else v
  end.

Definition enrichment_event (ev : event) : bool :=
  match ev with
  | Call_get_destinations _ | AmadeusRequest _ => true
  | _ => false
  end.

(** The set [get_sent_airlines] reads off a ledger file. *)
Definition stored_set (file : file_state) : pyset :=
  match file with
  | Contents data =>
      match (sent <- py_get_default data "sent" (VList []) ;;
             items <- py_iter sent ;;
             set_of_list items []) with
      | Ok sent_set => sent_set
      | Raise _ => []
      end
  | _ => []
  end.

(** The document a successful commit writes, with the set listed as
    [sent]. *)
Definition ledger_document (now_iso : string) (sent : list value) : value :=
  VDict [("sent", VList sent); ("last_updated", VStr now_iso)].

(** The storage lets a write through. *)
Definition accepts (s : storage) : bool :=
  match s with
  | Accepts => true
  | _ => false
  end.

(** An enrichment record: a dict whose [address], when present, is a
    dict. *)
Definition record_ok (d : value) : bool :=
  match d with
  | VDict r =>
      match dict_get r "address" with
      | Some (VDict _) | None => true
      | Some _ => false
      end
  | _ => false
  end.

(** An airline item whose [fleet], when present, is a dict. *)
Definition fleet_ok (data : dict) : bool :=
  match dict_get data "fleet" with
  | Some (VDict _) | None => true
  | Some _ => false
  end.

(** The record carries an identifier ([iataCode] is there and truthy). *)
Definition has_code (d : value) : bool :=
  match d with
  | VDict r => truthy (dict_get_default r "iataCode" VNone)
  | _ => false
  end.

(** The line the specification asks for a record,
    "<identifier> – <displayName>, <countryCode-or-placeholder>": the
    identifier, a dash, the display name ("Unknown" when the record has
    none), a comma, and the country code of the address ("??" when the
    record has no address or the address no country code). *)
Definition entry (py_repr : value -> string) (d : value) : string :=
  match d with
  | VDict r =>
      py_str py_repr (dict_get_default r "iataCode" VNone)
      ++ " – "
      ++ py_str py_repr (dict_get_default r "name" (VStr "Unknown"))
      ++ ", "
      ++ py_str py_repr
           (match dict_get_default r "address" (VDict []) with
            | VDict address => dict_get_default address "countryCode" (VStr "??")
            | _ => VStr "??"
            end)
  | _ => EmptyString
  end.

(** The text [part] stands somewhere in the document [html]. *)
Definition occurs (part html : string) : Prop :=
  exists before after : string, html = before ++ part ++ after.

(** The two column cells of a page, side by side, the first holding
    [col1] and the second [col2]. *)
Definition two_columns (col1 col2 : string) : string :=
  "<div style=" ++ dq ++ "flex:1; padding-right:10px;" ++ dq ++ ">" ++ col1
  ++ "</div>" ++ nl
  ++ "                <div style=" ++ dq ++ "flex:1;" ++ dq ++ ">" ++ col2
  ++ "</div>".

(** The sentence of a page that reports how many airports it shows. *)
Definition count_line (py_repr : value -> string) (shown : nat)
    (airline_name : value) : string :=
  "Showing all " ++ str_of_Z (Z.of_nat shown) ++ " airports served by "
  ++ py_str py_repr airline_name ++ ".".

(** The lines of a column, one below the other. *)
Definition stacked (lines : list string) : string := String.concat "<br>" lines.

Definition sample_airline : dict :=
  [("iata", VStr "BA"); ("name", VStr "Test Air")].

Definition sample_record (code : string) : value :=
  VDict [("iataCode", VStr code); ("name", VStr "CITY");
         ("address", VDict [("countryCode", VStr "GB")])].

(** Seven records with an identifier, and one without. *)
Definition sample_records : list value :=
  [sample_record "LHR"; sample_record "LGW"; sample_record "MAN";
   VDict [("name", VStr "NOWHERE")];
   sample_record "EDI"; sample_record "GLA"; sample_record "BHX";
   sample_record "NCL"].

(** An element of a page that the inner loop gets past without an
    exception: a dict whose [iata] is falsy or can be hashed. *)
Definition item_ok (a : value) : bool :=
  match a with
  | VDict d =>
      let iata := dict_get_default d "iata" VNone in
      negb (truthy iata) || hashable iata
  | _ => false
  end.

(** The elements of a page up to the first one that raises. *)
Fixpoint usable (items : list value) : list value :=
  match items with
  | [] => []
  | a :: rest => if item_ok a then a :: usable rest else []
  end.

(** The elements of a query that reach the inner loop. *)
Definition page_items (r : response) : list value :=
  match r with
  | QueryFails _ => []
  | QueryJson body =>
      match py_iter body with
      | Ok items => usable items
      | Raise _ => []
      end
  end.

(** Everything the 26 queries hand to the inner loop, in order. *)
Definition consumed (requests_get : string -> string -> response)
    (api_key : string) : list value :=
  flat_map (fun letter => page_items (requests_get api_key letter)) letters.

(** One turn of the inner loop on the pair (all_airlines, seen_iata). *)
Definition keep (st : list value * pyset) (a : value) : list value * pyset :=
  let iata := identifier a in
  if truthy iata && negb (set_mem (snd st) iata)
  then ((fst st ++ [a])%list, (snd st ++ [iata])%list)
  else st.

Definition absorb (items : list value) (st : list value * pyset)
  : list value * pyset :=
  fold_left keep items st.

(** Deduplication as the specification words it: an item is kept when it
    has an identifier that no earlier item carries. *)
Fixpoint first_occurrences (items earlier : list value) : list value :=
  match items with
  | [] => []
  | a :: rest =>
      if truthy (identifier a)
         && negb (existsb (fun b => py_eqb (identifier a) (identifier b)) earlier)
      then a :: first_occurrences rest (earlier ++ [a])%list
      else first_occurrences rest (earlier ++ [a])%list
  end.

(** No two items of the list carry the same identifier. *)
Fixpoint distinct_ids (l : list value) : Prop :=
  match l with
  | [] => True
  | a :: rest =>
      (forall b, In b rest -> py_eqb (identifier a) (identifier b) = false)
      /\ distinct_ids rest
  end.

Definition fetch_state_of (p : list value * pyset) (out : list string)
  : fetch_state :=
  {| all_airlines := fst p; seen_iata := snd p; stdout := out |}.

(** The body of the outer loop, common to both definitions up to what
    they print. *)
Definition letter_step (say_found : string -> nat -> nat -> string)
    (say_failed : string -> exn -> string) (requests_get : string -> response)
    (letter : string) : M fetch_state unit :=
  try_except
    (airlines <- query requests_get letter ;;
     items <- lift (py_iter airlines) ;;
     collect items ;;
     found <- lift (py_len airlines) ;;
     st <- get_state ;;
     print (say_found letter found (List.length (all_airlines st))))
    (fun e => print (say_failed letter e)).

(** The common shape of the two definitions. *)
Definition fetch_with (intro : M fetch_state unit)
    (say_found : string -> nat -> nat -> string)
    (say_failed : string -> exn -> string) (say_total : nat -> string)
    (requests_get : string -> string -> response) (api_key : string)
  : result (list value) * list string :=
  let run : M fetch_state (list value) :=
    intro ;;
    for_each letters (letter_step say_found say_failed (requests_get api_key)) ;;
    st <- get_state ;;
    print (say_total (List.length (all_airlines st))) ;;
    ret (all_airlines st) in
  let (r, st) := run fetch_init in (r, stdout st).

(** The catalog a sequence of consumed elements leaves. *)
Definition catalog_of (items : list value) : list value :=
  fst (absorb items ([], [])).

(** The identifiers seen so far are those of the earlier items that have
    one. *)
Definition seen_matches (seen : pyset) (earlier : list value) : Prop :=
  forall v, set_mem seen v
            = existsb (fun b => truthy (identifier b) && py_eqb v (identifier b))
                      earlier.

(** The same service, except that the query for [letter] is answered by
    [r]. *)
Definition answering (rg : string -> string -> response) (letter : string)
    (r : response) : string -> string -> response :=
  fun api_key l => if l =? letter then r else rg api_key l.

Definition delivery_request (ev : event) : bool :=
  match ev with
  | MailgunRequest _ => true
  | _ => false
  end.

(** The three ways a run can go.  It stops before the delivery client is
    called (returning 1 or raising); or the delivery fails; or the
    delivery succeeds and the commit follows. *)
Inductive run_shape (file : file_state) (can_write : storage)
  : result Z * world -> Prop :=
| Stops_before_delivery (r : result Z) (evs : list event) :
    forallb enrichment_event evs = true ->
    r <> Ok 0%Z ->
    run_shape file can_write
      (r, {| sent_file := file; writable := can_write; trace := evs |})
| Delivery_fails (evs reqs : list event) (recipients : list string) :
    forallb enrichment_event evs = true ->
    forallb delivery_request reqs = true ->
    run_shape file can_write
      (Ok 1%Z,
       {| sent_file := file; writable := can_write;
          trace := (evs ++ Call_send_email_bcc recipients
                    :: reqs ++ [Return_send_email_bcc false])%list |})
| Delivery_then_commit (evs reqs : list event) (recipients : list string)
    (iata name : value) (updated : bool) (file' : file_state) :
    forallb enrichment_event evs = true ->
    forallb delivery_request reqs = true ->
    run_shape file can_write
      (Ok 0%Z,
       {| sent_file := file'; writable := can_write;
          trace := (evs ++ Call_send_email_bcc recipients
                    :: reqs ++ [Return_send_email_bcc true;
                                Call_add_sent_airline iata name;
                                Return_add_sent_airline updated])%list |}).

(** A run against services that answer as in the end-to-end scenario of
    the specification: the catalog is Air A and Air B, the delivery
    service answers with [status]. *)
Definition sample_env (status : Z) : env :=
  {| environ := fun k =>
       if existsb (String.eqb k) required then Some "secret"
       else if k =? "RECIPIENT_EMAILS" then Some "one@example.org, two@example.org"
       else None;
     catalog_api := fun _ letter =>
       if letter =? "A"
       then QueryJson (VList [VDict [("iata", VStr "AA"); ("name", VStr "Air A")];
                              VDict [("iata", VStr "BB"); ("name", VStr "Air B")]])
       else QueryFails (OtherError "429 Too Many Requests");
     amadeus_api := fun _ _ _ => AmadeusResponse (Some (VList sample_records));
     mailgun_api := fun _ => PostResponse status "Queued";
     random_draw := 0;
     today := "January 01, 2025";
     now_iso := "2025-01-01T08:00:00";
     hash_order := [] |}.

Definition sample_config : config :=
  {| NINJAS_API_KEY := "secret"; AMADEUS_CLIENT_ID := "secret";
     AMADEUS_CLIENT_SECRET := "secret"; SENDER_EMAIL := "secret";
     SENDER_APP_PASSWORD := "secret";
     RECIPIENT_EMAILS := ["one@example.org"; "two@example.org"] |}.

Definition ledger_file (codes : list string) : file_state :=
  Contents (VDict [("sent", VList (map VStr codes))]).

(* ===================================================================== *)
(** ** Vocabulary of the further properties                                *)
(* ===================================================================== *)

(** The character [c] occurs in [s]. *)
Fixpoint contains (c : ascii) (s : string) : bool :=
  match s with
  | EmptyString => false
  | String c' rest => Ascii.eqb c' c || contains c rest
  end.

(** No two elements of the set are equal for Python's [==]. *)
Fixpoint distinct_values (s : pyset) : Prop :=
  match s with
  | [] => True
  | v :: rest =>
      (forall u, In u rest -> py_eqb v u = false) /\ distinct_values rest
  end.

Definition is_dict (v : value) : bool :=
  match v with
  | VDict _ => true
  | _ => false
  end.

(** A record the destination loop gets past: a dict that has no
    identifier, or whose [address], when present, is a dict. *)
Definition renderable (d : value) : bool :=
  match d with
  | VDict r =>
      negb (truthy (dict_get_default r "iataCode" VNone))
      || match dict_get r "address" with
         | Some (VDict _) | None => true
         | Some _ => false
         end
  | _ => false
  end.

(** The fleet paragraph of the page: one line per entry other than
    "total", or the fallback text when there is no such entry. *)
Definition fleet_text (py_repr : value -> string) (fleet : dict) : string :=
  match filter (fun kv => negb (fst kv =? "total")) fleet with
  | [] => "No detailed fleet data"
  | _ => String.concat "<br>" (fleet_lines py_repr fleet)
  end.

(** The kinds of event, numbered. *)
Definition event_kind (ev : event) : nat :=
  match ev with
  | Call_get_destinations _ => 0
  | Call_send_email_bcc _ => 1
  | Return_send_email_bcc _ => 2
  | Call_add_sent_airline _ _ => 3
  | Return_add_sent_airline _ => 4
  | AmadeusRequest _ => 5
  | MailgunRequest _ => 6
  end.

(** How often an event of kind [k] occurs in a trace. *)
Definition occurrences (k : nat) (tr : list event) : nat :=
  List.length (filter (fun ev => (event_kind ev =? k)%nat) tr).

(** The airline a run selects: the configuration loads, the selection
    over the fetched catalog and the loaded ledger yields [airline], and
    [iata] is its identifier. *)
Definition selected (e : env) (file : file_state) (cfg : config)
    (airline iata : value) : Prop :=
  load_config (environ e) = Some cfg /\
  select (random_draw e)
         (catalog_of (consumed (catalog_api e) (NINJAS_API_KEY cfg)))
         (stored_set file)
  = Ok (Some airline) /\
  py_get airline "iata" = Ok iata.

(** The requests a call of a client leaves in the trace: none or one. *)
Definition at_most_one_amadeus (iata : value) (reqs : list event) : Prop :=
  reqs = [] \/ reqs = [AmadeusRequest iata].

Definition at_most_one_mailgun (reqs : list event) : Prop :=
  reqs = [] \/ exists req, reqs = [MailgunRequest req].

(** The course of a run, in full: it ends before any client is called;
    or an airline is selected and enriched and the run raises; or the
    delivery fails; or the delivery succeeds and the commit is made. *)
Inductive run_form (e : env) (file : file_state) (can_write : storage)
  : result Z * world -> Prop :=
| Quiet (r : result Z) :
    r = Ok 1%Z \/ (exists ex, r = Raise ex) ->
    run_form e file can_write
      (r, {| sent_file := file; writable := can_write; trace := [] |})
| Enriched (cfg : config) (airline iata : value) (reqs_a : list event)
    (ex : exn) :
    selected e file cfg airline iata ->
    at_most_one_amadeus iata reqs_a ->
    run_form e file can_write
      (Raise ex,
       {| sent_file := file; writable := can_write;
          trace := Call_get_destinations iata :: reqs_a |})
| Undelivered (cfg : config) (airline iata : value) (reqs_a reqs_m : list event)
    (recipients : list string) :
    selected e file cfg airline iata ->
    at_most_one_amadeus iata reqs_a ->
    at_most_one_mailgun reqs_m ->
    run_form e file can_write
      (Ok 1%Z,
       {| sent_file := file; writable := can_write;
          trace := (Call_get_destinations iata :: reqs_a
                    ++ Call_send_email_bcc recipients :: reqs_m
                    ++ [Return_send_email_bcc false])%list |})
| Committed (cfg : config) (airline iata name : value)
    (reqs_a reqs_m : list event) (recipients : list string) :
    selected e file cfg airline iata ->
    at_most_one_amadeus iata reqs_a ->
    at_most_one_mailgun reqs_m ->
    run_form e file can_write
      (Ok 0%Z,
       snd (add_sent_airline (now_iso e) (hash_order e) iata name
              {| sent_file := file; writable := can_write;
                 trace := (Call_get_destinations iata :: reqs_a
                           ++ Call_send_email_bcc recipients :: reqs_m
                           ++ [Return_send_email_bcc true])%list |})).

(** One step of the two monads, without unfolding what is run. *)
Ltac run_monad := cbn [bind ret M_monad result_monad].

(* ===================================================================== *)
(** ** Properties of the selection                                     *)
(* ===================================================================== *)

Lemma available_filter (catalog : list value) (ledger : pyset) :
  forallb catalog_item catalog = true ->
  available catalog ledger
  = Ok (filter (fun a => negb (set_mem ledger (identifier a))) catalog).
Proof.
  induction catalog as [|a rest IH]; intros Hok; simpl in *.
  - reflexivity.
  - apply andb_true_iff in Hok as [Ha Hrest].
    destruct a; simpl in Ha; try discriminate.
    unfold py_get, py_get_default, set_contains. simpl.
    rewrite Ha, (IH Hrest). simpl.
    destruct (set_mem ledger (dict_get_default d "iata" VNone)); reflexivity.
Qed.

Lemma random_choice_in (draw : nat) (first : value) (seq : list value) :
  seq <> [] -> In (random_choice draw first seq) seq.
Proof.
  intros Hne. unfold random_choice. apply nth_In.
  apply Nat.mod_upper_bound. destruct seq; [congruence | simpl; lia].
Qed.

(** The selection returns only what passed the comprehension, whatever
    the catalog holds. *)
Lemma available_sound (catalog : list value) (ledger : pyset) :
  forall l a, available catalog ledger = Ok l -> In a l ->
  In a catalog /\ set_mem ledger (identifier a) = false.
Proof.
  induction catalog as [|c rest IH]; simpl; intros l a Hl Hin.
  - inversion Hl; subst. destruct Hin.
  - destruct c; simpl in Hl; try discriminate.
    unfold set_contains in Hl.
    destruct (hashable (dict_get_default d "iata" VNone)); simpl in Hl;
      [|discriminate].
    destruct (available rest ledger) as [tail|] eqn:Htail; simpl in Hl;
      [|discriminate].
    destruct (set_mem ledger (dict_get_default d "iata" VNone)) eqn:Hmem;
      inversion Hl; subst.
    + destruct (IH _ a eq_refl Hin) as [H1 H2]. split; [right|]; assumption.
    + destruct Hin as [<-|Hin].
      * split; [left; reflexivity | exact Hmem].
      * destruct (IH _ a eq_refl Hin) as [H1 H2]. split; [right|]; assumption.
Qed.

(** C1. For every catalog C of catalog items and every ledger L such that
    some item of C has an identifier that is not in L, the selection step
    of [main] returns an element of C whose identifier is not in L; and
    whatever it returns is an element of C whose identifier is not in L. *)
Theorem select_returns_unsent_item (draw : nat) (C : list value) (L : pyset) :
  forallb catalog_item C = true ->
  (exists c, In c C /\ set_mem L (identifier c) = false) ->
  (exists a, select draw C L = Ok (Some a)) /\
  (forall a, select draw C L = Ok (Some a) ->
             In a C /\ set_mem L (identifier a) = false).
Proof.
  intros Hitems [c [Hc Hfree]].
  assert (Hsound : forall a, select draw C L = Ok (Some a) ->
                             In a C /\ set_mem L (identifier a) = false).
  { intros a Hsel. unfold select in Hsel. simpl in Hsel.
    destruct (available C L) as [l|] eqn:Hav; [|discriminate].
    destruct l as [|first l']; [discriminate|].
    inversion Hsel; subst.
    apply (available_sound C L (first :: l') _ Hav).
    apply random_choice_in. discriminate. }
  split; [|exact Hsound].
  unfold select. rewrite (available_filter C L Hitems). simpl.
  destruct (filter (fun a => negb (set_mem L (identifier a))) C) as [|first l'] eqn:Hf.
  - exfalso.
    assert (Hin : In c (filter (fun a => negb (set_mem L (identifier a))) C)).
    { apply filter_In. split; [exact Hc | rewrite Hfree; reflexivity]. }
    rewrite Hf in Hin. destruct Hin.
  - eexists. reflexivity.
Qed.

Lemma select_returns_unsent_item_witness :
  let C := [VDict [("iata", VStr "AA"); ("name", VStr "Air A")];
            VDict [("iata", VStr "BB"); ("name", VStr "Air B")]] in
  let L := [VStr "AA"] in
  forallb catalog_item C = true /\
  (exists c, In c C /\ set_mem L (identifier c) = false) /\
  (exists a, select 0 C L = Ok (Some a)) /\
  (forall a, select 0 C L = Ok (Some a) ->
             In a C /\ set_mem L (identifier a) = false).
Proof.
  intros C L.
  assert (Hitems : forallb catalog_item C = true) by reflexivity.
  assert (Hfree : exists c, In c C /\ set_mem L (identifier c) = false).
  { exists (VDict [("iata", VStr "BB"); ("name", VStr "Air B")]).
    split; [right; left; reflexivity | reflexivity]. }
  split; [exact Hitems|]. split; [exact Hfree|].
  exact (select_returns_unsent_item 0 C L Hitems Hfree).
Defined.

(* ===================================================================== *)
(** ** Properties of the delivery client                               *)
(* ===================================================================== *)

Lemma with_trace_nil (w : world) : with_trace w [] = w.
Proof. destruct w; unfold with_trace; simpl. rewrite app_nil_r. reflexivity. Qed.

Lemma with_trace_app (w : world) (xs ys : list event) :
  with_trace (with_trace w xs) ys = with_trace w (xs ++ ys).
Proof. unfold with_trace; simpl. rewrite app_assoc. reflexivity. Qed.

Lemma send_email_bcc_empty (e : env) (html subject sender password : string)
    (w : world) :
  send_email_bcc e html subject sender password [] w
  = (Ok false, with_trace w [Call_send_email_bcc []; Return_send_email_bcc false]).
Proof.
  unfold send_email_bcc, emit, modify, with_trace. simpl.
  rewrite <- app_assoc. reflexivity.
Qed.

Lemma send_email_bcc_post (e : env) (html subject sender password : string)
    (recipients : list string) (w : world) :
  recipients <> [] ->
  let req := mailgun_request e html subject sender password recipients in
  let sent := delivered (mailgun_api e req) in
  send_email_bcc e html subject sender password recipients w
  = (Ok sent, with_trace w [Call_send_email_bcc recipients; MailgunRequest req;
                            Return_send_email_bcc sent]).
Proof.
  intros Hne req sent. destruct recipients as [|r rs]; [congruence|].
  subst sent req.
  unfold send_email_bcc, mailgun_request, delivered, emit, modify, try_except,
    with_trace, lift.
  cbn.
  destruct (mailgun_api e _) as [ex|status_code text]; cbn.
  - repeat rewrite <- app_assoc. reflexivity.
  - destruct (status_code =? 200)%Z; cbn; repeat rewrite <- app_assoc; reflexivity.
Qed.

(** C8. With an empty recipient list [send_email_bcc] returns false and no
    request goes out; otherwise exactly one request is posted, and the
    function returns true exactly when the answer is a response with
    status 200: any other status and any exception give false.  It never
    raises. *)
Theorem send_email_bcc_single_attempt (e : env)
    (html subject sender password : string) (recipients : list string)
    (w : world) :
  exists sent : bool,
    let w' := snd (send_email_bcc e html subject sender password recipients w) in
    fst (send_email_bcc e html subject sender password recipients w) = Ok sent /\
    sent_file w' = sent_file w /\
    (recipients = [] ->
       sent = false /\
       trace w' = (trace w ++ [Call_send_email_bcc [];
                               Return_send_email_bcc false])%list) /\
    (recipients <> [] ->
       exists req,
         trace w' = (trace w ++ [Call_send_email_bcc recipients;
                                 MailgunRequest req;
                                 Return_send_email_bcc sent])%list /\
         post_bcc req = recipients /\ post_to req = [sender] /\
         (sent = true <->
          exists text, mailgun_api e req = PostResponse 200 text)).
Proof.
  destruct recipients as [|r rs].
  - exists false. rewrite send_email_bcc_empty. simpl.
    repeat split; try reflexivity. intros H; congruence.
  - set (recipients := r :: rs).
    assert (Hne : recipients <> []) by discriminate.
    pose proof (send_email_bcc_post e html subject sender password recipients w Hne)
      as Hpost. simpl in Hpost.
    exists (delivered (mailgun_api e
              (mailgun_request e html subject sender password recipients))).
    rewrite Hpost. simpl.
    split; [reflexivity|]. split; [reflexivity|].
    split; [intros H; discriminate|].
    intros _. eexists. split; [reflexivity|].
    split; [reflexivity|]. split; [reflexivity|].
    unfold delivered.
    destruct (mailgun_api e _) as [ex|status_code text].
    + split; [discriminate | intros [t Ht]; discriminate].
    + split.
      * intros H. apply Z.eqb_eq in H. subst. exists text. reflexivity.
      * intros [t Ht]. inversion Ht; subst. reflexivity.
Qed.

(* ===================================================================== *)
(** ** Properties of the enrichment client                             *)
(* ===================================================================== *)

Lemma get_destinations_falsy (amadeus : value -> amadeus_outcome)
    (iata : value) (w : world) :
  truthy iata = false ->
  get_destinations amadeus iata w
  = (Ok (VList []), with_trace w [Call_get_destinations iata]).
Proof.
  intros Hf. unfold get_destinations, emit, modify, with_trace. cbn.
  rewrite Hf. reflexivity.
Qed.

Lemma get_destinations_sized (amadeus : value -> amadeus_outcome)
    (iata : value) (n : nat) (w : world) :
  truthy iata = true -> py_len iata = Ok n ->
  get_destinations amadeus iata w
  = if (n =? 2)%nat
    then (Ok (enriched (amadeus iata)),
          with_trace w [Call_get_destinations iata; AmadeusRequest iata])
    else (Ok (VList []), with_trace w [Call_get_destinations iata]).
Proof.
  intros Ht Hlen.
  unfold get_destinations, emit, modify, with_trace, try_except, lift. cbn.
  rewrite Ht, Hlen. cbn.
  destruct (n =? 2)%nat; cbn; [|reflexivity].
  rewrite <- app_assoc. cbn.
  destruct (amadeus iata) as [ex|[v|]]; cbn.
  - destruct ex; reflexivity.
  - destruct (truthy v); cbn; [|reflexivity].
    destruct (py_len v) as [m|ex]; cbn; [reflexivity|].
    destruct ex; reflexivity.
  - reflexivity.
Qed.

(** A truthy identifier that has no length makes the guard itself raise,
    before any request. *)
Lemma get_destinations_unsized (amadeus : value -> amadeus_outcome)
    (iata : value) (ex : exn) (w : world) :
  truthy iata = true -> py_len iata = Raise ex ->
  get_destinations amadeus iata w
  = (Raise ex, with_trace w [Call_get_destinations iata]).
Proof.
  intros Ht Hlen.
  unfold get_destinations, emit, modify, with_trace, lift. cbn.
  rewrite Ht, Hlen. reflexivity.
Qed.

(** Whatever the identifier, the enrichment client leaves the ledger file
    alone and records nothing but its own call and request. *)
Lemma get_destinations_frame (amadeus : value -> amadeus_outcome)
    (iata : value) (w : world) :
  exists r evs,
    get_destinations amadeus iata w = (r, with_trace w evs) /\
    forallb enrichment_event evs = true.
Proof.
  destruct (truthy iata) eqn:Ht.
  - destruct (py_len iata) as [n|ex] eqn:Hlen.
    + rewrite (get_destinations_sized amadeus iata n w Ht Hlen).
      destruct (n =? 2)%nat; do 2 eexists; split; reflexivity.
    + rewrite (get_destinations_unsized amadeus iata ex w Ht Hlen).
      do 2 eexists; split; reflexivity.
  - rewrite (get_destinations_falsy amadeus iata w Ht).
    do 2 eexists; split; reflexivity.
Qed.

(** C9, as amended.  For every identifier that is a string, or [None]
    when absent, [get_destinations] returns normally and leaves the
    ledger file alone.  It returns the empty list with no request made
    when the identifier is absent or is not two characters long, and it
    returns the empty list when the service raises (a transport error or
    its "not found" [ResponseError]) and when the response has no data
    field. *)
Theorem get_destinations_never_raises (amadeus : value -> amadeus_outcome)
    (code : option string) (w : world) :
  exists destinations : value,
    let w' := snd (get_destinations amadeus (id_value code) w) in
    fst (get_destinations amadeus (id_value code) w) = Ok destinations /\
    sent_file w' = sent_file w /\
    ((code = None \/ exists s, code = Some s /\ String.length s <> 2) ->
       destinations = VList [] /\
       trace w' = (trace w ++ [Call_get_destinations (id_value code)])%list) /\
    ((exists ex, amadeus (id_value code) = AmadeusRaises ex) ->
       destinations = VList []) /\
    (amadeus (id_value code) = AmadeusResponse None ->
       destinations = VList []).
Proof.
  destruct code as [s|]; simpl id_value.
  - destruct (truthy (VStr s)) eqn:Ht.
    + rewrite (get_destinations_sized amadeus (VStr s) (String.length s) w Ht eq_refl).
      destruct (String.length s =? 2)%nat eqn:Hlen.
      * exists (enriched (amadeus (VStr s))). simpl.
        split; [reflexivity|]. split; [reflexivity|].
        apply Nat.eqb_eq in Hlen.
        split; [|split].
        -- intros [H|[s' [H Hs']]]; [discriminate|].
           inversion H; subst. congruence.
        -- intros [ex Hex]. rewrite Hex. reflexivity.
        -- intros Hnone. rewrite Hnone. reflexivity.
      * exists (VList []). simpl. repeat split; reflexivity.
    + rewrite (get_destinations_falsy amadeus (VStr s) w Ht).
      exists (VList []). simpl. repeat split; reflexivity.
  - rewrite (get_destinations_falsy amadeus VNone w eq_refl).
    exists (VList []). simpl. repeat split; reflexivity.
Qed.

(** The claim as written fails on an identifier that is not a string:
    the number 12 is truthy and has no [len], and the length check, which
    stands before the [try], raises to the caller. *)
Lemma get_destinations_of_a_number :
  get_destinations (fun _ => AmadeusResponse (Some (VList []))) (VInt 12)
    {| sent_file := NoFile; writable := Accepts; trace := [] |}
  = (Raise (TypeError "object of type 'int' has no len()"),
     {| sent_file := NoFile; writable := Accepts;
        trace := [Call_get_destinations (VInt 12)] |}).
Proof. reflexivity. Qed.

(* ===================================================================== *)
(** ** Properties of the ledger                                        *)
(* ===================================================================== *)

Lemma py_eqb_refl (v : value) : hashable v = true -> py_eqb v v = true.
Proof.
  destruct v as [|b|z|s|l|d]; simpl; intros H; try discriminate.
  - reflexivity.
  - destruct b; reflexivity.
  - apply Z.eqb_refl.
  - apply String.eqb_refl.
Qed.

Lemma py_eqb_sym (a b : value) : py_eqb a b = py_eqb b a.
Proof.
  destruct a as [|x|x|x|x|x], b as [|y|y|y|y|y]; simpl; try reflexivity.
  - destruct x, y; reflexivity.
  - apply Z.eqb_sym.
  - apply String.eqb_sym.
Qed.

Lemma py_eqb_trans (a b c : value) :
  py_eqb a b = true -> py_eqb b c = true -> py_eqb a c = true.
Proof.
  destruct a as [|x|x|x|x|x], b as [|y|y|y|y|y], c as [|z|z|z|z|z]; simpl;
    intros H1 H2; try discriminate; try reflexivity;
    repeat match goal with
           | b : bool |- _ => destruct b
           end; cbv beta iota in *;
    repeat match goal with
           | H : (_ =? _)%Z = true |- _ => apply Z.eqb_eq in H
           | H : (_ =? _)%string = true |- _ => apply String.eqb_eq in H
           | H : Bool.eqb _ _ = true |- _ => apply eqb_prop in H
           end; subst; try discriminate; try lia;
    rewrite ?Z.eqb_refl, ?String.eqb_refl; reflexivity.
Qed.

Lemma set_mem_app (s t : pyset) (k : value) :
  set_mem (s ++ t)%list k = set_mem s k || set_mem t k.
Proof. unfold set_mem. apply existsb_app. Qed.

(** Membership is stable under [==]. *)
Lemma set_mem_eqb (s : pyset) (k v : value) :
  py_eqb k v = true -> set_mem s v = true -> set_mem s k = true.
Proof.
  unfold set_mem. intros Hkv Hv.
  apply existsb_exists in Hv as [u [Hu Hvu]].
  apply existsb_exists. exists u. split; [exact Hu|].
  exact (py_eqb_trans k v u Hkv Hvu).
Qed.

Lemma set_add_mem (s s' : pyset) (v k : value) :
  set_add s v = Ok s' ->
  set_mem s' k = set_mem s k || py_eqb k v.
Proof.
  unfold set_add. destruct (hashable v); [|discriminate].
  destruct (set_mem s v) eqn:Hv; intros H; inversion H; subst.
  - destruct (py_eqb k v) eqn:Hkv.
    + rewrite (set_mem_eqb s' k v Hkv Hv). reflexivity.
    + rewrite orb_false_r. reflexivity.
  - rewrite set_mem_app. simpl. rewrite orb_false_r. reflexivity.
Qed.

Lemma set_add_hashable (s s' : pyset) (v : value) :
  set_add s v = Ok s' -> forallb hashable s = true ->
  hashable v = true /\ forallb hashable s' = true.
Proof.
  unfold set_add. destruct (hashable v) eqn:Hh; [|discriminate].
  intros H Hs. split; [reflexivity|].
  destruct (set_mem s v); inversion H; subst; [exact Hs|].
  rewrite forallb_app. simpl. rewrite Hs, Hh. reflexivity.
Qed.

Lemma set_of_list_mem (items : list value) :
  forall acc s k, set_of_list items acc = Ok s ->
  set_mem s k = set_mem acc k || existsb (py_eqb k) items.
Proof.
  induction items as [|v rest IH]; simpl; intros acc s k H.
  - inversion H; subst. rewrite orb_false_r. reflexivity.
  - destruct (set_add acc v) as [acc'|] eqn:Hadd; [|discriminate].
    rewrite (IH acc' s k H), (set_add_mem acc acc' v k Hadd).
    rewrite orb_assoc. reflexivity.
Qed.

Lemma set_of_list_hashable (items : list value) :
  forall acc s, set_of_list items acc = Ok s ->
  forallb hashable acc = true -> forallb hashable s = true.
Proof.
  induction items as [|v rest IH]; simpl; intros acc s H Hacc.
  - inversion H; subst. exact Hacc.
  - destruct (set_add acc v) as [acc'|] eqn:Hadd; [|discriminate].
    apply (IH acc' s H).
    apply (set_add_hashable acc acc' v Hadd Hacc).
Qed.

Lemma set_of_list_total (items : list value) :
  forall acc, forallb hashable items = true ->
  exists s, set_of_list items acc = Ok s.
Proof.
  induction items as [|v rest IH]; simpl; intros acc H.
  - eexists; reflexivity.
  - apply andb_true_iff in H as [Hv Hrest].
    unfold set_add. rewrite Hv. apply IH. exact Hrest.
Qed.

Lemma get_sent_airlines_reads (w : world) :
  get_sent_airlines w = (Ok (stored_set (sent_file w)), w).
Proof.
  unfold get_sent_airlines, read_sent_file, try_except, get_state, lift, stored_set.
  cbn.
  destruct (sent_file w) as [|ex|data]; cbn; try reflexivity.
  destruct (py_get_default data "sent" (VList [])) as [sent|ex]; cbn;
    [|reflexivity].
  destruct (py_iter sent) as [items|ex]; cbn; [|reflexivity].
  destruct (set_of_list items []) as [s|ex]; cbn; reflexivity.
Qed.

Lemma stored_set_hashable (file : file_state) :
  forallb hashable (stored_set file) = true.
Proof.
  destruct file as [|ex|data]; simpl; try reflexivity.
  destruct (py_get_default data "sent" (VList [])) as [sent|ex]; simpl;
    [|reflexivity].
  destruct (py_iter sent) as [items|ex]; simpl; [|reflexivity].
  destruct (set_of_list items []) as [s|ex] eqn:Hs; [|reflexivity].
  apply (set_of_list_hashable items [] s Hs). reflexivity.
Qed.

Lemma insert_at_existsb (f : value -> bool) (v : value) (l : list value) :
  forall n, existsb f (insert_at n v l) = f v || existsb f l.
Proof.
  induction l as [|x rest IH]; intros [|n]; simpl; try reflexivity.
  rewrite IH. destruct (f v), (f x); reflexivity.
Qed.

Lemma insert_at_forallb (f : value -> bool) (v : value) (l : list value) :
  forall n, forallb f (insert_at n v l) = f v && forallb f l.
Proof.
  induction l as [|x rest IH]; intros [|n]; simpl; try reflexivity.
  rewrite IH. destruct (f v), (f x); reflexivity.
Qed.

Lemma insert_at_permutation (v : value) (l : list value) :
  forall n, Permutation (insert_at n v l) (v :: l).
Proof.
  induction l as [|x rest IH]; intros [|n]; simpl; try apply Permutation_refl.
  apply Permutation_trans with (x :: v :: rest).
  - apply perm_skip, IH.
  - apply perm_swap.
Qed.

Lemma insert_at_app (v : value) (l1 l2 : list value) :
  insert_at (List.length l1) v (l1 ++ l2)%list = (l1 ++ v :: l2)%list.
Proof.
  induction l1 as [|x rest IH]; simpl.
  - destruct l2; reflexivity.
  - rewrite IH. reflexivity.
Qed.

(** Listing a set keeps its elements, whatever the order. *)
Lemma arrange_permutation (s : pyset) :
  forall order, Permutation (arrange order s) s.
Proof.
  induction s as [|v rest IH]; intros order; simpl; [apply perm_nil|].
  destruct order as [|n order'].
  - apply perm_skip, IH.
  - apply Permutation_trans with (v :: arrange order' rest).
    + apply insert_at_permutation.
    + apply perm_skip, IH.
Qed.

(** And every order of the elements is the listing for some [order]. *)
Lemma arrange_any_order (s : pyset) :
  forall l, Permutation l s -> exists order, arrange order s = l.
Proof.
  induction s as [|v rest IH]; intros l Hl.
  - apply Permutation_sym, Permutation_nil in Hl. subst l. exists []. reflexivity.
  - assert (Hin : In v l).
    { apply (Permutation_in v (Permutation_sym Hl)). left. reflexivity. }
    apply in_split in Hin as [l1 [l2 ->]].
    apply Permutation_sym, Permutation_cons_app_inv, Permutation_sym in Hl.
    destruct (IH _ Hl) as [order' Horder].
    exists (List.length l1 :: order'). simpl. rewrite Horder.
    apply insert_at_app.
Qed.

Lemma arrange_in_order (s : pyset) : arrange [] s = s.
Proof. induction s as [|v rest IH]; simpl; [|rewrite IH]; reflexivity. Qed.

Lemma arrange_mem (s : pyset) (k : value) :
  forall order, set_mem (arrange order s) k = set_mem s k.
Proof.
  unfold set_mem.
  induction s as [|v rest IH]; intros order; simpl; [reflexivity|].
  destruct order as [|n order']; simpl.
  - rewrite IH. reflexivity.
  - rewrite insert_at_existsb, IH. reflexivity.
Qed.

Lemma arrange_hashable (s : pyset) :
  forall order, forallb hashable (arrange order s) = forallb hashable s.
Proof.
  induction s as [|v rest IH]; intros order; simpl; [reflexivity|].
  destruct order as [|n order']; simpl.
  - rewrite IH. reflexivity.
  - rewrite insert_at_forallb, IH. reflexivity.
Qed.

(** The three ways a commit can go: the identifier can be hashed and the
    write goes through; or the identifier cannot be hashed, or the open
    is refused; or the write fails after the open. *)
Lemma commit_cases (id : value) (w : world) :
  (hashable id = true /\ writable w = Accepts) \/
  (hashable id = false \/ writable w = Refuses) \/
  (hashable id = true /\ writable w = Breaks).
Proof.
  destruct (hashable id); destruct (writable w); auto.
Qed.

Lemma hashable_set_add (s : pyset) (v : value) :
  hashable v = true -> exists s', set_add s v = Ok s'.
Proof. intros Hh. unfold set_add. rewrite Hh. eexists; reflexivity. Qed.

Lemma add_sent_airline_writes (now_iso : string) (order : list nat)
    (iata_code airline_name : value) (w : world) (sent_set' : pyset) :
  set_add (stored_set (sent_file w)) iata_code = Ok sent_set' ->
  writable w = Accepts ->
  add_sent_airline now_iso order iata_code airline_name w
  = (Ok true,
     {| sent_file := Contents (ledger_document now_iso (arrange order sent_set'));
        writable := Accepts;
        trace := (trace w ++ [Call_add_sent_airline iata_code airline_name;
                              Return_add_sent_airline true])%list |}).
Proof.
  intros Hadd Hw.
  unfold add_sent_airline, try_except, emit, modify, lift. run_monad.
  rewrite get_sent_airlines_reads. cbn [sent_file]. rewrite Hadd.
  unfold write_sent_file. cbn [writable]. rewrite Hw. cbn.
  rewrite <- app_assoc. reflexivity.
Qed.

Lemma add_sent_airline_fails (now_iso : string) (order : list nat)
    (iata_code airline_name : value) (w : world) :
  hashable iata_code = false \/ writable w = Refuses ->
  add_sent_airline now_iso order iata_code airline_name w
  = (Ok false, with_trace w [Call_add_sent_airline iata_code airline_name;
                             Return_add_sent_airline false]).
Proof.
  intros H.
  unfold add_sent_airline, try_except, emit, modify, lift, with_trace. run_monad.
  rewrite get_sent_airlines_reads. cbn [sent_file].
  unfold set_add.
  destruct (hashable iata_code) eqn:Hh.
  - destruct H as [H|H]; [discriminate|].
    unfold write_sent_file. cbn [writable]. rewrite H. cbn.
    rewrite <- app_assoc. reflexivity.
  - cbn. rewrite <- app_assoc. reflexivity.
Qed.

Lemma add_sent_airline_breaks (now_iso : string) (order : list nat)
    (iata_code airline_name : value) (w : world) :
  hashable iata_code = true -> writable w = Breaks ->
  add_sent_airline now_iso order iata_code airline_name w
  = (Ok false,
     {| sent_file := cut_short;
        writable := Breaks;
        trace := (trace w ++ [Call_add_sent_airline iata_code airline_name;
                              Return_add_sent_airline false])%list |}).
Proof.
  intros Hh Hw.
  unfold add_sent_airline, try_except, emit, modify, lift. run_monad.
  rewrite get_sent_airlines_reads. cbn [sent_file].
  unfold set_add. rewrite Hh.
  unfold write_sent_file. cbn [writable]. rewrite Hw. cbn.
  rewrite <- app_assoc. reflexivity.
Qed.

(** Reading back what a commit wrote gives a set with the same members. *)
Lemma stored_set_ledger_document (now_iso : string) (sent : list value) (k : value) :
  forallb hashable sent = true ->
  set_mem (stored_set (Contents (ledger_document now_iso sent))) k
  = set_mem sent k.
Proof.
  intros Hh. simpl.
  destruct (set_of_list_total sent [] Hh) as [s Hs].
  rewrite Hs. rewrite (set_of_list_mem sent [] s k Hs). reflexivity.
Qed.

Lemma stored_set_arranged (now_iso : string) (order : list nat) (s : pyset)
    (k : value) :
  forallb hashable s = true ->
  set_mem (stored_set (Contents (ledger_document now_iso (arrange order s)))) k
  = set_mem s k.
Proof.
  intros Hh. rewrite stored_set_ledger_document.
  - apply arrange_mem.
  - rewrite arrange_hashable. exact Hh.
Qed.

(** C5, as amended.  A commit never raises.  It returns true whenever the
    identifier can be hashed and the storage takes the write in full, and
    when [add_sent_airline(id, name)] returns true the set that
    [get_sent_airlines] loads afterwards contains [id] and every
    identifier that was loaded before the commit.  When it returns false,
    the ledger loads as before if the identifier could not be hashed or
    the file could not be opened for writing; if the write failed after
    the open, which empties the file, the ledger loads as the empty
    set. *)
Theorem commit_then_load (now_iso : string) (order : list nat) (id name : value)
    (w : world) :
  exists (updated : bool) (before after : pyset),
    let w' := snd (add_sent_airline now_iso order id name w) in
    fst (add_sent_airline now_iso order id name w) = Ok updated /\
    get_sent_airlines w = (Ok before, w) /\
    get_sent_airlines w' = (Ok after, w') /\
    (updated = true <-> hashable id = true /\ writable w = Accepts) /\
    (updated = true ->
       set_mem after id = true /\
       forall k, set_mem before k = true -> set_mem after k = true) /\
    (updated = false ->
       (writable w <> Breaks \/ hashable id = false -> after = before) /\
       (writable w = Breaks -> hashable id = true -> after = [])).
Proof.
  destruct (commit_cases id w) as [[Hh Hw]|[Hfail|[Hh Hw]]].
  - destruct (hashable_set_add (stored_set (sent_file w)) id Hh)
      as [sent_set' Hadd].
    rewrite (add_sent_airline_writes now_iso order id name w sent_set' Hadd Hw).
    exists true, (stored_set (sent_file w)).
    eexists. cbn [fst snd].
    split; [reflexivity|].
    split; [apply get_sent_airlines_reads|].
    split; [apply get_sent_airlines_reads|].
    cbn [sent_file].
    assert (Hhash : forallb hashable sent_set' = true).
    { apply (set_add_hashable _ _ _ Hadd), stored_set_hashable. }
    split; [tauto|]. split; [|discriminate].
    intros _. split.
    + rewrite (stored_set_arranged now_iso order sent_set' id Hhash).
      rewrite (set_add_mem _ _ id id Hadd), (py_eqb_refl id Hh).
      apply orb_true_r.
    + intros k Hk. rewrite (stored_set_arranged now_iso order sent_set' k Hhash).
      rewrite (set_add_mem _ _ id k Hadd), Hk. reflexivity.
  - rewrite (add_sent_airline_fails now_iso order id name w Hfail).
    exists false, (stored_set (sent_file w)), (stored_set (sent_file w)).
    cbn [fst snd].
    split; [reflexivity|].
    split; [apply get_sent_airlines_reads|].
    split; [exact (get_sent_airlines_reads (with_trace w _))|].
    split.
    { split; [discriminate|]. intros [Hh Hw].
      destruct Hfail as [Hf|Hf]; congruence. }
    split; [discriminate|].
    intros _. split; [reflexivity|].
    intros Hw Hh. destruct Hfail as [Hf|Hf]; congruence.
  - rewrite (add_sent_airline_breaks now_iso order id name w Hh Hw).
    exists false, (stored_set (sent_file w)), [].
    cbn [fst snd].
    split; [reflexivity|].
    split; [apply get_sent_airlines_reads|].
    split; [reflexivity|].
    split.
    { split; [discriminate|]. intros [_ Hw']. congruence. }
    split; [discriminate|].
    intros _. split; [|reflexivity].
    intros [Hnot|Hnot]; [contradiction | congruence].
Qed.

(** The claim as written fails where the write stops after the file was
    opened: the commit of "BA" returns false, and the set loaded
    afterwards has neither "BA" nor "AA", which was in the ledger
    before. *)
Lemma commit_cut_short_then_load :
  let w := {| sent_file := Contents (VDict [("sent", VList [VStr "AA"])]);
              writable := Breaks; trace := [] |} in
  let w' := snd (add_sent_airline "2026-01-01T08:00:00" [] (VStr "BA")
                                  (VStr "Test Air") w) in
  fst (add_sent_airline "2026-01-01T08:00:00" [] (VStr "BA") (VStr "Test Air") w)
  = Ok false /\
  fst (get_sent_airlines w) = Ok [VStr "AA"] /\
  exists after, fst (get_sent_airlines w') = Ok after /\
                set_mem after (VStr "BA") = false /\
                set_mem after (VStr "AA") = false.
Proof.
  split; [reflexivity|]. split; [reflexivity|].
  exists []. repeat split; reflexivity.
Qed.

(** Where the open is refused the file stays as it was, and the
    identifier is not in what is loaded either. *)
Example commit_refused_then_load :
  let w := {| sent_file := NoFile; writable := Refuses; trace := [] |} in
  let w' := snd (add_sent_airline "2026-01-01T08:00:00" [] (VStr "BA")
                                  (VStr "Test Air") w) in
  fst (add_sent_airline "2026-01-01T08:00:00" [] (VStr "BA") (VStr "Test Air") w)
  = Ok false /\
  sent_file w' = NoFile /\
  exists after, fst (get_sent_airlines w') = Ok after /\
                set_mem after (VStr "BA") = false.
Proof.
  split; [reflexivity|]. split; [reflexivity|]. exists []. split; reflexivity.
Qed.

(** The round trip of the test in the specification. *)
Example commit_BA_then_load :
  let w := {| sent_file := NoFile; writable := Accepts; trace := [] |} in
  fst (get_sent_airlines
         (snd (add_sent_airline "2026-01-01T08:00:00" [] (VStr "BA")
                                (VStr "Test Air") w)))
  = Ok [VStr "BA"].
Proof. reflexivity. Qed.

(* ===================================================================== *)
(** ** Properties of the renderer                                      *)
(* ===================================================================== *)

Lemma append_cancel_l (p x y : string) : p ++ x = p ++ y -> x = y.
Proof.
  induction p as [|c p IH]; simpl; intros H; [exact H|].
  inversion H. auto.
Qed.

Lemma length_append (a b : string) :
  String.length (a ++ b) = String.length a + String.length b.
Proof. induction a as [|c a IH]; simpl; [reflexivity | rewrite IH; reflexivity]. Qed.

Lemma append_cancel_r (r a b : string) : a ++ r = b ++ r -> a = b.
Proof.
  revert b. induction a as [|c a IH]; intros [|c' b] H; simpl in H.
  - reflexivity.
  - apply (f_equal String.length) in H. simpl in H.
    rewrite length_append in H. lia.
  - apply (f_equal String.length) in H. simpl in H.
    rewrite length_append in H. lia.
  - inversion H; subst. f_equal. apply IH. assumption.
Qed.

(** The date is printed once in the page, so the page tells it. *)
Lemma page_tells_the_date (py_repr : value -> string) (t1 t2 : string)
    (data : dict) (airline_name : value) (logo_html fleet_html : string)
    (total_aircraft : value) (dest_html : string) :
  page py_repr t1 data airline_name logo_html fleet_html total_aircraft dest_html
  = page py_repr t2 data airline_name logo_html fleet_html total_aircraft dest_html
  -> t1 = t2.
Proof.
  unfold page. intros H.
  repeat (apply append_cancel_l in H).
  apply append_cancel_r in H. exact H.
Qed.

(** C3, as amended.  What [create_email_content] returns is determined by
    the airline item, the destination records and the date the clock
    shows when it is called: whether it raises, the display name and the
    shown count do not depend on the date, and two calls on the same
    inputs return the same document exactly when they read the same
    date.  It writes nothing: it is a function of these three inputs. *)
Theorem create_email_content_reads_the_clock (py_repr : value -> string)
    (today1 today2 : string) (airline_data destinations : value) :
  match create_email_content py_repr today1 airline_data destinations,
        create_email_content py_repr today2 airline_data destinations with
  | Ok (html1, name1, shown1), Ok (html2, name2, shown2) =>
      name1 = name2 /\ shown1 = shown2 /\ (html1 = html2 <-> today1 = today2)
  | Raise e1, Raise e2 => e1 = e2
  | _, _ => False
  end.
Proof.
  unfold create_email_content.
  destruct airline_data as [| | | | |data]; try reflexivity.
  run_monad.
  destruct (py_items (dict_get_default data "fleet" (VDict []))) as [items|ex];
    [|reflexivity].
  destruct (py_get_default (dict_get_default data "fleet" (VDict [])) "total"
              (VStr "N/A")) as [total|ex]; [|reflexivity].
  match goal with
  | |- context [if truthy destinations then ?a else ?b] =>
      destruct (if truthy destinations then a else b) as [valid|ex];
        [|reflexivity]
  end.
  split; [reflexivity|]. split; [reflexivity|].
  split.
  - apply page_tells_the_date.
  - intros ->. reflexivity.
Qed.

(** The claim as written fails: the same item and records, rendered on two
    different days, give two different documents. *)
Lemma create_email_content_two_days :
  create_email_content (fun _ => EmptyString) "January 01, 2025"
    (VDict [("iata", VStr "BA"); ("name", VStr "Test Air")]) (VList [])
  <> create_email_content (fun _ => EmptyString) "January 02, 2025"
    (VDict [("iata", VStr "BA"); ("name", VStr "Test Air")]) (VList []).
Proof.
  intros H.
  assert (Hrun : forall t,
             create_email_content (fun _ => EmptyString) t
               (VDict [("iata", VStr "BA"); ("name", VStr "Test Air")]) (VList [])
             = Ok (page (fun _ => EmptyString) t
                     [("iata", VStr "BA"); ("name", VStr "Test Air")]
                     (VStr "Test Air") "" "No detailed fleet data" (VStr "N/A") "",
                   VStr "Test Air", 0))
    by (intros t; reflexivity).
  rewrite !Hrun in H.
  apply (f_equal (fun r => match r with
                           | Ok (html, _, _) => html
                           | Raise _ => EmptyString
                           end)) in H.
  apply page_tells_the_date in H. discriminate H.
Qed.

Lemma address_country (r : dict) :
  record_ok (VDict r) = true ->
  py_get_default (dict_get_default r "address" (VDict [])) "countryCode" (VStr "??")
  = Ok (match dict_get_default r "address" (VDict []) with
        | VDict address => dict_get_default address "countryCode" (VStr "??")
        | _ => VStr "??"
        end).
Proof.
  unfold record_ok, dict_get_default.
  destruct (dict_get r "address") as [[| | | | |address]|]; intros H;
    try discriminate; reflexivity.
Qed.

Lemma renderable_with_code (r : dict) :
  renderable (VDict r) = true ->
  truthy (dict_get_default r "iataCode" VNone) = true ->
  record_ok (VDict r) = true.
Proof.
  unfold renderable, record_ok. intros H Ht. rewrite Ht in H. exact H.
Qed.

Lemma dest_loop_renderable (py_repr : value -> string) (recs : list value) :
  forallb renderable recs = true ->
  forall valid_dests,
    dest_loop py_repr recs valid_dests
    = Ok (valid_dests ++ map (entry py_repr) (filter has_code recs))%list.
Proof.
  induction recs as [|d rest IH]; intros Hok valid_dests.
  - simpl. rewrite app_nil_r. reflexivity.
  - simpl in Hok. apply andb_true_iff in Hok as [Hd Hrest].
    destruct d as [| | | | |r]; try discriminate.
    cbn [dest_loop]. unfold py_get. cbn [py_get_default]. run_monad.
    cbn [filter has_code].
    destruct (truthy (dict_get_default r "iataCode" VNone)) eqn:Hcode;
      cbn [negb].
    + rewrite (address_country r (renderable_with_code r Hd Hcode)). run_monad.
      rewrite (IH Hrest). cbn [map entry]. unfold display.
      rewrite <- app_assoc. reflexivity.
    + apply (IH Hrest).
Qed.

Lemma fleet_is_dict (data : dict) :
  fleet_ok data = true ->
  exists fleet, dict_get_default data "fleet" (VDict []) = VDict fleet.
Proof.
  unfold fleet_ok, dict_get_default.
  destruct (dict_get data "fleet") as [[| | | | |fleet]|]; intros H;
    try discriminate; eexists; reflexivity.
Qed.

Lemma halves (n : nat) : (n + 1) / 2 = n - n / 2 /\ n / 2 <= n.
Proof.
  pose proof (Nat.div_mod_eq n 2) as H1.
  pose proof (Nat.mod_upper_bound n 2 ltac:(lia)) as H2.
  pose proof (Nat.div_mod_eq (n + 1) 2) as H3.
  pose proof (Nat.mod_upper_bound (n + 1) 2 ltac:(lia)) as H4.
  lia.
Qed.

Lemma columns_split (valid_dests : list string) :
  (column1 valid_dests ++ column2 valid_dests)%list = valid_dests /\
  List.length (column1 valid_dests)
  = List.length valid_dests - List.length valid_dests / 2 /\
  List.length (column2 valid_dests) = List.length valid_dests / 2.
Proof.
  unfold column1, column2, mid.
  destruct (halves (List.length valid_dests)) as [Hmid Hle].
  split; [apply firstn_skipn|].
  rewrite length_firstn, length_skipn, Hmid. lia.
Qed.

Lemma dest_section_columns (py_repr : value -> string)
    (valid_dests : list string) (airline_name : value) :
  valid_dests <> [] ->
  dest_section py_repr valid_dests airline_name
  = dest_block py_repr (String.concat "<br>" (column1 valid_dests))
      (String.concat "<br>" (column2 valid_dests))
      (List.length valid_dests) airline_name.
Proof.
  intros Hne. unfold dest_section.
  destruct valid_dests as [|v vs]; [congruence|].
  destruct (column2 (v :: vs)); reflexivity.
Qed.

Lemma append_assoc (a b c : string) : (a ++ b) ++ c = a ++ b ++ c.
Proof. induction a as [|x a IH]; simpl; [|rewrite IH]; reflexivity. Qed.

Lemma occurs_skip (part a b : string) : occurs part b -> occurs part (a ++ b).
Proof.
  intros [before [after ->]]. exists (a ++ before), after.
  rewrite append_assoc. reflexivity.
Qed.

(** The document [h] starts with the text [part]. *)
Lemma starts_last (a h : string) : exists after, a ++ h = a ++ after.
Proof. exists h. reflexivity. Qed.

Lemma starts_cons (a part h : string) :
  (exists after, h = part ++ after) ->
  exists after, a ++ h = (a ++ part) ++ after.
Proof. intros [after ->]. exists after. rewrite append_assoc. reflexivity. Qed.

Lemma occurs_at_head (part h : string) :
  (exists after, h = part ++ after) -> occurs part h.
Proof. intros [after ->]. exists EmptyString, after. reflexivity. Qed.

Lemma occurs_drop (a part h : string) : occurs (a ++ part) h -> occurs part h.
Proof.
  intros [before [after ->]]. exists (before ++ a), after.
  rewrite !append_assoc. reflexivity.
Qed.

(** Finds a text in a document, both written as chains of pieces: the
    text starts with the piece [piece], and from there on the pieces of
    the two are the same. *)
Ltac skip_to piece :=
  lazymatch goal with
  | |- occurs _ (piece ++ _) => idtac
  | |- occurs _ (_ ++ _) => apply occurs_skip; skip_to piece
  end.

Ltac locate_part piece :=
  skip_to piece;
  first [ solve [apply occurs_at_head; repeat (apply starts_cons);
                 apply starts_last]
        | apply occurs_skip; locate_part piece ].

(** The two columns and the count as they stand in a page with
    destinations. *)
Lemma page_shows (py_repr : value -> string) (today : string) (data : dict)
    (name : value) (logo_html fleet_html : string) (total_aircraft : value)
    (lines : list string) :
  lines <> [] ->
  let n := List.length lines in
  let k := n - n / 2 in
  let html := page py_repr today data name logo_html fleet_html total_aircraft
                (dest_section py_repr lines name) in
  occurs (two_columns (stacked (firstn k lines)) (stacked (skipn k lines))) html /\
  occurs (count_line py_repr n name) html.
Proof.
  intros Hne n k html. subst html.
  rewrite (dest_section_columns py_repr lines name Hne).
  unfold column1, column2, mid.
  rewrite (proj1 (halves (List.length lines))). fold n. fold k.
  unfold stacked.
  generalize (String.concat "<br>" (firstn k lines)) as col1.
  generalize (String.concat "<br>" (skipn k lines)) as col2.
  intros col2 col1.
  unfold page, dest_block, two_columns, count_line. cbn [py_str].
  split.
  - apply (occurs_drop "                ").
    change "                <div style="
      with ("                " ++ "<div style=").
    rewrite !append_assoc.
    locate_part "                ".
  - apply (occurs_drop "                ").
    change "                Showing all "
      with ("                " ++ "Showing all ").
    rewrite !append_assoc.
    locate_part "                ".
Qed.

(** C4, as amended.  For every airline item whose fleet, when it has one,
    is an object, and every list of enrichment records that are objects
    whose address, for those that carry an identifier, is an object or
    absent, [create_email_content] returns normally.  It drops every
    record that lacks its [iataCode] and turns each of the n records that
    carry one into the line
    "<identifier> – <displayName>, <countryCode-or-placeholder>", in
    order.  The page shows the lines in two columns, the first ceil(n/2)
    of them in the first and the remaining floor(n/2) in the second, so
    all n with none cut off, and reports the count n, which is also the
    count returned. *)
Theorem create_email_content_shows_all (py_repr : value -> string)
    (today : string) (data : dict) (recs : list value) :
  fleet_ok data = true ->
  forallb renderable recs = true ->
  let shown := filter has_code recs in
  let lines := map (entry py_repr) shown in
  let n := List.length shown in
  let k := n - n / 2 in
  let name := dict_get_default data "name" (VStr "Unknown") in
  (forall d, In d shown <-> In d recs /\ has_code d = true) /\
  (forall r, dict_get r "iataCode" = None -> ~ In (VDict r) shown) /\
  (k + n / 2 = n /\ (2 * k = n \/ 2 * k = n + 1)) /\
  List.length (firstn k lines) = k /\
  List.length (skipn k lines) = n / 2 /\
  (firstn k lines ++ skipn k lines)%list = lines /\
  (column1 lines = firstn k lines /\ column2 lines = skipn k lines) /\
  exists html,
    create_email_content py_repr today (VDict data) (VList recs)
    = Ok (html, name, n) /\
    (n <> 0 ->
       occurs (two_columns (stacked (firstn k lines)) (stacked (skipn k lines)))
              html /\
       occurs (count_line py_repr n name) html).
Proof.
  intros Hfleet Hrecs shown lines n k name.
  assert (Hn : List.length lines = n) by apply length_map.
  destruct (halves n) as [Hmid Hle].
  split; [intros d; apply filter_In|].
  split.
  { intros r Hmissing Hin. apply filter_In in Hin as [_ Hcode].
    simpl in Hcode. unfold dict_get_default in Hcode.
    rewrite Hmissing in Hcode. discriminate. }
  split.
  { pose proof (Nat.div_mod_eq n 2) as H1.
    pose proof (Nat.mod_upper_bound n 2 ltac:(lia)) as H2.
    unfold k. lia. }
  split; [rewrite length_firstn, Hn; unfold k; lia|].
  split; [rewrite length_skipn, Hn; unfold k; lia|].
  split; [apply firstn_skipn|].
  split; [unfold column1, column2, mid; rewrite Hn, Hmid; split; reflexivity|].
  destruct (fleet_is_dict data Hfleet) as [fleet Hf].
  unfold create_email_content. rewrite Hf.
  cbn [py_items py_get_default]. run_monad.
  destruct recs as [|d rest].
  - cbn [truthy]. eexists. split; [reflexivity|].
    intros H. exfalso. apply H. reflexivity.
  - cbn [truthy py_iter]. run_monad.
    rewrite (dest_loop_renderable py_repr (d :: rest) Hrecs). cbn [app].
    fold shown. fold lines. rewrite Hn.
    eexists. split; [reflexivity|].
    intros Hpos.
    assert (Hne : lines <> []).
    { intros Hnil. apply Hpos. rewrite <- Hn, Hnil. reflexivity. }
    pose proof (page_shows py_repr today data name
                  (if truthy (dict_get_default data "logo_url" (VStr ""))
                   then "<img src=" ++ dq
                        ++ py_str py_repr (dict_get_default data "logo_url" (VStr ""))
                        ++ dq ++ " style=" ++ dq
                        ++ "max-height:80px; max-width:200px;" ++ dq ++ ">"
                   else "")
                  (if String.concat "<br>" (fleet_lines py_repr fleet) =? ""
                   then "No detailed fleet data"
                   else String.concat "<br>" (fleet_lines py_repr fleet))
                  (dict_get_default fleet "total" (VStr "N/A"))
                  lines Hne) as Hshows.
    cbv zeta in Hshows. rewrite Hn in Hshows. exact Hshows.
Qed.

Lemma create_email_content_shows_all_witness :
  let lines := map (entry (fun _ => EmptyString)) (filter has_code sample_records) in
  fleet_ok sample_airline = true /\
  forallb renderable sample_records = true /\
  List.length (firstn 4 lines) = 4 /\
  List.length (skipn 4 lines) = 3 /\
  exists html,
    create_email_content (fun _ => EmptyString) "January 01, 2025"
      (VDict sample_airline) (VList sample_records)
    = Ok (html, VStr "Test Air", 7) /\
    occurs (two_columns
              ("LHR – CITY, GB<br>LGW – CITY, GB<br>MAN – CITY, GB<br>EDI – CITY, GB")
              ("GLA – CITY, GB<br>BHX – CITY, GB<br>NCL – CITY, GB")) html /\
    occurs "Showing all 7 airports served by Test Air." html.
Proof.
  intros lines.
  assert (Hfleet : fleet_ok sample_airline = true) by reflexivity.
  assert (Hrecs : forallb renderable sample_records = true) by reflexivity.
  split; [exact Hfleet|]. split; [exact Hrecs|].
  destruct (create_email_content_shows_all (fun _ => EmptyString)
              "January 01, 2025" sample_airline sample_records Hfleet Hrecs)
    as (_ & _ & _ & H1 & H2 & _ & _ & html & Hrun & Hshows).
  split; [exact H1|]. split; [exact H2|].
  exists html. split; [exact Hrun|].
  apply Hshows. discriminate.
Defined.

(** The claim as written fails on a record whose address is null: the
    record has its identifier, and the call raises instead of printing
    the placeholder. *)
Lemma create_email_content_null_address :
  create_email_content (fun _ => EmptyString) "January 01, 2025"
    (VDict sample_airline)
    (VList [VDict [("iataCode", VStr "JFK"); ("name", VStr "NEW YORK");
                   ("address", VNone)]])
  = Raise (AttributeError "'NoneType' object has no attribute 'get'").
Proof. reflexivity. Qed.

(* ===================================================================== *)
(** ** Properties of the catalog fetcher                               *)
(* ===================================================================== *)

Lemma fetch_state_eta (st : fetch_state) :
  fetch_state_of (all_airlines st, seen_iata st) (stdout st) = st.
Proof. destruct st; reflexivity. Qed.

(** The inner loop leaves the state that [absorb] computes from the
    usable prefix of the page, and prints nothing. *)
Lemma collect_absorbs (items : list value) :
  forall p out, exists r,
    collect items (fetch_state_of p out)
    = (r, fetch_state_of (absorb (usable items) p) out).
Proof.
  induction items as [|a rest IH]; intros p out.
  - exists (Ok tt). reflexivity.
  - unfold collect in *. cbn [for_each usable]. run_monad.
    destruct a as [| | | | |d]; try (eexists; reflexivity).
    unfold py_get, lift. cbn [py_get_default item_ok].
    unfold is_new.
    destruct (truthy (dict_get_default d "iata" VNone)) eqn:Ht; cbn [negb orb].
    + unfold get_state, lift, set_contains. run_monad.
      destruct (hashable (dict_get_default d "iata" VNone)) eqn:Hh.
      * cbn [fetch_state_of seen_iata snd absorb fold_left]. unfold keep at 2.
        cbn [identifier snd fst]. rewrite Ht. cbn [andb].
        destruct (set_mem (snd p) (dict_get_default d "iata" VNone)) eqn:Hm;
          cbn [negb].
        -- apply IH.
        -- unfold remember, get_state, lift, modify, set_add. run_monad.
           cbn [seen_iata fetch_state_of snd]. rewrite Hh, Hm.
           cbn [all_airlines stdout fst].
           apply (IH ((fst p ++ [VDict d])%list,
                      (snd p ++ [dict_get_default d "iata" VNone])%list) out).
      * eexists. reflexivity.
    + cbn [absorb fold_left]. unfold keep at 2. cbn [identifier]. rewrite Ht.
      cbn [andb]. apply IH.
Qed.

Lemma fetch_all_airlines_shape (requests_get : string -> string -> response)
    (api_key : string) :
  fetch_all_airlines requests_get api_key
  = fetch_with (print "[FETCH] Starting full airline fetch (A-Z)...")
      (fun letter found unique =>
         "[FETCH] Letter " ++ letter ++ ": found " ++ str_of_nat found
         ++ " airlines, total unique: " ++ str_of_nat unique)
      (fun letter e =>
         "[FETCH] Warning: failed to fetch for letter " ++ letter ++ ": "
         ++ exn_str e)
      (fun unique =>
         "[FETCH] Completed. Total unique airlines with IATA codes: "
         ++ str_of_nat unique)
      requests_get api_key.
Proof. reflexivity. Qed.

Lemma fetch_all_airlines_shadowed_shape
    (requests_get : string -> string -> response) (api_key : string) :
  fetch_all_airlines_shadowed requests_get api_key
  = fetch_with (ret tt)
      (fun letter found unique =>
         "[MAIN] Letter " ++ letter ++ ": found " ++ str_of_nat found
         ++ " airlines, " ++ str_of_nat unique ++ " unique so far")
      (fun letter e =>
         "[MAIN] Warning: failed to fetch for letter " ++ letter ++ ": "
         ++ exn_str e)
      (fun unique =>
         "[MAIN] Total unique airlines with IATA codes: " ++ str_of_nat unique)
      requests_get api_key.
Proof. reflexivity. Qed.

Lemma print_appends (line : string) (p : list value * pyset) (out : list string) :
  print line (fetch_state_of p out) = (Ok tt, fetch_state_of p (out ++ [line])%list).
Proof. reflexivity. Qed.

Lemma py_len_of_iterable (body : value) (items : list value) :
  py_iter body = Ok items -> exists n, py_len body = Ok n.
Proof.
  destruct body; simpl; intros H; try discriminate; eexists; reflexivity.
Qed.

(** A turn of the outer loop never raises: it absorbs what the query
    hands over and prints one line. *)
Lemma letter_step_absorbs (say_found : string -> nat -> nat -> string)
    (say_failed : string -> exn -> string) (requests_get : string -> response)
    (letter : string) (p : list value * pyset) (out : list string) :
  exists line,
    letter_step say_found say_failed requests_get letter (fetch_state_of p out)
    = (Ok tt, fetch_state_of (absorb (page_items (requests_get letter)) p)
                (out ++ [line])%list).
Proof.
  unfold letter_step, try_except, query, page_items. run_monad.
  destruct (requests_get letter) as [e|body].
  - unfold lift. rewrite print_appends. eexists. reflexivity.
  - unfold lift at 1. cbn iota beta.
    destruct (py_iter body) as [items|e] eqn:Hiter.
    + destruct (collect_absorbs items p out) as [r Hr]. rewrite Hr.
      destruct r as [[]|e].
      * destruct (py_len_of_iterable body items Hiter) as [n Hn].
        unfold lift, get_state. rewrite Hn. cbn iota beta.
        rewrite print_appends. eexists. reflexivity.
      * rewrite print_appends. eexists. reflexivity.
    + rewrite print_appends. eexists. reflexivity.
Qed.

Lemma absorb_app (xs ys : list value) (p : list value * pyset) :
  absorb (xs ++ ys) p = absorb ys (absorb xs p).
Proof. unfold absorb. apply fold_left_app. Qed.

Lemma loop_absorbs (body : string -> M fetch_state unit)
    (pages : string -> list value) :
  (forall letter p out, exists line,
      body letter (fetch_state_of p out)
      = (Ok tt, fetch_state_of (absorb (pages letter) p) (out ++ [line])%list)) ->
  forall ls p out, exists lines,
    for_each ls body (fetch_state_of p out)
    = (Ok tt, fetch_state_of (absorb (flat_map pages ls) p) (out ++ lines)%list).
Proof.
  intros Hbody ls. induction ls as [|letter rest IH]; intros p out.
  - exists []. cbn. rewrite app_nil_r. reflexivity.
  - cbn [for_each flat_map]. run_monad.
    destruct (Hbody letter p out) as [line Hline]. rewrite Hline.
    destruct (IH (absorb (pages letter) p) (out ++ [line])%list) as [lines Hrest].
    rewrite Hrest, absorb_app, <- app_assoc.
    eexists. reflexivity.
Qed.

Lemma fetch_with_catalog (intro : M fetch_state unit)
    (say_found : string -> nat -> nat -> string)
    (say_failed : string -> exn -> string) (say_total : nat -> string)
    (requests_get : string -> string -> response) (api_key : string) :
  (exists lines, intro fetch_init = (Ok tt, fetch_state_of ([], []) lines)) ->
  fst (fetch_with intro say_found say_failed say_total requests_get api_key)
  = Ok (catalog_of (consumed requests_get api_key)).
Proof.
  intros [lines0 Hintro].
  unfold fetch_with. run_monad. rewrite Hintro.
  destruct (loop_absorbs
              (letter_step say_found say_failed (requests_get api_key))
              (fun letter => page_items (requests_get api_key letter))
              (letter_step_absorbs say_found say_failed (requests_get api_key))
              letters ([], []) lines0) as [lines Hloop].
  rewrite Hloop. unfold get_state. rewrite print_appends. reflexivity.
Qed.

Lemma fetch_all_airlines_catalog (requests_get : string -> string -> response)
    (api_key : string) :
  fst (fetch_all_airlines requests_get api_key)
  = Ok (catalog_of (consumed requests_get api_key)).
Proof.
  rewrite fetch_all_airlines_shape. apply fetch_with_catalog.
  eexists. reflexivity.
Qed.

Lemma fetch_all_airlines_shadowed_catalog
    (requests_get : string -> string -> response) (api_key : string) :
  fst (fetch_all_airlines_shadowed requests_get api_key)
  = Ok (catalog_of (consumed requests_get api_key)).
Proof.
  rewrite fetch_all_airlines_shadowed_shape. apply fetch_with_catalog.
  eexists. reflexivity.
Qed.

(** C10. The two definitions of [fetch_all_airlines] return the same list
    for every API key and every behaviour of the 26 queries (they differ
    in the lines they print). *)
Theorem fetch_all_airlines_definitions_agree
    (requests_get : string -> string -> response) (api_key : string) :
  fst (fetch_all_airlines_shadowed requests_get api_key)
  = fst (fetch_all_airlines requests_get api_key).
Proof.
  rewrite fetch_all_airlines_shadowed_catalog, fetch_all_airlines_catalog.
  reflexivity.
Qed.

Lemma py_eqb_truthy (a b : value) :
  py_eqb a b = true -> truthy a = truthy b.
Proof.
  destruct a as [|x|x|x|x|x], b as [|y|y|y|y|y]; simpl; intros H;
    try discriminate; try reflexivity.
  - apply eqb_prop in H. subst. reflexivity.
  - apply Z.eqb_eq in H. subst. destruct x; reflexivity.
  - apply Z.eqb_eq in H. subst. destruct y; reflexivity.
  - apply Z.eqb_eq in H. subst. reflexivity.
  - apply String.eqb_eq in H. subst. reflexivity.
Qed.

Lemma seen_matches_truthy (seen : pyset) (earlier : list value) (iata : value) :
  seen_matches seen earlier -> truthy iata = true ->
  set_mem seen iata = existsb (fun b => py_eqb iata (identifier b)) earlier.
Proof.
  intros Hseen Ht. rewrite (Hseen iata). clear Hseen.
  induction earlier as [|b rest IH]; simpl; [reflexivity|].
  rewrite IH. f_equal.
  destruct (py_eqb iata (identifier b)) eqn:Heq.
  - rewrite <- (py_eqb_truthy _ _ Heq), Ht. reflexivity.
  - apply andb_false_r.
Qed.

Lemma seen_matches_keep (p : list value * pyset) (earlier : list value)
    (a : value) :
  seen_matches (snd p) earlier ->
  seen_matches (snd (keep p a)) (earlier ++ [a]).
Proof.
  intros Hseen v. rewrite existsb_app. cbn [existsb]. rewrite orb_false_r.
  unfold keep.
  destruct (truthy (identifier a)) eqn:Ht; cbn [andb].
  - destruct (set_mem (snd p) (identifier a)) eqn:Hm; cbn [negb snd].
    + rewrite <- (Hseen v).
      destruct (py_eqb v (identifier a)) eqn:Heq.
      * rewrite (set_mem_eqb (snd p) v (identifier a) Heq Hm). reflexivity.
      * rewrite orb_false_r. reflexivity.
    + rewrite set_mem_app, (Hseen v). simpl. rewrite orb_false_r. reflexivity.
  - rewrite orb_false_r. apply Hseen.
Qed.

(** The loop computes the first occurrences. *)
Lemma absorb_first_occurrences (items : list value) :
  forall earlier p,
    seen_matches (snd p) earlier ->
    fst (absorb items p) = (fst p ++ first_occurrences items earlier)%list.
Proof.
  induction items as [|a rest IH]; intros earlier p Hseen.
  - simpl. rewrite app_nil_r. reflexivity.
  - cbn [absorb fold_left first_occurrences]. fold (absorb rest (keep p a)).
    rewrite (IH (earlier ++ [a])%list (keep p a) (seen_matches_keep p earlier a Hseen)).
    unfold keep.
    destruct (truthy (identifier a)) eqn:Ht; cbn [andb]; [|reflexivity].
    rewrite <- (seen_matches_truthy (snd p) earlier (identifier a) Hseen Ht).
    destruct (set_mem (snd p) (identifier a)); cbn [negb fst]; [reflexivity|].
    rewrite <- app_assoc. reflexivity.
Qed.

Lemma catalog_of_first_occurrences (items : list value) :
  catalog_of items = first_occurrences items [].
Proof.
  unfold catalog_of.
  rewrite (absorb_first_occurrences items [] ([], [])); [reflexivity|].
  intros v. reflexivity.
Qed.

Lemma first_occurrences_in (items : list value) :
  forall earlier a, In a (first_occurrences items earlier) ->
    In a items /\ truthy (identifier a) = true /\
    (forall b, In b earlier -> py_eqb (identifier a) (identifier b) = false).
Proof.
  induction items as [|c rest IH]; intros earlier a Hin; [destruct Hin|].
  cbn [first_occurrences] in Hin.
  assert (Hrest : In a (first_occurrences rest (earlier ++ [c])%list) ->
                  In a (c :: rest) /\ truthy (identifier a) = true /\
                  (forall b, In b earlier ->
                             py_eqb (identifier a) (identifier b) = false)).
  { intros H. destruct (IH _ a H) as [H1 [H2 H3]].
    split; [right; exact H1|]. split; [exact H2|].
    intros b Hb. apply H3. apply in_or_app. left. exact Hb. }
  destruct (truthy (identifier c)) eqn:Ht; cbn [andb] in Hin; [|auto].
  destruct (existsb (fun b => py_eqb (identifier c) (identifier b)) earlier)
    eqn:Hex; cbn [negb] in Hin; [auto|].
  destruct Hin as [<-|Hin]; [|auto].
  split; [left; reflexivity|]. split; [exact Ht|].
  intros b Hb.
  destruct (py_eqb (identifier c) (identifier b)) eqn:Heq; [|reflexivity].
  assert (existsb (fun b => py_eqb (identifier c) (identifier b)) earlier = true)
    as Hcontra by (apply existsb_exists; exists b; auto).
  congruence.
Qed.

Lemma first_occurrences_distinct (items : list value) :
  forall earlier, distinct_ids (first_occurrences items earlier).
Proof.
  induction items as [|c rest IH]; intros earlier; [exact I|].
  cbn [first_occurrences].
  destruct (truthy (identifier c)
            && negb (existsb (fun b => py_eqb (identifier c) (identifier b))
                             earlier)); [|apply IH].
  split; [|apply IH].
  intros b Hb.
  destruct (first_occurrences_in rest _ b Hb) as [_ [_ Hfresh]].
  rewrite py_eqb_sym. apply Hfresh. apply in_or_app. right. left. reflexivity.
Qed.

Lemma usable_ok (items : list value) : forallb item_ok (usable items) = true.
Proof.
  induction items as [|a rest IH]; simpl; [reflexivity|].
  destruct (item_ok a) eqn:Ha; simpl; [rewrite Ha, IH|]; reflexivity.
Qed.

Lemma page_items_ok (r : response) : forallb item_ok (page_items r) = true.
Proof.
  destruct r as [e|body]; simpl; [reflexivity|].
  destruct (py_iter body); [apply usable_ok | reflexivity].
Qed.

Lemma consumed_ok (requests_get : string -> string -> response)
    (api_key : string) :
  forallb item_ok (consumed requests_get api_key) = true.
Proof.
  unfold consumed. induction letters as [|letter rest IH]; simpl; [reflexivity|].
  rewrite forallb_app, page_items_ok, IH. reflexivity.
Qed.

Lemma item_with_identifier (a : value) :
  item_ok a = true -> truthy (identifier a) = true -> catalog_item a = true.
Proof.
  destruct a as [| | | | |d]; simpl; try discriminate.
  intros Hok Ht. rewrite Ht in Hok. exact Hok.
Qed.

Lemma consumed_ext (rg rg' : string -> string -> response) (api_key : string) :
  (forall letter, page_items (rg' api_key letter) = page_items (rg api_key letter)) ->
  consumed rg' api_key = consumed rg api_key.
Proof.
  intros H. unfold consumed.
  induction letters as [|letter rest IH]; simpl; [reflexivity|].
  rewrite H, IH. reflexivity.
Qed.

Lemma consumed_all_failed (rg : string -> string -> response) (api_key : string) :
  (forall letter, In letter letters -> exists e, rg api_key letter = QueryFails e) ->
  consumed rg api_key = [].
Proof.
  unfold consumed. induction letters as [|letter rest IH]; intros H;
    simpl; [reflexivity|].
  destruct (H letter (or_introl eq_refl)) as [e He]. rewrite He. simpl.
  apply IH. intros l Hl. apply H. right. exact Hl.
Qed.

Lemma consumed_answering_empty (rg : string -> string -> response)
    (api_key letter : string) (e : exn) :
  rg api_key letter = QueryFails e ->
  consumed (answering rg letter (QueryJson (VList []))) api_key
  = consumed rg api_key.
Proof.
  intros Hfail. apply consumed_ext. intros l. unfold answering.
  destruct (l =? letter) eqn:Hl; [|reflexivity].
  apply String.eqb_eq in Hl. subst. rewrite Hfail. reflexivity.
Qed.

(** C7. [fetch_all_airlines] always returns a list, never an error.  The
    list holds, in the order in which the A-Z queries delivered them, the
    first occurrence of every identifier: no two of its items carry the
    same identifier, and every item has one.  A query that fails counts
    as an empty page, the other letters are still read; and if every
    query fails the list is empty. *)
Theorem fetch_all_airlines_deduplicates
    (requests_get : string -> string -> response) (api_key : string) :
  exists catalog : list value,
    fst (fetch_all_airlines requests_get api_key) = Ok catalog /\
    catalog = first_occurrences (consumed requests_get api_key) [] /\
    distinct_ids catalog /\
    (forall a, In a catalog ->
       In a (consumed requests_get api_key) /\
       catalog_item a = true /\ truthy (identifier a) = true) /\
    (forall letter e, requests_get api_key letter = QueryFails e ->
       fst (fetch_all_airlines
              (answering requests_get letter (QueryJson (VList []))) api_key)
       = Ok catalog) /\
    ((forall letter, In letter letters ->
        exists e, requests_get api_key letter = QueryFails e) ->
     catalog = []).
Proof.
  exists (first_occurrences (consumed requests_get api_key) []).
  split.
  { rewrite fetch_all_airlines_catalog, catalog_of_first_occurrences.
    reflexivity. }
  split; [reflexivity|].
  split; [apply first_occurrences_distinct|].
  split.
  { intros a Ha.
    destruct (first_occurrences_in _ _ a Ha) as [Hin [Ht _]].
    split; [exact Hin|]. split; [|exact Ht].
    apply item_with_identifier; [|exact Ht].
    pose proof (consumed_ok requests_get api_key) as Hok.
    rewrite forallb_forall in Hok. apply Hok. exact Hin. }
  split.
  { intros letter e Hfail.
    rewrite fetch_all_airlines_catalog, catalog_of_first_occurrences.
    rewrite (consumed_answering_empty requests_get api_key letter e Hfail).
    reflexivity. }
  intros Hall. rewrite (consumed_all_failed requests_get api_key Hall).
  reflexivity.
Qed.

(** Two pages that both list "AA": one entry for it in the result. *)
Example fetch_two_pages_with_AA :
  let air (code : string) := VDict [("iata", VStr code)] in
  let requests_get (api_key letter : string) :=
    if letter =? "A" then QueryJson (VList [air "AA"; air "AB"])
    else if letter =? "B" then QueryJson (VList [air "AA"; VDict []; air "BB"])
    else QueryFails (OtherError "503 Server Error") in
  fst (fetch_all_airlines requests_get "key")
  = Ok [air "AA"; air "AB"; air "BB"].
Proof. vm_compute. reflexivity. Qed.

(** What the two definitions print is not the same. *)
Example fetch_all_airlines_definitions_print :
  let requests_get (api_key letter : string) := QueryJson (VList []) in
  In "[FETCH] Letter A: found 0 airlines, total unique: 0"
     (snd (fetch_all_airlines requests_get "key")) /\
  In "[MAIN] Letter A: found 0 airlines, 0 unique so far"
     (snd (fetch_all_airlines_shadowed requests_get "key")).
Proof. vm_compute. split; [right; left | left]; reflexivity. Qed.

(* ===================================================================== *)
(** ** Properties of the orchestrator                                  *)
(* ===================================================================== *)

Lemma send_email_bcc_frame (e : env) (html subject sender password : string)
    (recipients : list string) (w : world) :
  exists sent reqs,
    send_email_bcc e html subject sender password recipients w
    = (Ok sent, with_trace w (Call_send_email_bcc recipients
                              :: reqs ++ [Return_send_email_bcc sent])%list) /\
    forallb delivery_request reqs = true.
Proof.
  destruct recipients as [|r rs].
  - rewrite send_email_bcc_empty. exists false, []. split; reflexivity.
  - rewrite (send_email_bcc_post e html subject sender password (r :: rs) w)
      by discriminate.
    exists (delivered (mailgun_api e
              (mailgun_request e html subject sender password (r :: rs)))),
           [MailgunRequest
              (mailgun_request e html subject sender password (r :: rs))].
    split; reflexivity.
Qed.

Lemma add_sent_airline_frame (now_iso : string) (order : list nat)
    (iata_code airline_name : value) (w : world) :
  exists updated file',
    add_sent_airline now_iso order iata_code airline_name w
    = (Ok updated,
       {| sent_file := file'; writable := writable w;
          trace := (trace w ++ [Call_add_sent_airline iata_code airline_name;
                                Return_add_sent_airline updated])%list |}).
Proof.
  destruct (commit_cases iata_code w) as [[Hh Hw]|[Hfail|[Hh Hw]]].
  - destruct (hashable_set_add (stored_set (sent_file w)) iata_code Hh)
      as [s' Hadd].
    rewrite (add_sent_airline_writes now_iso order iata_code airline_name w s'
               Hadd Hw).
    rewrite Hw. do 2 eexists. reflexivity.
  - rewrite (add_sent_airline_fails now_iso order iata_code airline_name w Hfail).
    do 2 eexists. reflexivity.
  - rewrite (add_sent_airline_breaks now_iso order iata_code airline_name w Hh Hw).
    rewrite Hw. do 2 eexists. reflexivity.
Qed.

Lemma main_shape (py_repr : value -> string) (e : env) (file : file_state)
    (can_write : storage) :
  run_shape file can_write (run_main py_repr e file can_write).
Proof.
  unfold run_main, main.
  destruct (load_config (environ e)) as [cfg|];
    [|apply Stops_before_delivery; [reflexivity | discriminate]].
  run_monad. rewrite get_sent_airlines_reads. cbn [sent_file].
  rewrite fetch_all_airlines_catalog. unfold lift at 1.
  destruct (catalog_of (consumed (catalog_api e) (NINJAS_API_KEY cfg)))
    as [|c cs]; [apply Stops_before_delivery; [reflexivity | discriminate]|].
  unfold lift at 1.
  destruct (select (random_draw e) (c :: cs) (stored_set file))
    as [[airline|]|ex];
    try (apply Stops_before_delivery; [reflexivity | discriminate]).
  unfold lift at 1.
  destruct (py_get airline "iata") as [iata|ex];
    [|apply Stops_before_delivery; [reflexivity | discriminate]].
  unfold lift at 1.
  destruct (py_get_default airline "name" (VStr "Unknown")) as [name0|ex];
    [|apply Stops_before_delivery; [reflexivity | discriminate]].
  match goal with
  | |- context [get_destinations ?a ?i ?w] =>
      destruct (get_destinations_frame a i w) as [r [evs [Hget Hevs]]];
      rewrite Hget
  end.
  unfold with_trace. cbn [sent_file writable trace app].
  destruct r as [destinations|ex];
    [|apply Stops_before_delivery; [exact Hevs | discriminate]].
  unfold lift at 1.
  destruct (create_email_content py_repr (today e) airline destinations)
    as [[[html name] shown]|ex];
    [|apply Stops_before_delivery; [exact Hevs | discriminate]].
  match goal with
  | |- context [send_email_bcc ?e ?h ?s ?a ?p ?rc ?w] =>
      destruct (send_email_bcc_frame e h s a p rc w)
        as [sent [reqs [Hsend Hreqs]]];
      rewrite Hsend
  end.
  unfold with_trace. cbn [sent_file writable trace].
  destruct sent; cbn [negb].
  - match goal with
    | |- context [add_sent_airline ?n ?o ?i ?a ?w] =>
        destruct (add_sent_airline_frame n o i a w)
          as [updated [file' Hadd]];
        rewrite Hadd
    end.
    cbn [sent_file writable trace] in *.
    rewrite <- app_assoc. cbn [app]. rewrite <- app_assoc. cbn [app].
    destruct updated;
      apply Delivery_then_commit; auto.
  - cbn [ret M_monad]. apply Delivery_fails; assumption.
Qed.

Lemma enrichment_only (evs : list event) (ev : event) :
  forallb enrichment_event evs = true -> In ev evs ->
  enrichment_event ev = true.
Proof. intros H Hin. rewrite forallb_forall in H. apply H. exact Hin. Qed.

Lemma requests_only (reqs : list event) (ev : event) :
  forallb delivery_request reqs = true -> In ev reqs ->
  delivery_request ev = true.
Proof. intros H Hin. rewrite forallb_forall in H. apply H. exact Hin. Qed.

(** Where in a trace of one of the three shapes an event can sit. *)
Ltac locate_event :=
  repeat match goal with
         | H : In _ (_ ++ _)%list |- _ => apply in_app_or in H; destruct H as [H|H]
         | H : In _ (_ :: _) |- _ => destruct H as [H|H]
         | H : In _ [] |- _ => destruct H
         | H : In ?ev ?evs, Hevs : forallb enrichment_event ?evs = true |- _ =>
             exfalso; pose proof (enrichment_only evs ev Hevs H) as Hkind;
             simpl in Hkind; discriminate Hkind
         | H : In ?ev ?reqs, Hreqs : forallb delivery_request ?reqs = true |- _ =>
             exfalso; pose proof (requests_only reqs ev Hreqs H) as Hkind;
             simpl in Hkind; discriminate Hkind
         | H : _ = _ :> event |- _ => try discriminate H; inversion H; clear H; subst
         end.

(** C2. In every run of [main], [add_sent_airline] is called if and only
    if [send_email_bcc] was called and returned true.  When the delivery
    returns false, [main] returns 1 and the ledger file is as it was; when
    the delivery returns true, [main] returns 0 whatever the commit
    returns, so also when the commit returns false. *)
Theorem commit_iff_delivery_succeeded (py_repr : value -> string) (e : env)
    (file : file_state) (can_write : storage) :
  let r := fst (run_main py_repr e file can_write) in
  let w := snd (run_main py_repr e file can_write) in
  ((exists iata name, In (Call_add_sent_airline iata name) (trace w)) <->
   In (Return_send_email_bcc true) (trace w)) /\
  (forall sent, In (Return_send_email_bcc sent) (trace w) ->
     exists recipients, In (Call_send_email_bcc recipients) (trace w)) /\
  (In (Return_send_email_bcc false) (trace w) ->
     r = Ok 1%Z /\ sent_file w = file) /\
  (forall updated,
     In (Return_send_email_bcc true) (trace w) ->
     In (Return_add_sent_airline updated) (trace w) ->
     r = Ok 0%Z).
Proof.
  intros r w. subst r w.
  pose proof (main_shape py_repr e file can_write) as Hshape.
  destruct (run_main py_repr e file can_write) as [r w].
  cbn [fst snd].
  inversion Hshape as [r' evs Hevs Hr | evs reqs rc Hevs Hreqs
                      | evs reqs rc iata name updated file' Hevs Hreqs];
    subst; cbn [trace sent_file].
  - split; [split|split; [|split]].
    + intros [i [n Hin]]. locate_event.
    + intros Hin. locate_event.
    + intros sent Hin. locate_event.
    + intros Hin. locate_event.
    + intros updated Hin. locate_event.
  - split; [split|split; [|split]].
    + intros [i [n Hin]]. locate_event.
    + intros Hin. locate_event.
    + intros sent _. exists rc. apply in_or_app. right. left. reflexivity.
    + intros _. split; reflexivity.
    + intros updated Hin. locate_event.
  - split; [split|split; [|split]].
    + intros _. apply in_or_app. right. right. apply in_or_app. right.
      left. reflexivity.
    + intros _. exists iata, name. apply in_or_app. right. right.
      apply in_or_app. right. right. left. reflexivity.
    + intros sent _. exists rc. apply in_or_app. right. left. reflexivity.
    + intros Hin. locate_event.
    + intros updated' _ _. reflexivity.
Qed.

Lemma catalog_items_ok (rg : string -> string -> response) (api_key : string) :
  forallb catalog_item (catalog_of (consumed rg api_key)) = true.
Proof.
  rewrite catalog_of_first_occurrences. apply forallb_forall. intros a Ha.
  destruct (first_occurrences_in _ _ a Ha) as [Hin [Ht _]].
  apply item_with_identifier; [|exact Ht].
  pose proof (consumed_ok rg api_key) as Hok.
  rewrite forallb_forall in Hok. apply Hok. exact Hin.
Qed.

Lemma filter_none {A : Type} (f : A -> bool) (l : list A) :
  (forall a, In a l -> f a = false) -> filter f l = [].
Proof.
  induction l as [|a rest IH]; intros H; simpl; [reflexivity|].
  rewrite (H a (or_introl eq_refl)). apply IH. intros b Hb. apply H.
  right. exact Hb.
Qed.

(** C6. If every item of the fetched catalog has its identifier in the
    ledger, [main] returns 1 and the run leaves no trace: neither
    [get_destinations] nor [send_email_bcc] is called, no request goes to
    the enrichment or the delivery service, and the ledger file is
    untouched. *)
Theorem nothing_unsent_exits_early (py_repr : value -> string) (e : env)
    (file : file_state) (can_write : storage) (cfg : config)
    (catalog : list value) (sent : pyset) :
  let w0 := {| sent_file := file; writable := can_write; trace := [] |} in
  load_config (environ e) = Some cfg ->
  fst (fetch_all_airlines (catalog_api e) (NINJAS_API_KEY cfg)) = Ok catalog ->
  fst (get_sent_airlines w0) = Ok sent ->
  (forall a, In a catalog -> set_mem sent (identifier a) = true) ->
  run_main py_repr e file can_write = (Ok 1%Z, w0).
Proof.
  intros w0 Hcfg Hfetch Hsent Hall. subst w0.
  rewrite get_sent_airlines_reads in Hsent. cbn [fst sent_file] in Hsent.
  inversion Hsent; subst sent; clear Hsent.
  unfold run_main, main. rewrite Hcfg. run_monad.
  rewrite get_sent_airlines_reads. cbn [sent_file].
  rewrite Hfetch. unfold lift at 1.
  rewrite fetch_all_airlines_catalog in Hfetch. inversion Hfetch; subst catalog.
  destruct (catalog_of (consumed (catalog_api e) (NINJAS_API_KEY cfg)))
    as [|c cs] eqn:Hcat; [reflexivity|].
  unfold lift at 1. unfold select.
  rewrite available_filter
    by (rewrite <- Hcat; apply catalog_items_ok).
  rewrite filter_none; [reflexivity|].
  intros a Ha. rewrite (Hall a Ha). reflexivity.
Qed.

Lemma nothing_unsent_exits_early_witness :
  let e := sample_env 200 in
  let file := ledger_file ["BB"; "AA"] in
  let w0 := {| sent_file := file; writable := Accepts; trace := [] |} in
  let catalog := [VDict [("iata", VStr "AA"); ("name", VStr "Air A")];
                  VDict [("iata", VStr "BB"); ("name", VStr "Air B")]] in
  let sent := [VStr "BB"; VStr "AA"] in
  load_config (environ e) = Some sample_config /\
  fst (fetch_all_airlines (catalog_api e) (NINJAS_API_KEY sample_config))
  = Ok catalog /\
  fst (get_sent_airlines w0) = Ok sent /\
  (forall a, In a catalog -> set_mem sent (identifier a) = true) /\
  run_main (fun _ => EmptyString) e file Accepts = (Ok 1%Z, w0).
Proof.
  intros e file w0 catalog sent.
  assert (Hcfg : load_config (environ e) = Some sample_config)
    by (vm_compute; reflexivity).
  assert (Hfetch : fst (fetch_all_airlines (catalog_api e)
                          (NINJAS_API_KEY sample_config)) = Ok catalog)
    by (vm_compute; reflexivity).
  assert (Hsent : fst (get_sent_airlines w0) = Ok sent)
    by (vm_compute; reflexivity).
  assert (Hall : forall a, In a catalog -> set_mem sent (identifier a) = true).
  { intros a [<-|[<-|[]]]; reflexivity. }
  split; [exact Hcfg|]. split; [exact Hfetch|]. split; [exact Hsent|].
  split; [exact Hall|].
  exact (nothing_unsent_exits_early (fun _ => EmptyString) e file Accepts
           sample_config catalog sent Hcfg Hfetch Hsent Hall).
Defined.

(** The end-to-end scenario: with "AA" in the ledger the run selects
    "BB", delivers, returns 0, and the ledger then loads as the set of
    "AA" and "BB". *)
Example end_to_end_scenario :
  let run := run_main (fun _ => EmptyString) (sample_env 200)
                      (ledger_file ["AA"]) Accepts in
  fst run = Ok 0%Z /\
  (exists after, fst (get_sent_airlines (snd run)) = Ok after /\
                 set_mem after (VStr "AA") = true /\
                 set_mem after (VStr "BB") = true /\
                 List.length after = 2) /\
  In (Call_get_destinations (VStr "BB")) (trace (snd run)).
Proof.
  split; [reflexivity|]. split; [|left; reflexivity].
  eexists. split; [vm_compute; reflexivity|]. repeat split; reflexivity.
Qed.

(** The delivery service answers 500: the run returns 1 and the ledger
    file is as it was. *)
Example delivery_failure_scenario :
  let run := run_main (fun _ => EmptyString) (sample_env 500)
                      (ledger_file ["AA"]) Accepts in
  fst run = Ok 1%Z /\ sent_file (snd run) = ledger_file ["AA"].
Proof. vm_compute. split; reflexivity. Qed.

(** Delivery succeeds on storage that refuses to open the file for
    writing: the commit returns false, the run still returns 0, and the
    ledger file is as it was. *)
Example commit_failure_scenario :
  let run := run_main (fun _ => EmptyString) (sample_env 200)
                      (ledger_file ["AA"]) Refuses in
  fst run = Ok 0%Z /\
  In (Return_add_sent_airline false) (trace (snd run)) /\
  sent_file (snd run) = ledger_file ["AA"].
Proof.
  vm_compute. split; [reflexivity|]. split; [|reflexivity].
  do 6 right. left. reflexivity.
Qed.

(** Delivery succeeds and the write fails after the file was opened: the
    commit returns false, the run still returns 0, and the ledger, which
    held "AA", is left cut short and loads as the empty set. *)
Example commit_cut_short_scenario :
  let run := run_main (fun _ => EmptyString) (sample_env 200)
                      (ledger_file ["AA"]) Breaks in
  fst run = Ok 0%Z /\
  In (Return_add_sent_airline false) (trace (snd run)) /\
  sent_file (snd run) = cut_short /\
  fst (get_sent_airlines (snd run)) = Ok [].
Proof.
  vm_compute. split; [reflexivity|]. split; [|split; reflexivity].
  do 6 right. left. reflexivity.
Qed.

(** A catalog item whose identifier is the number 12 takes [main] to
    that call: the exception leaves [main] and the process ends with
    status 1. *)
Example numeric_identifier_scenario :
  let e := {| environ := environ (sample_env 200);
              catalog_api := fun _ letter =>
                if letter =? "A"
                then QueryJson (VList [VDict [("iata", VInt 12);
                                              ("name", VStr "Air N")]])
                else QueryJson (VList []);
              amadeus_api := amadeus_api (sample_env 200);
              mailgun_api := mailgun_api (sample_env 200);
              random_draw := 0;
              today := "January 01, 2025";
              now_iso := "2025-01-01T08:00:00";
              hash_order := [] |} in
  run_main (fun _ => EmptyString) e NoFile Accepts
  = (Raise (TypeError "object of type 'int' has no len()"),
     {| sent_file := NoFile; writable := Accepts;
        trace := [Call_get_destinations (VInt 12)] |}) /\
  exit_status (fun _ => EmptyString) e NoFile Accepts = 1%Z.
Proof. vm_compute. split; reflexivity. Qed.

(* ===================================================================== *)
(** ** Further properties: configuration                                   *)
(* ===================================================================== *)

Lemma filter_nil_iff {A : Type} (f : A -> bool) (l : list A) :
  filter f l = [] <-> (forall a, In a l -> f a = false).
Proof.
  split; [|apply filter_none].
  induction l as [|a rest IH]; simpl; intros H b Hb; [destruct Hb|].
  destruct (f a) eqn:Hfa; [discriminate|].
  destruct Hb as [<-|Hb]; [exact Hfa | apply IH; assumption].
Qed.

(** X1. [load_config] gives up ([None]) exactly when one of the five
    required variables is unset or set to the empty string; the recipient
    list plays no part in it. *)
Theorem load_config_none_iff (environ : string -> option string) :
  load_config environ = None <->
  exists var, In var required /\
              (environ var = None \/ environ var = Some "").
Proof.
  unfold load_config.
  destruct (filter (fun var => match environ var with
                               | Some v => v =? ""
                               | None => true
                               end) required) as [|m ms] eqn:Hmissing.
  - split; [discriminate|].
    intros [var [Hin Hbad]]. exfalso.
    rewrite filter_nil_iff in Hmissing. specialize (Hmissing var Hin).
    destruct Hbad as [Hbad|Hbad]; rewrite Hbad in Hmissing; discriminate.
  - split; [|reflexivity]. intros _.
    assert (Hm : In m (m :: ms)) by (left; reflexivity).
    rewrite <- Hmissing in Hm. apply filter_In in Hm as [Hin Hbad].
    exists m. split; [exact Hin|].
    destruct (environ m) as [v|]; [|left; reflexivity].
    right. apply String.eqb_eq in Hbad. subst. reflexivity.
Qed.

Lemma load_config_some (environ : string -> option string) (cfg : config) :
  load_config environ = Some cfg ->
  (forall var, In var required ->
               exists v, environ var = Some v /\ v <> "") /\
  cfg = {| NINJAS_API_KEY := getenv environ "NINJAS_API_KEY" "";
           AMADEUS_CLIENT_ID := getenv environ "AMADEUS_CLIENT_ID" "";
           AMADEUS_CLIENT_SECRET := getenv environ "AMADEUS_CLIENT_SECRET" "";
           SENDER_EMAIL := getenv environ "SENDER_EMAIL" "";
           SENDER_APP_PASSWORD := getenv environ "SENDER_APP_PASSWORD" "";
           RECIPIENT_EMAILS :=
             if negb (getenv environ "RECIPIENT_EMAILS" "" =? "")
             then map strip (filter (fun e => negb (strip e =? ""))
                               (split_comma (getenv environ "RECIPIENT_EMAILS" "")))
             else [] |}.
Proof.
  unfold load_config.
  destruct (filter (fun var => match environ var with
                               | Some v => v =? ""
                               | None => true
                               end) required) as [|m ms] eqn:Hmissing;
    [|discriminate].
  intros H. inversion H; subst; clear H. split; [|reflexivity].
  intros var Hin. rewrite filter_nil_iff in Hmissing.
  specialize (Hmissing var Hin).
  destruct (environ var) as [v|]; [|discriminate].
  exists v. split; [reflexivity|].
  apply String.eqb_neq. exact Hmissing.
Qed.

(** X2. A configuration that loads carries, for each of the five required
    settings, the value of its environment variable, and none of them is
    empty. *)
Theorem load_config_fields (environ : string -> option string) (cfg : config) :
  load_config environ = Some cfg ->
  environ "NINJAS_API_KEY" = Some (NINJAS_API_KEY cfg) /\
  environ "AMADEUS_CLIENT_ID" = Some (AMADEUS_CLIENT_ID cfg) /\
  environ "AMADEUS_CLIENT_SECRET" = Some (AMADEUS_CLIENT_SECRET cfg) /\
  environ "SENDER_EMAIL" = Some (SENDER_EMAIL cfg) /\
  environ "SENDER_APP_PASSWORD" = Some (SENDER_APP_PASSWORD cfg) /\
  NINJAS_API_KEY cfg <> "" /\ AMADEUS_CLIENT_ID cfg <> "" /\
  AMADEUS_CLIENT_SECRET cfg <> "" /\ SENDER_EMAIL cfg <> "" /\
  SENDER_APP_PASSWORD cfg <> "".
Proof.
  intros Hload. destruct (load_config_some environ cfg Hload) as [Hreq ->].
  cbn [NINJAS_API_KEY AMADEUS_CLIENT_ID AMADEUS_CLIENT_SECRET SENDER_EMAIL
       SENDER_APP_PASSWORD].
  assert (Hvar : forall var, In var required ->
                   environ var = Some (getenv environ var "") /\
                   getenv environ var "" <> "").
  { intros var Hin. destruct (Hreq var Hin) as [v [Hv Hne]].
    unfold getenv. rewrite Hv. split; [reflexivity | exact Hne]. }
  repeat split; apply Hvar; unfold required; simpl; tauto.
Qed.

Lemma load_config_fields_witness :
  load_config (environ (sample_env 200)) = Some sample_config /\
  environ (sample_env 200) "SENDER_EMAIL" = Some (SENDER_EMAIL sample_config) /\
  SENDER_EMAIL sample_config <> "".
Proof.
  assert (Hload : load_config (environ (sample_env 200)) = Some sample_config)
    by (vm_compute; reflexivity).
  split; [exact Hload|].
  destruct (load_config_fields (environ (sample_env 200)) sample_config Hload)
    as (_ & _ & _ & Hsender & _ & _ & _ & _ & Hne & _).
  split; [exact Hsender | exact Hne].
Defined.

Lemma rstrip_cons (c : ascii) (rest : string) :
  rstrip (String c rest)
  = match rstrip rest with
    | EmptyString => if is_space c then EmptyString else String c EmptyString
    | r => String c r
    end.
Proof. reflexivity. Qed.

Lemma rstrip_idempotent (s : string) : rstrip (rstrip s) = rstrip s.
Proof.
  induction s as [|c rest IH]; [reflexivity|].
  rewrite rstrip_cons. destruct (rstrip rest) as [|d r] eqn:Hr.
  - destruct (is_space c) eqn:Hc; [reflexivity|].
    rewrite rstrip_cons. cbn [rstrip]. rewrite Hc. reflexivity.
  - rewrite rstrip_cons, IH. reflexivity.
Qed.

Lemma rstrip_keeps_head (c : ascii) (rest : string) :
  is_space c = false -> exists r, rstrip (String c rest) = String c r.
Proof.
  intros Hc. cbn [rstrip]. destruct (rstrip rest) as [|d r].
  - rewrite Hc. eexists. reflexivity.
  - eexists. reflexivity.
Qed.

Lemma lstrip_head (s : string) :
  lstrip s = EmptyString \/
  exists c rest, lstrip s = String c rest /\ is_space c = false.
Proof.
  induction s as [|c rest IH]; [left; reflexivity|].
  cbn [lstrip]. destruct (is_space c) eqn:Hc; [exact IH|].
  right. exists c, rest. split; [reflexivity | exact Hc].
Qed.

(** Stripping twice is stripping once: a stripped string has no blank at
    either end. *)
Lemma strip_idempotent (s : string) : strip (strip s) = strip s.
Proof.
  unfold strip.
  destruct (lstrip_head s) as [He|[c [rest [Hs Hc]]]].
  - rewrite He. reflexivity.
  - rewrite Hs. destruct (rstrip_keeps_head c rest Hc) as [r Hr].
    rewrite Hr. cbn [lstrip]. rewrite Hc, <- Hr. apply rstrip_idempotent.
Qed.

Lemma contains_lstrip (c : ascii) (s : string) :
  contains c s = false -> contains c (lstrip s) = false.
Proof.
  induction s as [|d rest IH]; [reflexivity|].
  intros H. cbn [lstrip]. destruct (is_space d); [|exact H].
  apply IH. simpl in H. apply orb_false_iff in H as [_ H]. exact H.
Qed.

Lemma contains_rstrip (c : ascii) (s : string) :
  contains c s = false -> contains c (rstrip s) = false.
Proof.
  induction s as [|d rest IH]; [reflexivity|].
  intros H. simpl in H. apply orb_false_iff in H as [Hd Hrest].
  specialize (IH Hrest). cbn [rstrip].
  destruct (rstrip rest) as [|d' r].
  - destruct (is_space d); [reflexivity|]. simpl. rewrite Hd. reflexivity.
  - cbn [contains]. rewrite Hd. exact IH.
Qed.

Lemma split_comma_pieces (s : string) :
  forall piece, In piece (split_comma s) -> contains ","%char piece = false.
Proof.
  induction s as [|c rest IH]; simpl; intros piece Hin.
  - destruct Hin as [<-|[]]. reflexivity.
  - destruct (Ascii.eqb c ","%char) eqn:Hc.
    + destruct Hin as [<-|Hin]; [reflexivity | apply IH; exact Hin].
    + destruct (split_comma rest) as [|p ps].
      * destruct Hin as [<-|[]]. simpl. rewrite Hc. reflexivity.
      * destruct Hin as [<-|Hin].
        -- simpl. rewrite Hc. apply IH. left. reflexivity.
        -- apply IH. right. exact Hin.
Qed.

(** X3. The recipients of a loaded configuration are clean: none is
    empty, none has a blank at either end, none contains a comma, and
    there are no more of them than comma-separated pieces in
    RECIPIENT_EMAILS; with the variable unset or empty there is none. *)
Theorem load_config_recipients (environ : string -> option string)
    (cfg : config) :
  load_config environ = Some cfg ->
  (forall r, In r (RECIPIENT_EMAILS cfg) ->
     r <> "" /\ strip r = r /\ contains ","%char r = false) /\
  List.length (RECIPIENT_EMAILS cfg)
  <= List.length (split_comma (getenv environ "RECIPIENT_EMAILS" "")) /\
  (environ "RECIPIENT_EMAILS" = None \/ environ "RECIPIENT_EMAILS" = Some "" ->
   RECIPIENT_EMAILS cfg = []).
Proof.
  intros Hload. destruct (load_config_some environ cfg Hload) as [_ ->].
  cbn [RECIPIENT_EMAILS].
  set (raw := getenv environ "RECIPIENT_EMAILS" "").
  split; [|split].
  - destruct (negb (raw =? "")); [|intros r []].
    intros r Hr. apply in_map_iff in Hr as [piece [<- Hpiece]].
    apply filter_In in Hpiece as [Hin Hne].
    split; [|split].
    + apply negb_true_iff, String.eqb_neq in Hne. exact Hne.
    + apply strip_idempotent.
    + unfold strip. apply contains_rstrip, contains_lstrip.
      apply (split_comma_pieces raw). exact Hin.
  - destruct (negb (raw =? "")); [|simpl; lia].
    rewrite length_map. apply filter_length_le.
  - intros Hunset.
    assert (Hraw : raw = "")
      by (unfold raw, getenv; destruct Hunset as [-> | ->]; reflexivity).
    rewrite Hraw. reflexivity.
Qed.

Lemma load_config_recipients_witness :
  load_config (environ (sample_env 200)) = Some sample_config /\
  (forall r, In r (RECIPIENT_EMAILS sample_config) ->
     r <> "" /\ strip r = r /\ contains ","%char r = false).
Proof.
  assert (Hload : load_config (environ (sample_env 200)) = Some sample_config)
    by (vm_compute; reflexivity).
  split; [exact Hload|].
  exact (proj1 (load_config_recipients (environ (sample_env 200)) sample_config
                  Hload)).
Defined.

(* ===================================================================== *)
(** ** Further properties: the ledger                                      *)
(* ===================================================================== *)

Lemma set_mem_false (s : pyset) (v : value) :
  set_mem s v = false <-> (forall u, In u s -> py_eqb v u = false).
Proof.
  unfold set_mem. split.
  - intros H u Hu. destruct (py_eqb v u) eqn:E; [|reflexivity].
    assert (existsb (py_eqb v) s = true)
      by (apply existsb_exists; exists u; auto).
    congruence.
  - intros H. destruct (existsb (py_eqb v) s) eqn:E; [|reflexivity].
    apply existsb_exists in E as [u [Hu Hvu]]. rewrite (H u Hu) in Hvu.
    discriminate.
Qed.

Lemma distinct_values_snoc (s : pyset) (v : value) :
  distinct_values s -> set_mem s v = false -> distinct_values (s ++ [v])%list.
Proof.
  induction s as [|a rest IH]; simpl; intros Hs Hv.
  - split; [intros u []|exact I].
  - destruct Hs as [Ha Hrest]. apply orb_false_iff in Hv as [Hva Hv].
    split; [|apply IH; assumption].
    intros u Hu. apply in_app_or in Hu as [Hu|[<-|[]]].
    + apply Ha. exact Hu.
    + rewrite py_eqb_sym. exact Hva.
Qed.

Lemma set_add_distinct (s s' : pyset) (v : value) :
  set_add s v = Ok s' -> distinct_values s -> distinct_values s'.
Proof.
  unfold set_add. destruct (hashable v); [|discriminate].
  destruct (set_mem s v) eqn:Hm; intros H Hs; inversion H; subst.
  - exact Hs.
  - apply distinct_values_snoc; assumption.
Qed.

Lemma set_of_list_distinct (items : list value) :
  forall acc s, set_of_list items acc = Ok s ->
  distinct_values acc -> distinct_values s.
Proof.
  induction items as [|v rest IH]; simpl; intros acc s H Hacc.
  - inversion H; subst. exact Hacc.
  - destruct (set_add acc v) as [acc'|] eqn:Hadd; [|discriminate].
    apply (IH acc' s H). apply (set_add_distinct acc acc' v Hadd Hacc).
Qed.

Lemma set_of_list_unhashable (items : list value) :
  forall acc, forallb hashable items = false ->
  exists e, set_of_list items acc = Raise e.
Proof.
  induction items as [|v rest IH]; simpl; intros acc H; [discriminate|].
  unfold set_add. destruct (hashable v); simpl in H.
  - apply IH. exact H.
  - eexists. reflexivity.
Qed.

Lemma stored_set_distinct (file : file_state) :
  distinct_values (stored_set file).
Proof.
  destruct file as [|ex|data]; simpl; try exact I.
  destruct (py_get_default data "sent" (VList [])) as [sent|ex]; simpl;
    [|exact I].
  destruct (py_iter sent) as [items|ex]; simpl; [|exact I].
  destruct (set_of_list items []) as [s|ex] eqn:Hs; [|exact I].
  apply (set_of_list_distinct items [] s Hs). exact I.
Qed.

(** X4. Loading the ledger never raises and changes nothing.  A missing
    file, a file that cannot be opened or decoded, a document that is not
    an object and an object without a "sent" entry all load as the empty
    set; and the set loaded holds hashable values, no two of them equal. *)
Theorem get_sent_airlines_resilient (w : world) :
  exists sent_set : pyset,
    get_sent_airlines w = (Ok sent_set, w) /\
    forallb hashable sent_set = true /\ distinct_values sent_set /\
    (sent_file w = NoFile -> sent_set = []) /\
    (forall e, sent_file w = Unreadable e -> sent_set = []) /\
    (forall data, sent_file w = Contents data ->
       (forall d, data <> VDict d) -> sent_set = []) /\
    (forall d, sent_file w = Contents (VDict d) ->
       dict_get d "sent" = None -> sent_set = []).
Proof.
  exists (stored_set (sent_file w)).
  split; [apply get_sent_airlines_reads|].
  split; [apply stored_set_hashable|].
  split; [apply stored_set_distinct|].
  split; [intros ->; reflexivity|].
  split; [intros e ->; reflexivity|].
  split.
  - intros data -> Hnot.
    destruct data as [| | | | |d]; try reflexivity.
    exfalso. apply (Hnot d). reflexivity.
  - intros d -> Hsent. simpl. unfold dict_get_default. rewrite Hsent.
    reflexivity.
Qed.

(** X5. When the file holds an object whose "sent" entry is a list, the
    set loaded has exactly the members of that list (duplicates
    collapsed), provided every entry can be hashed; a single entry that
    cannot (a list or an object) makes the whole ledger load as empty. *)
Theorem get_sent_airlines_decodes (w : world) (d : dict) (items : list value) :
  sent_file w = Contents (VDict d) ->
  dict_get d "sent" = Some (VList items) ->
  exists sent_set : pyset,
    fst (get_sent_airlines w) = Ok sent_set /\
    (forallb hashable items = true ->
       forall k, set_mem sent_set k = existsb (py_eqb k) items) /\
    (forallb hashable items = false -> sent_set = []).
Proof.
  intros Hfile Hsent. exists (stored_set (sent_file w)).
  rewrite get_sent_airlines_reads. split; [reflexivity|].
  rewrite Hfile. simpl. unfold dict_get_default. rewrite Hsent. simpl.
  split.
  - intros Hh k. destruct (set_of_list_total items [] Hh) as [s Hs].
    rewrite Hs. apply (set_of_list_mem items [] s k Hs).
  - intros Hh. destruct (set_of_list_unhashable items [] Hh) as [e He].
    rewrite He. reflexivity.
Qed.

Lemma get_sent_airlines_decodes_witness :
  let w := {| sent_file := ledger_file ["AA"; "BB"; "AA"];
              writable := Accepts; trace := [] |} in
  sent_file w = Contents (VDict [("sent", VList (map VStr ["AA"; "BB"; "AA"]))]) /\
  dict_get [("sent", VList (map VStr ["AA"; "BB"; "AA"]))] "sent"
  = Some (VList (map VStr ["AA"; "BB"; "AA"])) /\
  exists sent_set : pyset,
    fst (get_sent_airlines w) = Ok sent_set /\
    (forallb hashable (map VStr ["AA"; "BB"; "AA"]) = true ->
       forall k, set_mem sent_set k
                 = existsb (py_eqb k) (map VStr ["AA"; "BB"; "AA"])) /\
    (forallb hashable (map VStr ["AA"; "BB"; "AA"]) = false -> sent_set = []).
Proof.
  intros w. split; [reflexivity|]. split; [reflexivity|].
  exact (get_sent_airlines_decodes w _ _ eq_refl eq_refl).
Defined.

(** A ledger with one entry that cannot be hashed loads as empty. *)
Example get_sent_airlines_discards :
  fst (get_sent_airlines
         {| sent_file := Contents (VDict [("sent", VList [VStr "AA"; VList []])]);
            writable := Accepts; trace := [] |})
  = Ok [].
Proof. reflexivity. Qed.

Lemma set_of_list_fresh (s : pyset) :
  forall acc, forallb hashable s = true -> distinct_values s ->
  (forall u, In u s -> set_mem acc u = false) ->
  set_of_list s acc = Ok (acc ++ s)%list.
Proof.
  induction s as [|v rest IH]; intros acc Hh Hd Hfresh.
  - simpl. rewrite app_nil_r. reflexivity.
  - simpl in Hh. apply andb_true_iff in Hh as [Hv Hrest].
    destruct Hd as [Hvrest Hd].
    cbn [set_of_list]. unfold set_add.
    rewrite Hv, (Hfresh v (or_introl eq_refl)).
    rewrite (IH (acc ++ [v])%list Hrest Hd).
    + rewrite <- app_assoc. reflexivity.
    + intros u Hu. rewrite set_mem_app, (Hfresh u (or_intror Hu)). simpl.
      rewrite py_eqb_sym, (Hvrest u Hu). reflexivity.
Qed.

(** A list of distinct hashable values is read back as it was written. *)
Lemma stored_set_roundtrip (now_iso : string) (s : pyset) :
  forallb hashable s = true -> distinct_values s ->
  stored_set (Contents (ledger_document now_iso s)) = s.
Proof.
  intros Hh Hd. simpl.
  rewrite (set_of_list_fresh s [] Hh Hd); [reflexivity|].
  intros u _. reflexivity.
Qed.

Lemma insert_at_in (v u : value) (l : list value) :
  forall n, In u (insert_at n v l) -> u = v \/ In u l.
Proof.
  intros n Hin.
  apply (Permutation_in u (insert_at_permutation v l n)) in Hin.
  destruct Hin as [<-|Hin]; auto.
Qed.

Lemma insert_at_distinct (v : value) (l : list value) :
  distinct_values l -> (forall u, In u l -> py_eqb v u = false) ->
  forall n, distinct_values (insert_at n v l).
Proof.
  induction l as [|x rest IH]; intros Hd Hv [|n]; simpl.
  - split; [intros u []|exact I].
  - split; [intros u []|exact I].
  - split; [exact Hv|exact Hd].
  - destruct Hd as [Hx Hrest]. split.
    + intros u Hu. apply insert_at_in in Hu as [->|Hu].
      * rewrite py_eqb_sym. apply Hv. left. reflexivity.
      * apply Hx. exact Hu.
    + apply IH; [exact Hrest|]. intros u Hu. apply Hv. right. exact Hu.
Qed.

Lemma arrange_distinct (s : pyset) :
  distinct_values s -> forall order, distinct_values (arrange order s).
Proof.
  induction s as [|v rest IH]; intros Hd order; simpl; [exact I|].
  destruct Hd as [Hv Hrest].
  assert (Hfresh : forall order' u, In u (arrange order' rest) -> py_eqb v u = false).
  { intros order' u Hu. apply Hv.
    apply (Permutation_in u (arrange_permutation rest order')). exact Hu. }
  destruct order as [|n order'].
  - split; [apply Hfresh | apply IH; exact Hrest].
  - apply insert_at_distinct; [apply IH; exact Hrest | apply Hfresh].
Qed.

(** X6. A commit that returns true adds its identifier and nothing else:
    the set loaded afterwards has exactly the members loaded before plus
    the identifier committed, and the file written carries the time of
    the commit as "last_updated". *)
Theorem commit_adds_exactly (now_iso : string) (order : list nat)
    (id name : value) (w : world) :
  fst (add_sent_airline now_iso order id name w) = Ok true ->
  let w' := snd (add_sent_airline now_iso order id name w) in
  exists (before after : pyset) (doc : dict),
    fst (get_sent_airlines w) = Ok before /\
    fst (get_sent_airlines w') = Ok after /\
    (forall k, set_mem after k = set_mem before k || py_eqb k id) /\
    sent_file w' = Contents (VDict doc) /\
    dict_get doc "last_updated" = Some (VStr now_iso).
Proof.
  intros Htrue w'. subst w'.
  destruct (commit_cases id w) as [[Hh Hw]|[Hfail|[Hh Hw]]].
  - destruct (hashable_set_add (stored_set (sent_file w)) id Hh) as [s' Hadd].
    rewrite (add_sent_airline_writes now_iso order id name w s' Hadd Hw).
    cbn [snd]. rewrite !get_sent_airlines_reads. cbn [fst sent_file].
    exists (stored_set (sent_file w)),
           (stored_set (Contents (ledger_document now_iso (arrange order s')))).
    eexists.
    split; [reflexivity|]. split; [reflexivity|].
    split; [|split; reflexivity].
    intros k.
    rewrite (stored_set_arranged now_iso order s' k).
    + apply (set_add_mem _ _ id k Hadd).
    + apply (set_add_hashable _ _ _ Hadd), stored_set_hashable.
  - rewrite (add_sent_airline_fails now_iso order id name w Hfail) in Htrue.
    discriminate.
  - rewrite (add_sent_airline_breaks now_iso order id name w Hh Hw) in Htrue.
    discriminate.
Qed.

Lemma commit_adds_exactly_witness :
  let w := {| sent_file := ledger_file ["AA"]; writable := Accepts; trace := [] |} in
  let w' := snd (add_sent_airline "2025-01-01T08:00:00" [1] (VStr "BB")
                                  (VStr "Air B") w) in
  fst (add_sent_airline "2025-01-01T08:00:00" [1] (VStr "BB") (VStr "Air B") w)
  = Ok true /\
  exists (before after : pyset) (doc : dict),
    fst (get_sent_airlines w) = Ok before /\
    fst (get_sent_airlines w') = Ok after /\
    (forall k, set_mem after k = set_mem before k || py_eqb k (VStr "BB")) /\
    sent_file w' = Contents (VDict doc) /\
    dict_get doc "last_updated" = Some (VStr "2025-01-01T08:00:00").
Proof.
  intros w w'. split; [reflexivity|].
  exact (commit_adds_exactly "2025-01-01T08:00:00" [1] (VStr "BB") (VStr "Air B")
           w eq_refl).
Defined.

(** X7. A commit never raises.  It returns true exactly when the
    identifier can be hashed and the storage takes the write in full.
    When it returns false because the identifier cannot be hashed or the
    file cannot be opened for writing, the ledger file is as it was; when
    the write fails after the open, the file is left cut short and loads
    as the empty set.  After a commit that returned true the file holds a
    document whose "sent" entry lists the set read before with the
    identifier added, in some order. *)
Theorem commit_outcome (now_iso : string) (order : list nat) (id name : value)
    (w : world) :
  let w' := snd (add_sent_airline now_iso order id name w) in
  fst (add_sent_airline now_iso order id name w)
  = Ok (hashable id && accepts (writable w)) /\
  (hashable id = false \/ writable w = Refuses -> sent_file w' = sent_file w) /\
  (hashable id = true /\ writable w = Breaks ->
     sent_file w' = cut_short /\ fst (get_sent_airlines w') = Ok []) /\
  (hashable id = true /\ writable w = Accepts ->
     exists (sent_set sent : list value),
       set_add (stored_set (sent_file w)) id = Ok sent_set /\
       Permutation sent sent_set /\
       sent_file w' = Contents (ledger_document now_iso sent)) /\
  writable w' = writable w.
Proof.
  destruct (commit_cases id w) as [[Hh Hw]|[Hfail|[Hh Hw]]].
  - destruct (hashable_set_add (stored_set (sent_file w)) id Hh) as [s' Hadd].
    rewrite (add_sent_airline_writes now_iso order id name w s' Hadd Hw).
    rewrite Hw. cbn [fst snd sent_file writable accepts].
    rewrite Hh.
    split; [reflexivity|].
    split; [intros [H|H]; discriminate|].
    split; [intros [_ H]; discriminate|].
    split; [|reflexivity].
    intros _. exists s', (arrange order s').
    split; [exact Hadd|]. split; [apply arrange_permutation | reflexivity].
  - rewrite (add_sent_airline_fails now_iso order id name w Hfail).
    cbn [fst snd with_trace sent_file writable].
    split; [|split; [reflexivity|split; [|split; [|reflexivity]]]].
    + destruct Hfail as [->| ->]; [reflexivity|].
      rewrite andb_false_r. reflexivity.
    + intros [Hh Hw]. destruct Hfail as [Hf|Hf]; congruence.
    + intros [Hh Hw]. destruct Hfail as [Hf|Hf]; congruence.
  - rewrite (add_sent_airline_breaks now_iso order id name w Hh Hw).
    rewrite Hw. cbn [fst snd sent_file writable accepts].
    rewrite Hh.
    split; [reflexivity|].
    split; [intros [H|H]; discriminate|].
    split; [intros _; split; reflexivity|].
    split; [intros [_ H]; discriminate | reflexivity].
Qed.

(** X8. Committing an identifier a second time adds no entry and loses
    none.  The list the second commit writes is a rearrangement of the
    list the first one wrote: the order is that of the hash table and
    may differ, the time stamp is new, the identifiers are the same; and
    the set loaded afterwards contains the identifier. *)
Theorem commit_twice (now1 now2 : string) (order1 order2 : list nat)
    (id name1 name2 : value) (w : world) :
  hashable id = true -> writable w = Accepts ->
  let w1 := snd (add_sent_airline now1 order1 id name1 w) in
  let w2 := snd (add_sent_airline now2 order2 id name2 w1) in
  exists (sent1 sent2 : list value) (after : pyset),
    sent_file w1 = Contents (ledger_document now1 sent1) /\
    sent_file w2 = Contents (ledger_document now2 sent2) /\
    Permutation sent1 sent2 /\
    fst (add_sent_airline now2 order2 id name2 w1) = Ok true /\
    fst (get_sent_airlines w2) = Ok after /\
    set_mem after id = true /\
    Permutation after sent1.
Proof.
  intros Hh Hw w1 w2. subst w1 w2.
  destruct (hashable_set_add (stored_set (sent_file w)) id Hh) as [s1 Hadd].
  rewrite (add_sent_airline_writes now1 order1 id name1 w s1 Hadd Hw). cbn [snd].
  set (l1 := arrange order1 s1).
  assert (Hs1h : forallb hashable l1 = true).
  { unfold l1. rewrite arrange_hashable.
    apply (set_add_hashable _ _ _ Hadd), stored_set_hashable. }
  assert (Hs1d : distinct_values l1).
  { unfold l1. apply arrange_distinct.
    apply (set_add_distinct _ _ _ Hadd), stored_set_distinct. }
  assert (Hmem : set_mem l1 id = true).
  { unfold l1. rewrite arrange_mem.
    rewrite (set_add_mem _ _ id id Hadd), (py_eqb_refl id Hh).
    apply orb_true_r. }
  assert (Hadd2 : set_add (stored_set (Contents (ledger_document now1 l1))) id
                  = Ok l1).
  { rewrite (stored_set_roundtrip now1 l1 Hs1h Hs1d).
    unfold set_add. rewrite Hh, Hmem. reflexivity. }
  match goal with
  | |- context [add_sent_airline now2 order2 id name2 ?w1] =>
      rewrite (add_sent_airline_writes now2 order2 id name2 w1 l1 Hadd2 eq_refl)
  end.
  cbn [fst snd sent_file].
  set (l2 := arrange order2 l1).
  assert (Hperm : Permutation l2 l1) by apply arrange_permutation.
  exists l1, l2, l2.
  split; [reflexivity|]. split; [reflexivity|].
  split; [apply Permutation_sym; exact Hperm|].
  split; [reflexivity|].
  rewrite get_sent_airlines_reads. cbn [fst sent_file].
  rewrite (stored_set_roundtrip now2 l2).
  - split; [reflexivity|]. split; [|exact Hperm].
    unfold l2. rewrite arrange_mem. exact Hmem.
  - unfold l2. rewrite arrange_hashable. exact Hs1h.
  - unfold l2. apply arrange_distinct. exact Hs1d.
Qed.

Lemma commit_twice_witness :
  let w := {| sent_file := ledger_file ["AA"]; writable := Accepts; trace := [] |} in
  let w1 := snd (add_sent_airline "2025-01-01T08:00:00" [1] (VStr "BB")
                                  (VStr "Air B") w) in
  let w2 := snd (add_sent_airline "2025-01-02T08:00:00" [1] (VStr "BB")
                                  (VStr "Air B") w1) in
  hashable (VStr "BB") = true /\ writable w = Accepts /\
  exists (sent1 sent2 : list value) (after : pyset),
    sent_file w1 = Contents (ledger_document "2025-01-01T08:00:00" sent1) /\
    sent_file w2 = Contents (ledger_document "2025-01-02T08:00:00" sent2) /\
    Permutation sent1 sent2 /\
    fst (add_sent_airline "2025-01-02T08:00:00" [1] (VStr "BB") (VStr "Air B") w1)
    = Ok true /\
    fst (get_sent_airlines w2) = Ok after /\
    set_mem after (VStr "BB") = true /\
    Permutation after sent1.
Proof.
  intros w w1 w2. split; [reflexivity|]. split; [reflexivity|].
  exact (commit_twice "2025-01-01T08:00:00" "2025-01-02T08:00:00" [1] [1]
           (VStr "BB") (VStr "Air B") (VStr "Air B") w eq_refl eq_refl).
Defined.

(** The order in the file is not kept from one commit to the next: here
    the first commit lists "BB" before "AA", the second "AA" before
    "BB". *)
Example commit_twice_reorders :
  let w := {| sent_file := ledger_file ["AA"]; writable := Accepts; trace := [] |} in
  let w1 := snd (add_sent_airline "2025-01-01T08:00:00" [1] (VStr "BB")
                                  (VStr "Air B") w) in
  let w2 := snd (add_sent_airline "2025-01-02T08:00:00" [1] (VStr "BB")
                                  (VStr "Air B") w1) in
  sent_file w1
  = Contents (ledger_document "2025-01-01T08:00:00" [VStr "BB"; VStr "AA"]) /\
  sent_file w2
  = Contents (ledger_document "2025-01-02T08:00:00" [VStr "AA"; VStr "BB"]).
Proof. split; reflexivity. Qed.

(* ===================================================================== *)
(** ** Further properties: the random pick and the enrichment client       *)
(* ===================================================================== *)

(** X9. [get_random_airline] never raises: it returns [None], or a dict
    that is an element of the list the query answered with; and when the
    answer is a non-empty list of dicts it does return one of them. *)
Theorem get_random_airline_result (requests_get : string -> string -> response)
    (draw : nat) (api_key : string) :
  let airline := get_random_airline requests_get draw api_key in
  (airline = VNone \/
   exists d items, airline = VDict d /\
                   requests_get api_key "a" = QueryJson (VList items) /\
                   In airline items) /\
  (forall items, requests_get api_key "a" = QueryJson (VList items) ->
     items <> [] -> forallb is_dict items = true ->
     In airline items /\ is_dict airline = true).
Proof.
  unfold get_random_airline.
  destruct (requests_get api_key "a") as [e|data] eqn:Hget.
  { split; [left; reflexivity | intros items H; discriminate]. }
  destruct data as [|b|z|s|l|d].
  - split; [left; reflexivity | intros items H; discriminate].
  - split; [|intros items H; discriminate].
    left. destruct (truthy (VBool b)); reflexivity.
  - split; [|intros items H; discriminate].
    left. destruct (truthy (VInt z)); reflexivity.
  - split; [|intros items H; discriminate].
    left. destruct (truthy (VStr s)); [|reflexivity].
    cbn [py_choice]. destruct (chars s) as [|first rest] eqn:Hchars;
      [reflexivity|].
    run_monad.
    assert (Hin : In (random_choice draw first (first :: rest)) (chars s))
      by (rewrite Hchars; apply random_choice_in; discriminate).
    destruct (random_choice draw first (first :: rest)) as [| | |c| |];
      try reflexivity.
    exfalso. clear -Hin. induction s as [|a s IH]; simpl in Hin;
      [destruct Hin|]. destruct Hin as [H|H]; [discriminate | auto].
  - destruct l as [|first rest].
    { split; [left; reflexivity|]. intros items H Hne. inversion H; subst.
      congruence. }
    cbn [truthy py_choice]. run_monad.
    pose proof (random_choice_in draw first (first :: rest) ltac:(discriminate))
      as Hin.
    destruct (random_choice draw first (first :: rest)) as [| | | | |d] eqn:Hpick.
    1-5: (split; [left; reflexivity|];
          intros items H _ Hdicts; inversion H; subst;
          rewrite forallb_forall in Hdicts;
          specialize (Hdicts _ Hin); discriminate).
    unfold py_get. cbn [py_get_default]. run_monad.
    split.
    + right. exists d, (first :: rest). auto.
    + intros items H _ _. inversion H; subst. split; [exact Hin | reflexivity].
  - split; [|intros items H; discriminate].
    left. destruct d as [|kv d]; reflexivity.
Qed.

(** X10. Whatever the service answers and whatever the identifier, what
    [get_destinations] returns can be handed to the renderer's loop: a
    value it returns is falsy or can be iterated.  For a two-character
    identifier exactly one request is made, and a list in the data field
    of the answer is returned as it is. *)
Theorem get_destinations_feeds_the_loop (amadeus : value -> amadeus_outcome)
    (iata : value) (w : world) (destinations : value) :
  fst (get_destinations amadeus iata w) = Ok destinations ->
  (truthy destinations = true -> exists items, py_iter destinations = Ok items) /\
  (forall s, iata = VStr s -> String.length s = 2 ->
     trace (snd (get_destinations amadeus iata w))
     = (trace w ++ [Call_get_destinations iata; AmadeusRequest iata])%list /\
     forall l, amadeus iata = AmadeusResponse (Some (VList l)) ->
               destinations = VList l).
Proof.
  intros Hret.
  destruct (truthy iata) eqn:Ht.
  - destruct (py_len iata) as [n|ex] eqn:Hlen.
    + rewrite (get_destinations_sized amadeus iata n w Ht Hlen) in *.
      destruct (n =? 2)%nat eqn:Hn.
      * cbn [fst snd] in *. inversion Hret; subst destinations; clear Hret.
        split.
        -- unfold enriched.
           destruct (amadeus iata) as [e|[v|]]; try discriminate.
           destruct (truthy v) eqn:Hv; [|congruence].
           destruct v as [|b|z|s|l|d]; simpl; try discriminate;
             intros _; eexists; reflexivity.
        -- intros s -> _. split; [reflexivity|].
           intros l Hl. rewrite Hl. simpl. destruct l; reflexivity.
      * cbn [fst snd] in *. inversion Hret; subst.
        split; [discriminate|].
        intros s -> Hs. simpl in Hlen. inversion Hlen; subst.
        rewrite Hs in Hn. discriminate.
    + rewrite (get_destinations_unsized amadeus iata ex w Ht Hlen) in Hret.
      discriminate.
  - rewrite (get_destinations_falsy amadeus iata w Ht) in *.
    cbn [fst snd] in *. inversion Hret; subst.
    split; [discriminate|].
    intros s -> Hs. destruct s as [|c s]; simpl in *; discriminate.
Qed.

Lemma get_destinations_feeds_the_loop_witness :
  let amadeus := fun _ : value => AmadeusResponse (Some (VList sample_records)) in
  let w := {| sent_file := NoFile; writable := Accepts; trace := [] |} in
  fst (get_destinations amadeus (VStr "BA") w) = Ok (VList sample_records) /\
  (truthy (VList sample_records) = true ->
   exists items, py_iter (VList sample_records) = Ok items).
Proof.
  intros amadeus w. split; [reflexivity|].
  exact (proj1 (get_destinations_feeds_the_loop amadeus (VStr "BA") w
                  (VList sample_records) eq_refl)).
Defined.

(* ===================================================================== *)
(** ** Further properties: the renderer                                    *)
(* ===================================================================== *)

Lemma address_not_dict (r : dict) :
  match dict_get r "address" with
  | Some (VDict _) | None => true
  | Some _ => false
  end = false ->
  exists e,
    py_get_default (dict_get_default r "address" (VDict [])) "countryCode"
      (VStr "??") = Raise e.
Proof.
  unfold dict_get_default.
  destruct (dict_get r "address") as [[| | | | |address]|]; intros H;
    try discriminate; eexists; reflexivity.
Qed.

Lemma dest_loop_raises (py_repr : value -> string) (recs : list value) :
  forallb renderable recs = false ->
  forall valid_dests, exists e, dest_loop py_repr recs valid_dests = Raise e.
Proof.
  induction recs as [|d rest IH]; intros Hbad valid_dests; [discriminate|].
  simpl in Hbad.
  destruct (renderable d) eqn:Hd; simpl in Hbad.
  - destruct d as [| | | | |r]; try discriminate.
    cbn [dest_loop]. unfold py_get. cbn [py_get_default]. run_monad.
    destruct (truthy (dict_get_default r "iataCode" VNone)) eqn:Hcode;
      cbn [negb].
    + rewrite (address_country r (renderable_with_code r Hd Hcode)). run_monad.
      apply (IH Hbad).
    + apply (IH Hbad).
  - destruct d as [| | | | |r]; try (eexists; reflexivity).
    cbn [dest_loop]. unfold py_get. cbn [py_get_default]. run_monad.
    unfold renderable in Hd.
    destruct (truthy (dict_get_default r "iataCode" VNone)); cbn [negb orb] in *;
      [|discriminate].
    destruct (address_not_dict r Hd) as [e He]. rewrite He.
    eexists. reflexivity.
Qed.

Lemma fleet_not_dict (data : dict) :
  fleet_ok data = false ->
  exists e, py_items (dict_get_default data "fleet" (VDict [])) = Raise e.
Proof.
  unfold fleet_ok, dict_get_default.
  destruct (dict_get data "fleet") as [[| | | | |fleet]|]; intros H;
    try discriminate; eexists; reflexivity.
Qed.

(** X11. When the renderer raises.  On an airline dict and a list of
    records, [create_email_content] returns normally exactly when the
    airline's [fleet] is a dict (or absent) and every record is a dict
    whose [address], if the record has an identifier, is a dict (or
    absent); an airline that is not a dict raises [AttributeError]. *)
Theorem create_email_content_succeeds_iff (py_repr : value -> string)
    (today : string) (data : dict) (recs : list value) :
  ((exists out,
      create_email_content py_repr today (VDict data) (VList recs) = Ok out)
   <-> fleet_ok data = true /\ forallb renderable recs = true) /\
  (forall airline destinations, is_dict airline = false ->
     create_email_content py_repr today airline destinations
     = Raise (no_attribute airline "get")).
Proof.
  split.
  - unfold create_email_content.
    destruct (fleet_ok data) eqn:Hfleet.
    + destruct (fleet_is_dict data Hfleet) as [fleet Hf]. rewrite Hf.
      cbn [py_items py_get_default]. run_monad.
      destruct recs as [|d rest].
      * cbn [truthy]. split; [intros _; split; reflexivity|].
        intros _. eexists. reflexivity.
      * cbn [truthy py_iter]. run_monad.
        destruct (forallb renderable (d :: rest)) eqn:Hrecs.
        -- rewrite (dest_loop_renderable py_repr (d :: rest) Hrecs).
           split; [intros _; split; reflexivity|].
           intros _. eexists. reflexivity.
        -- destruct (dest_loop_raises py_repr (d :: rest) Hrecs []) as [e He].
           rewrite He.
           split; [intros [out H]; discriminate | intros [_ H]; discriminate].
    + destruct (fleet_not_dict data Hfleet) as [e He]. rewrite He.
      split; [intros [out H]; discriminate | intros [H _]; discriminate].
  - intros airline destinations Hnot.
    destruct airline; try reflexivity. discriminate.
Qed.

(** X12. Without destination data the page has no destination block:
    when the destinations are falsy ([None], an empty list), or are
    records none of which has an identifier, the block is the empty
    string and the count is 0. *)
Theorem create_email_content_without_destinations (py_repr : value -> string)
    (today : string) (data : dict) (destinations : value) :
  fleet_ok data = true ->
  truthy destinations = false \/
  (exists recs, destinations = VList recs /\
                forallb renderable recs = true /\
                filter has_code recs = []) ->
  exists logo_html fleet_html total_aircraft,
    create_email_content py_repr today (VDict data) destinations
    = Ok (page py_repr today data (dict_get_default data "name" (VStr "Unknown"))
            logo_html fleet_html total_aircraft "",
          dict_get_default data "name" (VStr "Unknown"), 0).
Proof.
  intros Hfleet Hnone.
  destruct (fleet_is_dict data Hfleet) as [fleet Hf].
  unfold create_email_content. rewrite Hf.
  cbn [py_items py_get_default]. run_monad.
  destruct Hnone as [Hfalsy|[recs [-> [Hrecs Hcodes]]]].
  - rewrite Hfalsy. do 3 eexists. reflexivity.
  - destruct recs as [|d rest].
    + cbn [truthy]. do 3 eexists. reflexivity.
    + cbn [truthy py_iter]. run_monad.
      rewrite (dest_loop_renderable py_repr (d :: rest) Hrecs), Hcodes.
      cbn [app map]. do 3 eexists. reflexivity.
Qed.

Lemma create_email_content_without_destinations_witness :
  fleet_ok sample_airline = true /\
  (truthy VNone = false \/
   (exists recs, VNone = VList recs /\ forallb renderable recs = true /\
                 filter has_code recs = [])) /\
  exists logo_html fleet_html total_aircraft,
    create_email_content (fun _ => EmptyString) "January 01, 2025"
      (VDict sample_airline) VNone
    = Ok (page (fun _ => EmptyString) "January 01, 2025" sample_airline
            (dict_get_default sample_airline "name" (VStr "Unknown"))
            logo_html fleet_html total_aircraft "",
          dict_get_default sample_airline "name" (VStr "Unknown"), 0).
Proof.
  assert (Hfleet : fleet_ok sample_airline = true) by reflexivity.
  assert (Hnone : truthy VNone = false \/
                  (exists recs, VNone = VList recs /\
                                forallb renderable recs = true /\
                                filter has_code recs = []))
    by (left; reflexivity).
  split; [exact Hfleet|]. split; [exact Hnone|].
  exact (create_email_content_without_destinations (fun _ => EmptyString)
           "January 01, 2025" sample_airline VNone Hfleet Hnone).
Defined.

Lemma concat_nonempty (sep x : string) (xs : list string) :
  x <> "" -> String.concat sep (x :: xs) <> "".
Proof.
  intros Hx. destruct x as [|c x]; [congruence|].
  simpl. destruct xs; discriminate.
Qed.

Lemma fleet_html_text (py_repr : value -> string) (fleet : dict) :
  (if String.concat "<br>" (fleet_lines py_repr fleet) =? ""
   then "No detailed fleet data"
   else String.concat "<br>" (fleet_lines py_repr fleet))
  = fleet_text py_repr fleet.
Proof.
  unfold fleet_text, fleet_lines.
  destruct (filter (fun kv => negb (fst kv =? "total")) fleet) as [|kv kvs].
  - reflexivity.
  - cbn [map].
    match goal with
    | |- context [String.concat "<br>" (?x :: ?xs)] =>
        pose proof (concat_nonempty "<br>" x xs) as Hne
    end.
    apply String.eqb_neq in Hne; [rewrite Hne; reflexivity|].
    destruct (fst kv); discriminate.
Qed.

(** X13. The fleet paragraph.  The page lists one line "type: count" for
    each fleet entry other than "total", in the order of the fleet; it
    shows "No detailed fleet data" when there is no such entry (a fleet
    that is absent, empty or only a total) and the joined lines when there
    is one; the total shown is the "total" entry, or "N/A" without one. *)
Theorem create_email_content_fleet (py_repr : value -> string)
    (today : string) (data fleet : dict) (recs : list value) :
  dict_get_default data "fleet" (VDict []) = VDict fleet ->
  forallb renderable recs = true ->
  (exists logo_html dest_html shown,
     create_email_content py_repr today (VDict data) (VList recs)
     = Ok (page py_repr today data
             (dict_get_default data "name" (VStr "Unknown"))
             logo_html (fleet_text py_repr fleet)
             (dict_get_default fleet "total" (VStr "N/A")) dest_html,
           dict_get_default data "name" (VStr "Unknown"), shown)) /\
  fleet_lines py_repr fleet
  = map (fun kv => fst kv ++ ": " ++ py_str py_repr (snd kv))
        (filter (fun kv => negb (fst kv =? "total")) fleet) /\
  ((forall kv, In kv fleet -> fst kv = "total") ->
   fleet_text py_repr fleet = "No detailed fleet data") /\
  ((exists kv, In kv fleet /\ fst kv <> "total") ->
   fleet_text py_repr fleet = String.concat "<br>" (fleet_lines py_repr fleet)
   /\ fleet_text py_repr fleet <> "").
Proof.
  intros Hf Hrecs. split; [|split; [reflexivity|split]].
  - unfold create_email_content. rewrite Hf.
    cbn [py_items py_get_default]. run_monad.
    rewrite fleet_html_text.
    destruct recs as [|d rest].
    + cbn [truthy]. do 3 eexists. reflexivity.
    + cbn [truthy py_iter]. run_monad.
      rewrite (dest_loop_renderable py_repr (d :: rest) Hrecs). cbn [app].
      do 3 eexists. reflexivity.
  - intros Hall. unfold fleet_text.
    rewrite filter_none; [reflexivity|].
    intros kv Hkv. rewrite (Hall kv Hkv). reflexivity.
  - intros [kv [Hkv Hkey]]. unfold fleet_text, fleet_lines.
    destruct (filter (fun kv => negb (fst kv =? "total")) fleet)
      as [|kv' kvs] eqn:Hfilter.
    + exfalso. rewrite filter_nil_iff in Hfilter. specialize (Hfilter kv Hkv).
      apply negb_false_iff, String.eqb_eq in Hfilter. contradiction.
    + split; [reflexivity|]. cbn [map]. apply concat_nonempty.
      destruct (fst kv'); discriminate.
Qed.

Lemma create_email_content_fleet_witness :
  let data := [("name", VStr "Test Air");
               ("fleet", VDict [("A320", VInt 12); ("total", VInt 15);
                                ("B737", VInt 3)])] in
  let fleet := [("A320", VInt 12); ("total", VInt 15); ("B737", VInt 3)] in
  dict_get_default data "fleet" (VDict []) = VDict fleet /\
  forallb renderable sample_records = true /\
  fleet_text (fun _ => EmptyString) fleet = "A320: 12<br>B737: 3" /\
  exists logo_html dest_html shown,
    create_email_content (fun _ => EmptyString) "January 01, 2025"
      (VDict data) (VList sample_records)
    = Ok (page (fun _ => EmptyString) "January 01, 2025" data
            (dict_get_default data "name" (VStr "Unknown"))
            logo_html (fleet_text (fun _ => EmptyString) fleet)
            (dict_get_default fleet "total" (VStr "N/A")) dest_html,
          dict_get_default data "name" (VStr "Unknown"), shown).
Proof.
  intros data fleet.
  assert (Hf : dict_get_default data "fleet" (VDict []) = VDict fleet)
    by reflexivity.
  assert (Hrecs : forallb renderable sample_records = true) by reflexivity.
  split; [exact Hf|]. split; [exact Hrecs|]. split; [reflexivity|].
  exact (proj1 (create_email_content_fleet (fun _ => EmptyString)
                  "January 01, 2025" data fleet sample_records Hf Hrecs)).
Defined.

(* ===================================================================== *)
(** ** Further properties: the catalog fetcher                             *)
(* ===================================================================== *)

Lemma first_occurrences_complete (items : list value) :
  forall earlier a,
    In a items -> truthy (identifier a) = true ->
    hashable (identifier a) = true ->
    (exists b, In b (first_occurrences items earlier) /\
               py_eqb (identifier a) (identifier b) = true) \/
    (exists b, In b earlier /\ py_eqb (identifier a) (identifier b) = true).
Proof.
  induction items as [|c rest IH]; intros earlier a Hin Ht Hh; [destruct Hin|].
  cbn [first_occurrences].
  destruct (existsb (fun b => py_eqb (identifier c) (identifier b)) earlier)
    eqn:Hseen.
  - (* an earlier item carries the identifier of [c] *)
    rewrite andb_false_r.
    apply existsb_exists in Hseen as [b' [Hb' Hcb']].
    destruct Hin as [<-|Hin].
    + right. exists b'. auto.
    + destruct (IH (earlier ++ [c])%list a Hin Ht Hh) as [[b [Hb Hab]]|[b [Hb Hab]]].
      * left. exists b. auto.
      * right. apply in_app_or in Hb as [Hb|[<-|[]]].
        -- exists b. auto.
        -- exists b'. split; [exact Hb'|].
           exact (py_eqb_trans _ _ _ Hab Hcb').
  - rewrite andb_true_r.
    destruct Hin as [<-|Hin].
    + rewrite Ht. left. exists c. split; [left; reflexivity|].
      apply py_eqb_refl. exact Hh.
    + destruct (IH (earlier ++ [c])%list a Hin Ht Hh) as [[b [Hb Hab]]|[b [Hb Hab]]].
      * left. exists b. split; [|exact Hab].
        destruct (truthy (identifier c)); [right|]; exact Hb.
      * apply in_app_or in Hb as [Hb|[<-|[]]].
        -- right. exists b. auto.
        -- left. exists c. split; [|exact Hab].
           rewrite <- (py_eqb_truthy _ _ Hab), Ht. left. reflexivity.
Qed.

Lemma first_occurrences_length (items : list value) :
  forall earlier,
    List.length (first_occurrences items earlier) <= List.length items.
Proof.
  induction items as [|c rest IH]; intros earlier; [apply le_n|].
  cbn [first_occurrences].
  destruct (truthy (identifier c)
            && negb (existsb (fun b => py_eqb (identifier c) (identifier b))
                             earlier));
    simpl; specialize (IH (earlier ++ [c])%list); lia.
Qed.

(** X14. The fetcher loses no identifier: every element that reached
    the inner loop with an identifier has that identifier on an item of
    the result; and the result is no longer than what was read. *)
Theorem fetch_all_airlines_complete
    (requests_get : string -> string -> response) (api_key : string) :
  exists catalog : list value,
    fst (fetch_all_airlines requests_get api_key) = Ok catalog /\
    (forall a, In a (consumed requests_get api_key) ->
       truthy (identifier a) = true ->
       exists b, In b catalog /\
                 py_eqb (identifier a) (identifier b) = true) /\
    List.length catalog <= List.length (consumed requests_get api_key).
Proof.
  exists (first_occurrences (consumed requests_get api_key) []).
  split.
  { rewrite fetch_all_airlines_catalog, catalog_of_first_occurrences.
    reflexivity. }
  split; [|apply first_occurrences_length].
  intros a Ha Ht.
  assert (Hh : hashable (identifier a) = true).
  { pose proof (consumed_ok requests_get api_key) as Hok.
    rewrite forallb_forall in Hok. specialize (Hok a Ha).
    pose proof (item_with_identifier a Hok Ht) as Hitem.
    destruct a; simpl in *; try discriminate. exact Hitem. }
  destruct (first_occurrences_complete _ [] a Ha Ht Hh) as [H|[b [[] _]]].
  exact H.
Qed.

Lemma usable_all (items : list value) :
  forallb item_ok items = true -> usable items = items.
Proof.
  induction items as [|a rest IH]; simpl; intros H; [reflexivity|].
  apply andb_true_iff in H as [Ha Hrest]. rewrite Ha, (IH Hrest). reflexivity.
Qed.

Lemma usable_cut (good rest : list value) (bad : value) :
  forallb item_ok good = true -> item_ok bad = false ->
  usable (good ++ bad :: rest) = good.
Proof.
  induction good as [|a good IH]; simpl; intros Hgood Hbad.
  - rewrite Hbad. reflexivity.
  - apply andb_true_iff in Hgood as [Ha Hgood]. rewrite Ha, (IH Hgood Hbad).
    reflexivity.
Qed.

Lemma consumed_answering (rg : string -> string -> response)
    (api_key letter : string) (r : response) :
  page_items r = page_items (rg api_key letter) ->
  consumed (answering rg letter r) api_key = consumed rg api_key.
Proof.
  intros Hsame. apply consumed_ext. intros l. unfold answering.
  destruct (l =? letter) eqn:Hl; [|reflexivity].
  apply String.eqb_eq in Hl. subst. exact Hsame.
Qed.

(** X15. An element the inner loop cannot handle (one that is not a
    dict, or whose identifier is truthy and cannot be hashed) cuts its
    page short: the elements before it on the page are taken, those after
    it on the same page are lost, and the other letters are read as
    usual.  The fetch returns what it would return had the page ended
    before that element. *)
Theorem fetch_all_airlines_cut_page
    (requests_get : string -> string -> response) (api_key letter : string)
    (good rest : list value) (bad : value) :
  requests_get api_key letter = QueryJson (VList (good ++ bad :: rest)) ->
  forallb item_ok good = true ->
  item_ok bad = false ->
  fst (fetch_all_airlines requests_get api_key)
  = fst (fetch_all_airlines
           (answering requests_get letter (QueryJson (VList good))) api_key).
Proof.
  intros Hpage Hgood Hbad.
  rewrite !fetch_all_airlines_catalog.
  rewrite (consumed_answering requests_get api_key letter); [reflexivity|].
  rewrite Hpage. cbn [page_items py_iter].
  rewrite (usable_all good Hgood), (usable_cut good rest bad Hgood Hbad).
  reflexivity.
Qed.

Lemma fetch_all_airlines_cut_page_witness :
  let air (code : string) := VDict [("iata", VStr code)] in
  let requests_get (api_key letter : string) :=
    if letter =? "A"
    then QueryJson (VList ([air "AA"] ++ VStr "oops" :: [air "AB"]))
    else if letter =? "B" then QueryJson (VList [air "BB"])
    else QueryFails (OtherError "503 Server Error") in
  requests_get "key" "A"
  = QueryJson (VList ([air "AA"] ++ VStr "oops" :: [air "AB"])) /\
  forallb item_ok [air "AA"] = true /\
  item_ok (VStr "oops") = false /\
  fst (fetch_all_airlines requests_get "key") = Ok [air "AA"; air "BB"] /\
  fst (fetch_all_airlines requests_get "key")
  = fst (fetch_all_airlines
           (answering requests_get "A" (QueryJson (VList [air "AA"]))) "key").
Proof.
  intros air requests_get.
  split; [reflexivity|]. split; [reflexivity|]. split; [reflexivity|].
  split; [vm_compute; reflexivity|].
  exact (fetch_all_airlines_cut_page requests_get "key" "A" [air "AA"]
           [air "AB"] (VStr "oops") eq_refl eq_refl eq_refl).
Defined.

Lemma loop_prints (body : string -> M fetch_state unit)
    (pages : string -> list value) :
  (forall letter p out, exists line,
      body letter (fetch_state_of p out)
      = (Ok tt, fetch_state_of (absorb (pages letter) p) (out ++ [line])%list)) ->
  forall ls p out, exists lines,
    for_each ls body (fetch_state_of p out)
    = (Ok tt, fetch_state_of (absorb (flat_map pages ls) p) (out ++ lines)%list)
    /\ List.length lines = List.length ls.
Proof.
  intros Hbody ls. induction ls as [|letter rest IH]; intros p out.
  - exists []. cbn. rewrite app_nil_r. split; reflexivity.
  - cbn [for_each flat_map]. run_monad.
    destruct (Hbody letter p out) as [line Hline]. rewrite Hline.
    destruct (IH (absorb (pages letter) p) (out ++ [line])%list)
      as [lines [Hrest Hlen]].
    rewrite Hrest, absorb_app, <- app_assoc.
    exists (line :: lines). split; [reflexivity | simpl; rewrite Hlen; reflexivity].
Qed.

Lemma fetch_with_prints (intro : M fetch_state unit)
    (say_found : string -> nat -> nat -> string)
    (say_failed : string -> exn -> string) (say_total : nat -> string)
    (requests_get : string -> string -> response) (api_key : string)
    (lines0 : list string) :
  intro fetch_init = (Ok tt, fetch_state_of ([], []) lines0) ->
  exists lines,
    snd (fetch_with intro say_found say_failed say_total requests_get api_key)
    = (lines0 ++ lines
       ++ [say_total (List.length (catalog_of (consumed requests_get api_key)))])%list
    /\ List.length lines = 26.
Proof.
  intros Hintro.
  unfold fetch_with. run_monad. rewrite Hintro.
  destruct (loop_prints
              (letter_step say_found say_failed (requests_get api_key))
              (fun letter => page_items (requests_get api_key letter))
              (letter_step_absorbs say_found say_failed (requests_get api_key))
              letters ([], []) lines0) as [lines [Hloop Hlen]].
  rewrite Hloop. unfold get_state. rewrite print_appends.
  exists lines. split; [|exact Hlen].
  cbn [snd stdout fetch_state_of all_airlines fst].
  rewrite <- app_assoc. reflexivity.
Qed.

(** X16. What a fetch prints: the starting line, then exactly one line
    for each of the 26 letters (found or failed), then the closing line,
    which reports the number of airlines the fetch returns. *)
Theorem fetch_all_airlines_prints
    (requests_get : string -> string -> response) (api_key : string) :
  exists (catalog : list value) (lines : list string),
    fst (fetch_all_airlines requests_get api_key) = Ok catalog /\
    snd (fetch_all_airlines requests_get api_key)
    = ("[FETCH] Starting full airline fetch (A-Z)..." :: lines
       ++ [("[FETCH] Completed. Total unique airlines with IATA codes: "
            ++ str_of_nat (List.length catalog))%string])%list /\
    List.length lines = 26.
Proof.
  exists (catalog_of (consumed requests_get api_key)).
  destruct (fetch_with_prints
              (print "[FETCH] Starting full airline fetch (A-Z)...")
              (fun letter found unique =>
                 "[FETCH] Letter " ++ letter ++ ": found " ++ str_of_nat found
                 ++ " airlines, total unique: " ++ str_of_nat unique)
              (fun letter e =>
                 "[FETCH] Warning: failed to fetch for letter " ++ letter ++ ": "
                 ++ exn_str e)
              (fun unique =>
                 "[FETCH] Completed. Total unique airlines with IATA codes: "
                 ++ str_of_nat unique)
              requests_get api_key
              ["[FETCH] Starting full airline fetch (A-Z)..."] eq_refl)
    as [lines [Hout Hlen]].
  exists lines.
  split; [apply fetch_all_airlines_catalog|].
  split; [|exact Hlen].
  rewrite fetch_all_airlines_shape. exact Hout.
Qed.

(* ===================================================================== *)
(** ** Further properties: the orchestrator                                *)
(* ===================================================================== *)

Lemma get_destinations_trace (amadeus : value -> amadeus_outcome)
    (iata : value) (w : world) :
  exists r reqs,
    get_destinations amadeus iata w
    = (r, with_trace w (Call_get_destinations iata :: reqs)) /\
    at_most_one_amadeus iata reqs.
Proof.
  destruct (truthy iata) eqn:Ht.
  - destruct (py_len iata) as [n|ex] eqn:Hlen.
    + rewrite (get_destinations_sized amadeus iata n w Ht Hlen).
      destruct (n =? 2)%nat; do 2 eexists;
        (split; [reflexivity|]); [right | left]; reflexivity.
    + rewrite (get_destinations_unsized amadeus iata ex w Ht Hlen).
      do 2 eexists. split; [reflexivity | left; reflexivity].
  - rewrite (get_destinations_falsy amadeus iata w Ht).
    do 2 eexists. split; [reflexivity | left; reflexivity].
Qed.

Lemma send_email_bcc_trace (e : env) (html subject sender password : string)
    (recipients : list string) (w : world) :
  exists sent reqs,
    send_email_bcc e html subject sender password recipients w
    = (Ok sent, with_trace w (Call_send_email_bcc recipients
                              :: reqs ++ [Return_send_email_bcc sent])%list) /\
    at_most_one_mailgun reqs.
Proof.
  destruct recipients as [|r rs].
  - rewrite send_email_bcc_empty. exists false, [].
    split; [reflexivity | left; reflexivity].
  - rewrite (send_email_bcc_post e html subject sender password (r :: rs) w)
      by discriminate.
    exists (delivered (mailgun_api e
              (mailgun_request e html subject sender password (r :: rs)))),
           [MailgunRequest
              (mailgun_request e html subject sender password (r :: rs))].
    split; [reflexivity|]. right. eexists. reflexivity.
Qed.

Lemma main_form (py_repr : value -> string) (e : env) (file : file_state)
    (can_write : storage) :
  run_form e file can_write (run_main py_repr e file can_write).
Proof.
  unfold run_main, main.
  destruct (load_config (environ e)) as [cfg|] eqn:Hcfg;
    [|apply Quiet; first [left; reflexivity | right; eexists; reflexivity]].
  run_monad. rewrite get_sent_airlines_reads. cbn [sent_file].
  rewrite fetch_all_airlines_catalog. unfold lift at 1.
  destruct (catalog_of (consumed (catalog_api e) (NINJAS_API_KEY cfg)))
    as [|c cs] eqn:Hcat; [apply Quiet; first [left; reflexivity | right; eexists; reflexivity]|].
  unfold lift at 1.
  destruct (select (random_draw e) (c :: cs) (stored_set file))
    as [[airline|]|ex] eqn:Hsel;
    try (apply Quiet; first [left; reflexivity | right; eexists; reflexivity]).
  unfold lift at 1.
  destruct (py_get airline "iata") as [iata|ex] eqn:Hiata;
    [|apply Quiet; first [left; reflexivity | right; eexists; reflexivity]].
  assert (Hselected : selected e file cfg airline iata).
  { unfold selected. rewrite Hcat. auto. }
  unfold lift at 1.
  destruct (py_get_default airline "name" (VStr "Unknown")) as [name0|ex];
    [|apply Quiet; first [left; reflexivity | right; eexists; reflexivity]].
  match goal with
  | |- context [get_destinations ?a ?i ?w] =>
      destruct (get_destinations_trace a i w) as [r [reqs_a [Hget Hreqs_a]]];
      rewrite Hget
  end.
  unfold with_trace. cbn [sent_file writable trace app].
  destruct r as [destinations|ex];
    [|apply (Enriched e file can_write cfg airline); assumption].
  unfold lift at 1.
  destruct (create_email_content py_repr (today e) airline destinations)
    as [[[html name] shown]|ex];
    [|apply (Enriched e file can_write cfg airline); assumption].
  match goal with
  | |- context [send_email_bcc ?e ?h ?s ?a ?p ?rc ?w] =>
      destruct (send_email_bcc_trace e h s a p rc w)
        as [sent [reqs_m [Hsend Hreqs_m]]];
      rewrite Hsend
  end.
  unfold with_trace. cbn [sent_file writable trace].
  destruct sent; cbn [negb].
  - cbn [app].
    match goal with
    | |- context [add_sent_airline ?n ?o ?i ?a ?w] =>
        destruct (add_sent_airline_frame n o i a w)
          as [updated [file' Hadd]];
        pose proof (Committed e file can_write cfg airline iata a reqs_a reqs_m
                      (RECIPIENT_EMAILS cfg) Hselected Hreqs_a Hreqs_m) as Hform;
        rewrite Hadd in *
    end.
    cbn [snd] in Hform. destruct updated; exact Hform.
  - cbn [ret M_monad app].
    apply (Undelivered e file can_write cfg airline); assumption.
Qed.

Lemma select_sound (draw : nat) (C : list value) (L : pyset) (a : value) :
  select draw C L = Ok (Some a) ->
  In a C /\ set_mem L (identifier a) = false.
Proof.
  intros Hsel. unfold select in Hsel. simpl in Hsel.
  destruct (available C L) as [l|] eqn:Hav; [|discriminate].
  destruct l as [|first l']; [discriminate|].
  inversion Hsel; subst.
  apply (available_sound C L (first :: l') _ Hav).
  apply random_choice_in. discriminate.
Qed.

Lemma py_get_iata (airline iata : value) :
  py_get airline "iata" = Ok iata -> identifier airline = iata.
Proof.
  destruct airline; simpl; intros H; try discriminate.
  inversion H. reflexivity.
Qed.

Lemma commit_true_member (now_iso : string) (order : list nat) (id name : value)
    (w w' : world) :
  add_sent_airline now_iso order id name w = (Ok true, w') ->
  set_mem (stored_set (sent_file w')) id = true.
Proof.
  intros Hadd.
  destruct (commit_cases id w) as [[Hh Hw]|[Hfail|[Hh Hw]]].
  - destruct (hashable_set_add (stored_set (sent_file w)) id Hh) as [s' Hs].
    rewrite (add_sent_airline_writes now_iso order id name w s' Hs Hw) in Hadd.
    inversion Hadd; subst w'. cbn [sent_file].
    rewrite (stored_set_arranged now_iso order s' id).
    + rewrite (set_add_mem _ _ id id Hs), (py_eqb_refl id Hh).
      apply orb_true_r.
    + apply (set_add_hashable _ _ _ Hs), stored_set_hashable.
  - rewrite (add_sent_airline_fails now_iso order id name w Hfail) in Hadd.
    discriminate.
  - rewrite (add_sent_airline_breaks now_iso order id name w Hh Hw) in Hadd.
    discriminate.
Qed.

(** X17. With a required setting missing, or with a catalog that comes
    back empty, [main] returns 1 and leaves the world as it found it: none
    of [get_destinations], [send_email_bcc] and [add_sent_airline] is
    called, no request goes to the enrichment or the delivery service,
    and the ledger file is not touched.  (The queries to the catalog
    service are not part of the trace; with a setting missing none is
    made, with an empty catalog all 26 have been made.) *)
Theorem main_stops_without_data (py_repr : value -> string) (e : env)
    (file : file_state) (can_write : storage) :
  load_config (environ e) = None \/
  (exists cfg, load_config (environ e) = Some cfg /\
     fst (fetch_all_airlines (catalog_api e) (NINJAS_API_KEY cfg)) = Ok []) ->
  run_main py_repr e file can_write
  = (Ok 1%Z, {| sent_file := file; writable := can_write; trace := [] |}).
Proof.
  intros [Hnone|[cfg [Hcfg Hfetch]]]; unfold run_main, main.
  - rewrite Hnone. reflexivity.
  - rewrite Hcfg. run_monad. rewrite get_sent_airlines_reads. cbn [sent_file].
    rewrite Hfetch. reflexivity.
Qed.

Lemma main_stops_without_data_witness :
  let e := {| environ := fun _ => None;
              catalog_api := catalog_api (sample_env 200);
              amadeus_api := amadeus_api (sample_env 200);
              mailgun_api := mailgun_api (sample_env 200);
              random_draw := 0;
              today := "January 01, 2025";
              now_iso := "2025-01-01T08:00:00";
              hash_order := [] |} in
  (load_config (environ e) = None \/
   (exists cfg, load_config (environ e) = Some cfg /\
      fst (fetch_all_airlines (catalog_api e) (NINJAS_API_KEY cfg)) = Ok [])) /\
  run_main (fun _ => EmptyString) e (ledger_file ["AA"]) Accepts
  = (Ok 1%Z, {| sent_file := ledger_file ["AA"]; writable := Accepts; trace := [] |}).
Proof.
  intros e.
  assert (H : load_config (environ e) = None \/
              (exists cfg, load_config (environ e) = Some cfg /\
                 fst (fetch_all_airlines (catalog_api e) (NINJAS_API_KEY cfg))
                 = Ok []))
    by (left; reflexivity).
  split; [exact H|].
  exact (main_stops_without_data (fun _ => EmptyString) e (ledger_file ["AA"])
           Accepts H).
Defined.

Lemma committed_trace (now_iso : string) (order : list nat) (iata name : value)
    (w : world) :
  exists updated,
    fst (add_sent_airline now_iso order iata name w) = Ok updated /\
    trace (snd (add_sent_airline now_iso order iata name w))
    = (trace w ++ [Call_add_sent_airline iata name;
                   Return_add_sent_airline updated])%list.
Proof.
  destruct (add_sent_airline_frame now_iso order iata name w)
    as [updated [file' Hadd]].
  exists updated. rewrite Hadd. split; reflexivity.
Qed.

(** X18. The exit status is 0 or 1, and it is 0 exactly when the
    delivery returned true in the run: a missing setting, an empty
    catalog, nothing left to send, an exception and a failed delivery all
    give 1, a failed commit does not. *)
Theorem exit_status_zero_iff_delivered (py_repr : value -> string) (e : env)
    (file : file_state) (can_write : storage) :
  let status := exit_status py_repr e file can_write in
  (status = 0%Z \/ status = 1%Z) /\
  (status = 0%Z <->
   In (Return_send_email_bcc true)
      (trace (snd (run_main py_repr e file can_write)))).
Proof.
  unfold exit_status.
  pose proof (main_form py_repr e file can_write) as Hform.
  destruct (run_main py_repr e file can_write) as [r w].
  cbn [fst snd].
  inversion Hform as [r' Hr | cfg airline iata reqs_a ex Hsel Ha
                     | cfg airline iata reqs_a reqs_m rc Hsel Ha Hm
                     | cfg airline iata name reqs_a reqs_m rc Hsel Ha Hm];
    subst; cbn [trace].
  - destruct Hr as [-> | [ex ->]].
    + split; [right; reflexivity|]. split; [discriminate | intros []].
    + split; [right; reflexivity|]. split; [discriminate | intros []].
  - split; [right; reflexivity|].
    split; [discriminate|].
    intros Hin. destruct Ha as [-> | ->]; locate_event.
  - split; [right; reflexivity|].
    split; [discriminate|].
    intros Hin. destruct Ha as [-> | ->]; destruct Hm as [-> | [req ->]];
      locate_event.
  - split; [left; reflexivity|].
    split; [|reflexivity]. intros _.
    match goal with
    | |- context [add_sent_airline ?n ?o ?i ?a ?w0] =>
        destruct (committed_trace n o i a w0) as [updated [_ Htrace]];
        rewrite Htrace
    end.
    cbn [trace]. apply in_or_app. left.
    right. apply in_or_app. right. right. apply in_or_app. right.
    left. reflexivity.
Qed.

Lemma selected_unsent (e : env) (file : file_state) (cfg : config)
    (airline iata : value) :
  selected e file cfg airline iata ->
  exists catalog sent,
    fst (fetch_all_airlines (catalog_api e) (NINJAS_API_KEY cfg)) = Ok catalog /\
    fst (get_sent_airlines
           {| sent_file := file; writable := Accepts; trace := [] |}) = Ok sent /\
    In airline catalog /\ identifier airline = iata /\
    set_mem sent iata = false /\ set_mem (stored_set file) iata = false.
Proof.
  intros [Hcfg [Hsel Hiata]].
  destruct (select_sound _ _ _ _ Hsel) as [Hin Hfree].
  rewrite (py_get_iata airline iata Hiata) in Hfree.
  exists (catalog_of (consumed (catalog_api e) (NINJAS_API_KEY cfg))),
         (stored_set file).
  split; [apply fetch_all_airlines_catalog|].
  split; [rewrite get_sent_airlines_reads; reflexivity|].
  split; [exact Hin|]. split; [apply py_get_iata; exact Hiata|].
  split; exact Hfree.
Qed.

(** X19. A run deals with one airline only, and never with one already
    sent: the identifier that [get_destinations] is called with is the
    identifier of an item of the fetched catalog that is not in the
    ledger loaded at the start, and an identifier that is committed is
    that same identifier, committed after a run that returns 0. *)
Theorem run_handles_an_unsent_airline (py_repr : value -> string) (e : env)
    (file : file_state) (can_write : storage) (iata : value) :
  let run := run_main py_repr e file can_write in
  In (Call_get_destinations iata) (trace (snd run)) \/
  (exists name, In (Call_add_sent_airline iata name) (trace (snd run))) ->
  (exists cfg catalog sent airline,
     load_config (environ e) = Some cfg /\
     fst (fetch_all_airlines (catalog_api e) (NINJAS_API_KEY cfg)) = Ok catalog /\
     fst (get_sent_airlines
            {| sent_file := file; writable := Accepts; trace := [] |}) = Ok sent /\
     In airline catalog /\ identifier airline = iata /\
     set_mem sent iata = false) /\
  In (Call_get_destinations iata) (trace (snd run)) /\
  ((exists name, In (Call_add_sent_airline iata name) (trace (snd run))) ->
   fst run = Ok 0%Z).
Proof.
  intros run. subst run.
  pose proof (main_form py_repr e file can_write) as Hform.
  destruct (run_main py_repr e file can_write) as [r w].
  cbn [fst snd].
  assert (Hgoal : forall cfg airline iata',
             selected e file cfg airline iata' -> iata = iata' ->
             exists cfg catalog sent airline,
               load_config (environ e) = Some cfg /\
               fst (fetch_all_airlines (catalog_api e) (NINJAS_API_KEY cfg))
               = Ok catalog /\
               fst (get_sent_airlines
                      {| sent_file := file; writable := Accepts; trace := [] |})
               = Ok sent /\
               In airline catalog /\ identifier airline = iata /\
               set_mem sent iata = false).
  { intros cfg airline iata' Hsel ->.
    destruct (selected_unsent e file cfg airline iata' Hsel)
      as [catalog [sent (Hf & Hs & Hin & Hid & Hfree & _)]].
    exists cfg, catalog, sent, airline. destruct Hsel as [Hcfg _]. auto 10. }
  inversion Hform as [r' Hr | cfg airline iata' reqs_a ex Hsel Ha
                     | cfg airline iata' reqs_a reqs_m rc Hsel Ha Hm
                     | cfg airline iata' name' reqs_a reqs_m rc Hsel Ha Hm];
    subst; cbn [trace].
  - intros [Hin|[name Hin]]; destruct Hin.
  - intros Hin.
    assert (Heq : iata = iata').
    { destruct Hin as [Hin|[name Hin]]; destruct Ha as [-> | ->];
        locate_event; reflexivity. }
    subst iata'. split; [apply (Hgoal cfg airline iata Hsel eq_refl)|].
    split; [left; reflexivity|].
    clear Hin. intros [name Hin]. destruct Ha as [-> | ->]; locate_event.
  - intros Hin.
    assert (Heq : iata = iata').
    { destruct Hin as [Hin|[name Hin]]; destruct Ha as [-> | ->];
        destruct Hm as [-> | [req ->]]; locate_event; reflexivity. }
    subst iata'. split; [apply (Hgoal cfg airline iata Hsel eq_refl)|].
    split; [left; reflexivity|].
    clear Hin. intros [name Hin]. destruct Ha as [-> | ->];
      destruct Hm as [-> | [req ->]]; locate_event.
  - match goal with
    | |- context [add_sent_airline ?n ?o ?i ?a ?w0] =>
        destruct (committed_trace n o i a w0) as [updated [_ Htrace]];
        rewrite Htrace
    end.
    cbn [trace]. intros Hin.
    assert (Heq : iata = iata').
    { destruct Hin as [Hin|[name Hin]]; destruct Ha as [-> | ->];
        destruct Hm as [-> | [req ->]]; locate_event; reflexivity. }
    subst iata'. split; [apply (Hgoal cfg airline iata Hsel eq_refl)|].
    split; [apply in_or_app; left; left; reflexivity|].
    intros _. reflexivity.
Qed.

Lemma run_handles_an_unsent_airline_witness :
  let run := run_main (fun _ => EmptyString) (sample_env 200)
                      (ledger_file ["AA"]) Accepts in
  (In (Call_get_destinations (VStr "BB")) (trace (snd run)) \/
   (exists name, In (Call_add_sent_airline (VStr "BB") name) (trace (snd run))))
  /\ In (Call_get_destinations (VStr "BB")) (trace (snd run))
  /\ ((exists name,
         In (Call_add_sent_airline (VStr "BB") name) (trace (snd run))) ->
      fst run = Ok 0%Z).
Proof.
  intros run.
  assert (H : In (Call_get_destinations (VStr "BB")) (trace (snd run)) \/
              (exists name,
                 In (Call_add_sent_airline (VStr "BB") name) (trace (snd run))))
    by (left; vm_compute; left; reflexivity).
  split; [exact H|].
  exact (proj2 (run_handles_an_unsent_airline (fun _ => EmptyString)
                  (sample_env 200) (ledger_file ["AA"]) Accepts (VStr "BB") H)).
Defined.

(** X20. A run makes a single attempt at everything: each client
    function is called at most once, and at most one request goes to the
    enrichment service and at most one to the delivery service. *)
Theorem run_single_attempt (py_repr : value -> string) (e : env)
    (file : file_state) (can_write : storage) (k : nat) :
  occurrences k (trace (snd (run_main py_repr e file can_write))) <= 1.
Proof.
  pose proof (main_form py_repr e file can_write) as Hform.
  destruct (run_main py_repr e file can_write) as [r w].
  cbn [snd].
  inversion Hform as [r' Hr | cfg airline iata' reqs_a ex Hsel Ha
                     | cfg airline iata' reqs_a reqs_m rc Hsel Ha Hm
                     | cfg airline iata' name' reqs_a reqs_m rc Hsel Ha Hm];
    subst; cbn [trace].
  - unfold occurrences. simpl. lia.
  - destruct Ha as [-> | ->]; unfold occurrences;
      destruct k as [|[|[|[|[|[|[|k]]]]]]]; simpl; lia.
  - destruct Ha as [-> | ->]; destruct Hm as [-> | [req ->]];
      unfold occurrences;
      destruct k as [|[|[|[|[|[|[|k]]]]]]]; simpl; lia.
  - match goal with
    | |- context [add_sent_airline ?n ?o ?i ?a ?w0] =>
        destruct (committed_trace n o i a w0) as [updated [_ Htrace]];
        rewrite Htrace
    end.
    cbn [trace].
    destruct Ha as [-> | ->]; destruct Hm as [-> | [req ->]];
      unfold occurrences;
      destruct k as [|[|[|[|[|[|[|k]]]]]]]; simpl; lia.
Qed.

(** X21. No repeat in the next run.  When a run has committed an
    identifier (the commit returned true), a run that starts from the
    ledger file it left, in whatever environment, never selects an
    airline with that identifier again. *)
Theorem next_run_does_not_repeat (py_repr : value -> string) (e1 e2 : env)
    (file : file_state) (can_write1 can_write2 : storage)
    (iata1 name1 iata2 : value) :
  let run1 := run_main py_repr e1 file can_write1 in
  let run2 := run_main py_repr e2 (sent_file (snd run1)) can_write2 in
  In (Call_add_sent_airline iata1 name1) (trace (snd run1)) ->
  In (Return_add_sent_airline true) (trace (snd run1)) ->
  In (Call_get_destinations iata2) (trace (snd run2)) ->
  py_eqb iata2 iata1 = false.
Proof.
  intros run1 run2 Hcall Hret Hnext. subst run1 run2.
  (* the first run left a ledger that holds [iata1] *)
  assert (Hmem : set_mem (stored_set
                            (sent_file (snd (run_main py_repr e1 file can_write1))))
                         iata1 = true).
  { pose proof (main_form py_repr e1 file can_write1) as Hform.
    destruct (run_main py_repr e1 file can_write1) as [r w].
    cbn [snd] in *.
    inversion Hform as [r' Hr | cfg airline iata' reqs_a ex Hsel Ha
                       | cfg airline iata' reqs_a reqs_m rc Hsel Ha Hm
                       | cfg airline iata' name' reqs_a reqs_m rc Hsel Ha Hm];
      subst; cbn [trace] in *.
    - destruct Hcall.
    - destruct Ha as [-> | ->]; locate_event.
    - destruct Ha as [-> | ->]; destruct Hm as [-> | [req ->]]; locate_event.
    - match goal with
      | |- context [add_sent_airline ?n ?o ?i ?a ?w0] =>
          destruct (committed_trace n o i a w0) as [updated [Hfst Htrace]];
          rewrite Htrace in Hcall, Hret;
          destruct (add_sent_airline n o i a w0) as [r1 w1] eqn:Hadd
      end.
      cbn [fst snd trace] in *. subst r1.
      assert (Hid : iata1 = iata' /\ updated = true).
      { destruct Ha as [-> | ->]; destruct Hm as [-> | [req ->]];
          locate_event; split; reflexivity. }
      destruct Hid as [-> ->].
      apply (commit_true_member _ _ _ _ _ _ Hadd). }
  (* the second run selects only what that ledger does not hold *)
  set (file1 := sent_file (snd (run_main py_repr e1 file can_write1))) in *.
  pose proof (main_form py_repr e2 file1 can_write2) as Hform.
  destruct (run_main py_repr e2 file1 can_write2) as [r w].
  cbn [snd] in *.
  assert (Hfree : forall cfg airline iata',
             selected e2 file1 cfg airline iata' -> iata2 = iata' ->
             py_eqb iata2 iata1 = false).
  { intros cfg airline iata' Hsel <-.
    destruct (selected_unsent e2 file1 cfg airline iata2 Hsel)
      as [catalog [sent (_ & _ & _ & _ & _ & Hfree)]].
    destruct (py_eqb iata2 iata1) eqn:Heq; [|reflexivity].
    rewrite (set_mem_eqb _ _ _ Heq Hmem) in Hfree. discriminate. }
  inversion Hform as [r' Hr | cfg airline iata' reqs_a ex Hsel Ha
                     | cfg airline iata' reqs_a reqs_m rc Hsel Ha Hm
                     | cfg airline iata' name' reqs_a reqs_m rc Hsel Ha Hm];
    subst; cbn [trace] in *.
  - destruct Hnext.
  - apply (Hfree cfg airline iata' Hsel).
    destruct Ha as [-> | ->]; locate_event; reflexivity.
  - apply (Hfree cfg airline iata' Hsel).
    destruct Ha as [-> | ->]; destruct Hm as [-> | [req ->]]; locate_event;
      reflexivity.
  - apply (Hfree cfg airline iata' Hsel).
    match goal with
    | H : context [add_sent_airline ?n ?o ?i ?a ?w0] |- _ =>
        destruct (committed_trace n o i a w0) as [updated [_ Htrace]];
        rewrite Htrace in H
    end.
    cbn [trace] in *.
    destruct Ha as [-> | ->]; destruct Hm as [-> | [req ->]]; locate_event;
      reflexivity.
Qed.

Lemma next_run_does_not_repeat_witness :
  let run1 := run_main (fun _ => EmptyString) (sample_env 200)
                       (ledger_file []) Accepts in
  let run2 := run_main (fun _ => EmptyString) (sample_env 200)
                       (sent_file (snd run1)) Accepts in
  In (Call_add_sent_airline (VStr "AA") (VStr "Air A")) (trace (snd run1)) /\
  In (Return_add_sent_airline true) (trace (snd run1)) /\
  In (Call_get_destinations (VStr "BB")) (trace (snd run2)) /\
  py_eqb (VStr "BB") (VStr "AA") = false.
Proof.
  intros run1 run2.
  assert (H1 : In (Call_add_sent_airline (VStr "AA") (VStr "Air A"))
                  (trace (snd run1)))
    by (vm_compute; do 5 right; left; reflexivity).
  assert (H2 : In (Return_add_sent_airline true) (trace (snd run1)))
    by (vm_compute; do 6 right; left; reflexivity).
  assert (H3 : In (Call_get_destinations (VStr "BB")) (trace (snd run2)))
    by (vm_compute; left; reflexivity).
  split; [exact H1|]. split; [exact H2|]. split; [exact H3|].
  exact (next_run_does_not_repeat (fun _ => EmptyString) (sample_env 200)
           (sample_env 200) (ledger_file []) Accepts Accepts (VStr "AA")
           (VStr "Air A") (VStr "BB") H1 H2 H3).
Defined.

(** X22. The mail is about the airline that was selected.  A request
    that goes to the delivery service carries the page rendered from the
    selected airline and from what [get_destinations] returned for its
    identifier, under the subject made of the rendered name, blind-copied
    to the configured recipients (of which there is at least one) and
    addressed to the sender; and what the run commits afterwards is that
    airline's identifier under that name. *)
Theorem main_mails_the_selected_airline (py_repr : value -> string) (e : env)
    (file : file_state) (can_write : storage) (req : mail_request) :
  let run := run_main py_repr e file can_write in
  In (MailgunRequest req) (trace (snd run)) ->
  exists cfg airline iata destinations html name shown,
    selected e file cfg airline iata /\
    fst (get_destinations
           (amadeus_api e (AMADEUS_CLIENT_ID cfg) (AMADEUS_CLIENT_SECRET cfg))
           iata {| sent_file := file; writable := can_write; trace := [] |})
    = Ok destinations /\
    create_email_content py_repr (today e) airline destinations
    = Ok (html, name, shown) /\
    req = mailgun_request e html ("✈️ Daily Airline: " ++ py_str py_repr name)
            (SENDER_EMAIL cfg) (SENDER_APP_PASSWORD cfg) (RECIPIENT_EMAILS cfg) /\
    RECIPIENT_EMAILS cfg <> [] /\
    (forall i n, In (Call_add_sent_airline i n) (trace (snd run)) ->
                 i = iata /\ n = name).
Proof.
  cbv zeta.
  remember (run_main py_repr e file can_write) as run eqn:Hrun.
  revert Hrun. unfold run_main, main.
  destruct (load_config (environ e)) as [cfg|] eqn:Hcfg; [|intros -> []].
  run_monad. rewrite get_sent_airlines_reads. cbn [sent_file].
  rewrite fetch_all_airlines_catalog. unfold lift at 1.
  destruct (catalog_of (consumed (catalog_api e) (NINJAS_API_KEY cfg)))
    as [|c cs] eqn:Hcat; [intros -> []|].
  unfold lift at 1.
  destruct (select (random_draw e) (c :: cs) (stored_set file))
    as [[airline|]|ex] eqn:Hsel; try (intros -> []).
  unfold lift at 1.
  destruct (py_get airline "iata") as [iata|ex] eqn:Hiata; [|intros -> []].
  assert (Hselected : selected e file cfg airline iata).
  { unfold selected. rewrite Hcat. auto. }
  unfold lift at 1.
  destruct (py_get_default airline "name" (VStr "Unknown")) as [name0|ex];
    [|intros -> []].
  match goal with
  | |- context [get_destinations ?a ?i ?w] =>
      destruct (get_destinations_trace a i w) as [r [reqs_a [Hget Hreqs_a]]];
      rewrite Hget
  end.
  unfold with_trace. cbn [sent_file writable trace app].
  destruct r as [destinations|ex];
    [|intros -> Hin; cbn [snd trace] in Hin;
      destruct Hreqs_a as [-> | ->]; locate_event].
  unfold lift at 1.
  destruct (create_email_content py_repr (today e) airline destinations)
    as [[[html name] shown]|ex] eqn:Hrender;
    [|intros -> Hin; cbn [snd trace] in Hin;
      destruct Hreqs_a as [-> | ->]; locate_event].
  destruct (RECIPIENT_EMAILS cfg) as [|rcp rcps] eqn:Hrcp.
  - (* no recipient: nothing is posted, and the run returns 1 *)
    rewrite send_email_bcc_empty. unfold with_trace.
    cbn [sent_file writable trace negb ret M_monad].
    intros -> Hin. cbn [snd trace] in Hin.
    destruct Hreqs_a as [-> | ->]; locate_event.
  - rewrite (send_email_bcc_post e html _ _ _ (rcp :: rcps)) by discriminate.
    unfold with_trace. cbn [sent_file writable trace app negb].
    set (req0 := mailgun_request e html
                   ("✈️ Daily Airline: " ++ py_str py_repr name)
                   (SENDER_EMAIL cfg) (SENDER_APP_PASSWORD cfg) (rcp :: rcps)).
    assert (Hgoal : forall tr,
               (In (MailgunRequest req) tr -> req = req0) ->
               (forall i n, In (Call_add_sent_airline i n) tr ->
                            i = iata /\ n = name) ->
               In (MailgunRequest req) tr ->
               exists cfg0 airline0 iata0 destinations0 html0 name1 shown0,
                 selected e file cfg0 airline0 iata0 /\
                 fst (get_destinations
                        (amadeus_api e (AMADEUS_CLIENT_ID cfg0)
                                     (AMADEUS_CLIENT_SECRET cfg0))
                        iata0 {| sent_file := file; writable := can_write;
                                 trace := [] |})
                 = Ok destinations0 /\
                 create_email_content py_repr (today e) airline0 destinations0
                 = Ok (html0, name1, shown0) /\
                 req = mailgun_request e html0
                         ("✈️ Daily Airline: " ++ py_str py_repr name1)
                         (SENDER_EMAIL cfg0) (SENDER_APP_PASSWORD cfg0)
                         (RECIPIENT_EMAILS cfg0) /\
                 RECIPIENT_EMAILS cfg0 <> [] /\
                 (forall i n, In (Call_add_sent_airline i n) tr ->
                              i = iata0 /\ n = name1)).
    { intros tr Hreq Hadd Hin.
      exists cfg, airline, iata, destinations, html, name, shown.
      split; [exact Hselected|].
      split; [rewrite Hget; reflexivity|].
      split; [exact Hrender|].
      split; [rewrite Hrcp; apply Hreq; exact Hin|].
      split; [rewrite Hrcp; discriminate | exact Hadd]. }
    destruct (delivered (mailgun_api e req0)) eqn:Hdelivered; cbn [negb].
    + match goal with
      | |- context [add_sent_airline ?n ?o ?i ?a ?w0] =>
          destruct (committed_trace n o i a w0) as [updated [Hfst Htrace]];
          destruct (add_sent_airline n o i a w0) as [r1 w1] eqn:Hadd
      end.
      cbn [fst snd trace] in *. subst r1.
      assert (Hrun : forall u : bool,
                 (if u then ret 0%Z else ret 0%Z : M world Z) w1 = (Ok 0%Z, w1))
        by (intros []; reflexivity).
      rewrite Hrun. intros ->. cbn [snd]. rewrite Htrace. apply Hgoal.
      * intros Hin. destruct Hreqs_a as [-> | ->]; locate_event; reflexivity.
      * intros i n Hin. destruct Hreqs_a as [-> | ->]; locate_event;
          split; reflexivity.
    + cbn [ret M_monad]. intros ->. cbn [snd trace]. apply Hgoal.
      * intros Hin. destruct Hreqs_a as [-> | ->]; locate_event; reflexivity.
      * intros i n Hin. destruct Hreqs_a as [-> | ->]; locate_event.
Qed.

Lemma main_mails_the_selected_airline_witness :
  let e := sample_env 200 in
  let file := ledger_file ["AA"] in
  let run := run_main (fun _ => EmptyString) e file Accepts in
  exists req,
    In (MailgunRequest req) (trace (snd run)) /\
    exists cfg airline iata,
      selected e file cfg airline iata /\
      post_bcc req = RECIPIENT_EMAILS cfg /\
      RECIPIENT_EMAILS cfg <> [] /\
      (forall i n, In (Call_add_sent_airline i n) (trace (snd run)) ->
                   i = iata).
Proof.
  intros e file run.
  assert (Hreq : exists req, In (MailgunRequest req) (trace (snd run))).
  { eexists. vm_compute. do 3 right. left. reflexivity. }
  destruct Hreq as [req Hin]. exists req. split; [exact Hin|].
  destruct (main_mails_the_selected_airline (fun _ => EmptyString) e
              file Accepts req Hin)
    as (cfg & airline & iata & destinations & html & name & shown
        & Hsel & Hdest & Hrender & Hreq & Hrcp & Hadd).
  exists cfg, airline, iata.
  split; [exact Hsel|]. split; [rewrite Hreq; reflexivity|].
  split; [exact Hrcp|].
  intros i n Hi. apply (Hadd i n Hi).
Defined.
